(** * The Liquid EVM signing bridge of use-wallet, embedded in Rocq

    Shallow embedding of [LiquidEvmBaseWallet] (the abstract base class of the
    EVM-backed wallets), of the revision of the same class that signs through
    [getSigner], and of the stand-alone [MetaMaskWallet].  Asynchronous
    methods run their awaits in sequence on one thread, so each method is a
    function from the wallet's mutable fields to an outcome (a returned value
    or a thrown error) and the updated fields; calls that leave the wallet
    (provider RPC, the Liquid SDK, the application's hooks) are appended to a
    log. *)

From Stdlib Require Import ZArith String Ascii List Bool Lia.
From stdpp Require Import base option list gmap strings pretty.

Open Scope string_scope.
Open Scope list_scope.

(** ** Values *)

(** A thrown JavaScript [Error]: its message and the optional numeric [code]
    that EIP-1193 providers attach. *)
Record JsError := { err_code : option Z; err_message : string }.

Inductive Outcome (A : Type) : Type :=
| Returned (a : A)
| Thrown (e : JsError).
Arguments Returned {A} a.
Arguments Thrown {A} e.

Definition Uint8Array := list Byte.byte.

(** [algosdk.Transaction]: only the declared sender is inspected by the
    wallet; [payload] stands for the remaining fields. *)
Record Transaction := { sender : string; payload : nat }.

(** [WalletAccount.metadata] as written by [deriveAlgorandAccounts]. *)
Record AccountMetadata := {
  evmAddress : option string;
  connectorName : option string;
  connectorIcon : option string
}.

Record WalletAccount := {
  name : string;
  address : string;
  metadata : option AccountMetadata
}.

Record WalletState := {
  accounts : list WalletAccount;
  activeAccount : option WalletAccount
}.

Record ConnectorInfo := { info_name : option string; info_icon : option string }.

(** The fixed network descriptor [ALGORAND_EVM_CHAIN_CONFIG]. *)
Record ChainConfig := {
  chainId : string;
  chainName : string;
  rpcUrls : list string;
  nativeCurrency : string;
  blockExplorerUrls : list string
}.

(** An entry of the array returned by [signTransactions]: a signed blob,
    [null], or the [undefined] that reading an array out of range yields. *)
Inductive SignedEntry :=
| Blob (b : Uint8Array)
| Null
| Undefined.

(** The argument of [signTransactions]: [T | T[]] with [T] an array of
    transaction objects or of encoded transactions. *)
Inductive TxnGroup (T : Type) : Type :=
| Flat (txns : list T)
| Nested (groups : list (list T)).
Arguments Flat {T} txns.
Arguments Nested {T} groups.

Inductive SignInput :=
| Structured (g : TxnGroup Transaction)
| Encoded (g : TxnGroup Uint8Array).

(** ** Calls that leave the wallet *)

Inductive RpcRequest :=
| eth_chainId
| eth_requestAccounts
| wallet_requestPermissions
| wallet_switchEthereumChain (chain : string)
| wallet_addEthereumChain (config : ChainConfig).

Inductive Call :=
| ProviderRequest (r : RpcRequest)
| SdkGetAddress (evm : string)
| SdkSignTxn (evm : string) (txns : list Transaction)
| SdkSigner (evm : string) (txns : list Transaction) (indexes : list nat)
| OnConnect (evm algorand : string)
| OnBeforeSign (idx : option (list Z))
| OnAfterSign (success : bool) (errorMessage : option string).

(** An EIP-1193 provider as the chain guard sees it: the reply to each of the
    three requests it can issue. *)
Record Provider := {
  reply_chainId : Outcome string;
  reply_requestAccounts : Outcome (list string);
  reply_requestPermissions : Outcome unit;
  reply_switch : Outcome unit;
  reply_add : Outcome unit
}.

(** Everything the wallet instance is constructed with or reaches through an
    import: configuration, the collaborators' behaviour and the application's
    hooks (instance-level and manager-level). *)
Record Env := {
  wallet_name : string;                       (* this.metadata.name *)
  addresses : list string;                    (* this.addresses *)
  ALGORAND_CHAIN_ID_HEX : string;
  ALGORAND_EVM_CHAIN_CONFIG : ChainConfig;
  algokit_load : Outcome unit;                (* import of algokit-utils, fromClients *)
  sdk_load : Outcome unit;                    (* import of liquid-accounts-evm, new LiquidEvmSdk *)
  sdk_getAddress : string → Outcome string;    (* deterministic in the source address *)
  sdk_signTxn : string → list Transaction → Outcome (list Uint8Array);
  sdk_getSigner : string → Outcome unit;
  sdk_signer : string → list Transaction → list nat → Outcome (list Uint8Array);
  initializeProvider : Outcome unit;
  getEvmProvider : Outcome Provider;
  isSignedTxn : Uint8Array → Outcome bool;     (* isSignedTxn (msgpackRawDecode buf) *)
  decodeSignedTransaction : Uint8Array → Outcome Transaction;
  decodeUnsignedTransaction : Uint8Array → Outcome Transaction;
  encodeUnsignedTransaction : Transaction → Uint8Array;
  options_onConnect : option (string → string → Outcome unit);
  manager_onConnect : option (string → string → Outcome unit);
  options_onBeforeSign : option (SignInput → option (list Z) → Outcome unit);
  manager_onBeforeSign : option (SignInput → option (list Z) → Outcome unit);
  options_onAfterSign : option (bool → option string → Outcome unit);
  manager_onAfterSign : option (bool → option string → Outcome unit)
}.

(** The mutable fields of the wallet instance, the persisted session of this
    wallet id in the store, and the log of outgoing calls (oldest first). *)
Record World := {
  evmAddressMap : gmap string string;         (* algorandAddress -> evmAddress *)
  liquidEvmSdk : bool;                        (* false: still null *)
  algorandClient : bool;                      (* false: still null *)
  walletState : option WalletState;           (* store.state.wallets[this.id] *)
  calls : list Call
}.

(** ** The monad of wallet methods *)

Definition M (A : Type) : Type := World → Outcome A * World.

Definition ret {A} (a : A) : M A := λ w, (Returned a, w).
Definition throw {A} (e : JsError) : M A := λ w, (Thrown e, w).
Definition bind {A B} (k : A → M B) (m : M A) : M B :=
  λ w, match m w with
       | (Returned a, w') => k a w'
       | (Thrown e, w') => (Thrown e, w')
       end.

#[global] Instance M_ret : MRet M := @ret.
#[global] Instance M_bind : MBind M := @bind.

(** [try { body } catch (e) { handler e }]: what the body changed before it
    threw stays changed. *)
Definition try_catch {A} (body : M A) (handler : JsError → M A) : M A :=
  λ w, match body w with
       | (Returned a, w') => (Returned a, w')
       | (Thrown e, w') => handler e w'
       end.

Definition get : M World := λ w, (Returned w, w).

Definition await {A} (o : Outcome A) : M A := λ w, (o, w).

Definition log (c : Call) : M unit :=
  λ w, (Returned tt,
        {| evmAddressMap := evmAddressMap w; liquidEvmSdk := liquidEvmSdk w;
           algorandClient := algorandClient w;
           walletState := walletState w; calls := calls w ++ [c] |}).

Definition evmAddressMap_set (k v : string) : M unit :=
  λ w, (Returned tt,
        {| evmAddressMap := <[k:=v]> (evmAddressMap w); liquidEvmSdk := liquidEvmSdk w;
           algorandClient := algorandClient w;
           walletState := walletState w; calls := calls w |}).

Definition set_liquidEvmSdk : M unit :=
  λ w, (Returned tt,
        {| evmAddressMap := evmAddressMap w; liquidEvmSdk := true;
           algorandClient := algorandClient w;
           walletState := walletState w; calls := calls w |}).

Definition set_algorandClient : M unit :=
  λ w, (Returned tt,
        {| evmAddressMap := evmAddressMap w; liquidEvmSdk := liquidEvmSdk w;
           algorandClient := true;
           walletState := walletState w; calls := calls w |}).

(** Errors without state, for the decoding of encoded transactions. *)
#[global] Instance Outcome_ret : MRet Outcome := @Returned.
#[global] Instance Outcome_bind : MBind Outcome :=
  λ A B k o, match o with Returned a => k a | Thrown e => Thrown e end.

(** [array.map(f)] with an [f] that may throw: the first failure aborts. *)
Fixpoint map_throwing {A B} (f : A → Outcome B) (l : list A) : Outcome (list B) :=
  match l with
  | [] => Returned []
  | x :: rest =>
      match f x with
      | Thrown e => Thrown e
      | Returned y =>
          match map_throwing f rest with
          | Thrown e => Thrown e
          | Returned ys => Returned (y :: ys)
          end
      end
  end.

(** ** JavaScript helpers *)

(** Truthiness of a [string | undefined]: [undefined] and the empty string
    are falsy. *)
Definition truthy (s : option string) : bool :=
  match s with
  | Some s => negb (String.eqb s "")
  | None => false
  end.

(** The narrowing that [if (s)] performs: the string when it is truthy. *)
Definition if_truthy (s : option string) : option string :=
  if truthy s then s else None.

(** [a ?? b] *)
Definition nullish {A} (a b : option A) : option A :=
  match a with
  | Some x => Some x
  | None => b
  end.

Definition ascii_toLowerCase (c : ascii) : ascii :=
  let n := nat_of_ascii c in
  if Nat.leb 65 n && Nat.leb n 90 then ascii_of_nat (n + 32) else c.

(** [String.prototype.toLowerCase] on the ASCII strings that chain ids are. *)
Fixpoint toLowerCase (s : string) : string :=
  match s with
  | EmptyString => EmptyString
  | String c r => String (ascii_toLowerCase c) (toLowerCase r)
  end.

(** [indexesToSign.includes(index)]: an array of numbers never contains an
    index it does not list (negative entries never match). *)
Definition includes_index (indexesToSign : list Z) (index : nat) : bool :=
  bool_decide (Z.of_nat index ∈ indexesToSign).

(** [!indexesToSign || indexesToSign.includes(index)]; every array, the empty
    one too, is truthy. *)
Definition isIndexMatch (indexesToSign : option (list Z)) (index : nat) : bool :=
  match indexesToSign with
  | None => true
  | Some l => includes_index l index
  end.

Definition includes_address (l : list string) (a : string) : bool :=
  bool_decide (a ∈ l).

(** [signedBlobs[index]] *)
Definition blob_at (signedBlobs : list Uint8Array) (index : nat) : SignedEntry :=
  match signedBlobs !! index with
  | Some b => Blob b
  | None => Undefined
  end.

(** Modelled from the spec: [flattenTxnGroup] of src/utils, which is not
    among the sources: a group nested one level is flattened one level, a
    flat group is returned as it is. *)
Definition flattenTxnGroup {T} (g : TxnGroup T) : list T :=
  match g with
  | Flat txns => txns
  | Nested groups => concat groups
  end.

(** Modelled from the spec: [compareAccounts] of src/utils, which is not
    among the sources: the two account lists carry the same set of
    addresses, whatever their order. *)
Definition compareAccounts (a b : list WalletAccount) : bool :=
  bool_decide (list_to_set (address <$> a) =@{gset string} list_to_set (address <$> b)).

(** [provider.request({ method, params })]: the request is logged and the
    provider's reply awaited.  [request] is for the requests whose result the
    caller drops. *)
Definition request (provider : Provider) (r : RpcRequest) : M unit :=
  log (ProviderRequest r) ;;
  match r with
  | eth_chainId => _ ← await (reply_chainId provider); ret tt
  | eth_requestAccounts => _ ← await (reply_requestAccounts provider); ret tt
  | wallet_requestPermissions => await (reply_requestPermissions provider)
  | wallet_switchEthereumChain _ => await (reply_switch provider)
  | wallet_addEthereumChain _ => await (reply_add provider)
  end.

Definition request_chainId (provider : Provider) : M string :=
  log (ProviderRequest eth_chainId) ;; await (reply_chainId provider).

Definition request_accounts (provider : Provider) : M (list string) :=
  log (ProviderRequest eth_requestAccounts) ;; await (reply_requestAccounts provider).

(** Modelled from the spec: [addWallet] of src/store, which is not among the
    sources: the mutation entry point that records the session of this wallet
    id in the store. *)
Definition addWallet (ws : WalletState) : M unit :=
  λ w, (Returned tt,
        {| evmAddressMap := evmAddressMap w; liquidEvmSdk := liquidEvmSdk w;
           algorandClient := algorandClient w;
           walletState := Some ws; calls := calls w |}).

(** ** LiquidEvmBaseWallet

    The revision of the class in src/unnamed/part_000: the chain guard knows
    three "unknown chain" codes, [signTransactions] signs through
    [evmSdk.signTxn] and falls back to the persisted accounts for the source
    address, [resumeWithAccounts] always hands the accounts to its callback.
    Logger calls are left out. *)

Module LiquidEvmBase.
Section wallet.
Context (this : Env).

(** 4902, -32600 and -32603: the codes wallets answer for a chain they do
    not know. *)
Definition unknown_chain_codes : list Z := [4902; -32600; -32603]%Z.

Definition chainUnknown (switchError : JsError) : bool :=
  match err_code switchError with
  | Some c => bool_decide (c ∈ unknown_chain_codes)
  | None => false
  end.

Definition sameChainId (currentChainId : string) : bool :=
  String.eqb (toLowerCase currentChainId) (toLowerCase (ALGORAND_CHAIN_ID_HEX this)).

Definition ensureAlgorandChain : M unit :=
  provider ← await (getEvmProvider this);
  currentChainId ← request_chainId provider;
  if sameChainId currentChainId then ret tt
  else
    try_catch
      (request provider (wallet_switchEthereumChain (ALGORAND_CHAIN_ID_HEX this)))
      (λ switchError,
         if chainUnknown switchError
         then request provider (wallet_addEthereumChain (ALGORAND_EVM_CHAIN_CONFIG this))
         else throw switchError).

Definition initializeEvmSdk : M unit :=
  w ← get;
  if liquidEvmSdk w then ret tt
  else
    (if algorandClient w then ret tt
     else await (algokit_load this) ;; set_algorandClient) ;;
    await (sdk_load this) ;;
    set_liquidEvmSdk.

Definition derived_metadata (evm : string) (connectorInfo : option ConnectorInfo)
  : AccountMetadata :=
  {| evmAddress := Some evm;
     connectorName := if_truthy (connectorInfo ≫= info_name);
     connectorIcon := if_truthy (connectorInfo ≫= info_icon) |}.

(** The [for] loop of [deriveAlgorandAccounts]; [walletAccounts] is the
    array built so far. *)
Fixpoint derive_loop (evmAddresses : list string) (connectorInfo : option ConnectorInfo)
    (walletAccounts : list WalletAccount) : M (list WalletAccount) :=
  match evmAddresses with
  | [] => ret walletAccounts
  | evm :: rest =>
      log (SdkGetAddress evm) ;;
      algorandAddress ← await (sdk_getAddress this evm);
      evmAddressMap_set algorandAddress evm ;;
      derive_loop rest connectorInfo
        (walletAccounts ++
           [ {| name := wallet_name this +:+ " " +:+ evm;
                address := algorandAddress;
                metadata := Some (derived_metadata evm connectorInfo) |} ])
  end.

Definition deriveAlgorandAccounts (evmAddresses : list string)
    (connectorInfo : option ConnectorInfo) : M (list WalletAccount) :=
  initializeEvmSdk ;;
  derive_loop evmAddresses connectorInfo [].

(** The [forEach] of [processTxns], from position [index] on; [txnsToSign]
    is the array pushed to so far. *)
Fixpoint processTxns_from (index : nat) (txnGroup : list Transaction)
    (indexesToSign : option (list Z)) (txnsToSign : list Transaction) : list Transaction :=
  match txnGroup with
  | [] => txnsToSign
  | txn :: rest =>
      let isIndexMatch := isIndexMatch indexesToSign index in
      let signer := sender txn in
      let canSignTxn := includes_address (addresses this) signer in
      processTxns_from (S index) rest indexesToSign
        (if isIndexMatch && canSignTxn then txnsToSign ++ [txn] else txnsToSign)
  end.

Definition processTxns (txnGroup : list Transaction) (indexesToSign : option (list Z))
  : list Transaction :=
  processTxns_from 0 txnGroup indexesToSign [].

(** Probe and decode one encoded transaction: whether it is a signed
    wrapper, and the transaction inside. *)
Definition decodeTxn (txnBuffer : Uint8Array) : Outcome (bool * Transaction) :=
  isSigned ← isSignedTxn this txnBuffer;
  txn ← (if isSigned : bool then decodeSignedTransaction this txnBuffer
         else decodeUnsignedTransaction this txnBuffer);
  mret (isSigned, txn).

Fixpoint processEncodedTxns_from (index : nat) (txnGroup : list Uint8Array)
    (indexesToSign : option (list Z)) (txnsToSign : list Transaction)
  : Outcome (list Transaction) :=
  match txnGroup with
  | [] => Returned txnsToSign
  | txnBuffer :: rest =>
      '(isSigned, txn) ← decodeTxn txnBuffer;
      let isIndexMatch := isIndexMatch indexesToSign index in
      let signer := sender txn in
      let canSignTxn := negb isSigned && includes_address (addresses this) signer in
      processEncodedTxns_from (S index) rest indexesToSign
        (if isIndexMatch && canSignTxn then txnsToSign ++ [txn] else txnsToSign)
  end.

Definition processEncodedTxns (txnGroup : list Uint8Array) (indexesToSign : option (list Z))
  : Outcome (list Transaction) :=
  processEncodedTxns_from 0 txnGroup indexesToSign [].

(** The loop that refills [evmAddressMap] from persisted accounts; the
    source writes it out in [signTransactions] and in [resumeWithAccounts]. *)
Fixpoint rebuildEvmAddressMap (persisted : list WalletAccount) : M unit :=
  match persisted with
  | [] => ret tt
  | account :: rest =>
      match if_truthy (metadata account ≫= evmAddress) with
      | Some addr => evmAddressMap_set (address account) addr
      | None => ret tt
      end ;;
      rebuildEvmAddressMap rest
  end.

Definition evmAddressMap_get (algorandAddress : string) : M (option string) :=
  w ← get; ret (evmAddressMap w !! algorandAddress).

(** [flatTxns] of [signTransactions]. *)
Definition flatten_and_decode (txnGroup : SignInput) : Outcome (list Transaction) :=
  match txnGroup with
  | Structured g => Returned (flattenTxnGroup g)
  | Encoded g => map_throwing (λ txnBuffer, '(_, txn) ← decodeTxn txnBuffer; mret txn)
                 (flattenTxnGroup g)
  end.

Definition select_txnsToSign (txnGroup : SignInput) (flatTxns : list Transaction)
    (indexesToSign : option (list Z)) : Outcome (list Transaction) :=
  match txnGroup with
  | Structured _ => Returned (processTxns flatTxns indexesToSign)
  | Encoded g => processEncodedTxns (flattenTxnGroup g) indexesToSign
  end.

Definition no_evm_address (algorandAddress : string) : JsError :=
  {| err_code := None;
     err_message := "No EVM address found for Algorand address: " +:+ algorandAddress |}.

(** One entry of the result array. *)
Definition result_entry (indexesToSign : option (list Z)) (signedBlobs : list Uint8Array)
    (index : nat) (txn : Transaction) : SignedEntry :=
  let isIndexMatch := isIndexMatch indexesToSign index in
  let signer := sender txn in
  let canSignTxn := includes_address (addresses this) signer in
  if isIndexMatch && canSignTxn then blob_at signedBlobs index else Null.

(** The read of [evmAddressMap] for the first transaction to sign, with the
    fallback that refills the map from the persisted accounts. *)
Definition resolve_evmAddress (algorandAddress : string) : M (option string) :=
  found ← evmAddressMap_get algorandAddress;
  if negb (truthy found) then
    w ← get;
    match walletState w with
    | Some ws =>
        rebuildEvmAddressMap (accounts ws) ;;
        evmAddressMap_get algorandAddress
    | None => ret found
    end
  else ret found.

(** The [try] block from the hooks on, once the source address [evm] is
    known: before-sign hook, chain guard, the one SDK call, after-sign
    hook, result array. *)
Definition sign_with (txnGroup : SignInput) (indexesToSign : option (list Z))
    (flatTxns : list Transaction) (evm : string) : M (list SignedEntry) :=
  match nullish (options_onBeforeSign this) (manager_onBeforeSign this) with
  | Some onBeforeSign =>
      log (OnBeforeSign indexesToSign) ;;
      await (onBeforeSign txnGroup indexesToSign)
  | None => ret tt
  end ;;
  ensureAlgorandChain ;;
  log (SdkSignTxn evm flatTxns) ;;
  signedBlobs ← await (sdk_signTxn this evm flatTxns);
  match nullish (options_onAfterSign this) (manager_onAfterSign this) with
  | Some onAfterSign =>
      try_catch (log (OnAfterSign true None) ;; await (onAfterSign true None))
                (λ _, ret tt)
  | None => ret tt
  end ;;
  ret (imap (result_entry indexesToSign signedBlobs) flatTxns).

(** The body of the [try] block of [signTransactions]. *)
Definition signTransactions_try (txnGroup : SignInput) (indexesToSign : option (list Z))
  : M (list SignedEntry) :=
  initializeEvmSdk ;;
  flatTxns ← await (flatten_and_decode txnGroup);
  txnsToSign ← await (select_txnsToSign txnGroup flatTxns indexesToSign);
  match txnsToSign with
  | [] => ret ((λ _, Null) <$> flatTxns)
  | firstTxn :: _ =>
      let algorandAddress := sender firstTxn in
      found ← resolve_evmAddress algorandAddress;
      match if_truthy found with
      | None => throw (no_evm_address algorandAddress)
      | Some evm => sign_with txnGroup indexesToSign flatTxns evm
      end
  end.

(** The [catch] block of [signTransactions]. *)
Definition signTransactions_catch (error : JsError) : M (list SignedEntry) :=
  try_catch
    (match nullish (options_onAfterSign this) (manager_onAfterSign this) with
     | Some onAfterSignCleanup =>
         log (OnAfterSign false (Some (err_message error))) ;;
         await (onAfterSignCleanup false (Some (err_message error)))
     | None => ret tt
     end)
    (λ _, ret tt) ;;
  throw error.

Definition signTransactions (txnGroup : SignInput) (indexesToSign : option (list Z))
  : M (list SignedEntry) :=
  try_catch (signTransactions_try txnGroup indexesToSign) signTransactions_catch.

Definition resumeWithAccounts (evmAddresses : list string)
    (setAccountsFn : list WalletAccount → M unit)
    (connectorInfo : option ConnectorInfo) : M unit :=
  w ← get;
  match walletState w with
  | None => ret tt
  | Some ws =>
      rebuildEvmAddressMap (accounts ws) ;;
      walletAccounts ← deriveAlgorandAccounts evmAddresses connectorInfo;
      let match_ := compareAccounts walletAccounts (accounts ws) in
      (* a mismatch is only logged *)
      setAccountsFn walletAccounts
  end.

Definition notifyConnect (evm algorandAddress : string) : M unit :=
  match nullish (options_onConnect this) (manager_onConnect this) with
  | Some onConnect => log (OnConnect evm algorandAddress) ;; await (onConnect evm algorandAddress)
  | None => ret tt
  end.

(** [RainbowWallet.connect] (src/unnamed/part_001), a subclass's [connect]:
    the provider is asked for the source addresses, the accounts are derived
    from them and recorded.  The subclass's [getProvider] is the
    environment's [getEvmProvider]; the [catch] block logs and rethrows. *)
Definition connect : M (list WalletAccount) :=
  await (initializeProvider this) ;;
  initializeEvmSdk ;;
  provider ← await (getEvmProvider this);
  evmAddresses ← request_accounts provider;
  match evmAddresses with
  | [] => throw {| err_code := None; err_message := "No accounts found!" |}
  | firstEvm :: _ =>
      walletAccounts ← deriveAlgorandAccounts evmAddresses None;
      addWallet {| accounts := walletAccounts; activeAccount := head walletAccounts |} ;;
      match head walletAccounts with
      | None => throw {| err_code := None;
                         err_message := "Cannot read properties of undefined (reading 'address')" |}
      | Some active => notifyConnect firstEvm (address active)
      end ;;
      ret walletAccounts
  end.

End wallet.
End LiquidEvmBase.

(** ** The revision of liquid-evm-base.ts that signs through [getSigner]

    The class as it is in src/packages/use-wallet/src/wallets/liquid-evm-base.ts:
    every entry is kept as a [SignerTransaction], the ones not to sign with
    [signers: []], and the signer is called with the positions to sign.
    [initializeEvmSdk], the decoding and the [catch] block have the text of
    the revision above and are shared with it. *)

Record SignerTransaction := { txn : Transaction; signers : option (list string) }.

Module LiquidEvmBaseSigner.
Section wallet.
Context (this : Env).

Definition ensureAlgorandChain : M unit :=
  provider ← await (getEvmProvider this);
  currentChainId ← request_chainId provider;
  if String.eqb currentChainId (ALGORAND_CHAIN_ID_HEX this) then ret tt
  else
    try_catch
      (request provider (wallet_switchEthereumChain (ALGORAND_CHAIN_ID_HEX this)))
      (λ switchError,
         if bool_decide (err_code switchError = Some 4902%Z)
         then request provider (wallet_addEthereumChain (ALGORAND_EVM_CHAIN_CONFIG this))
         else throw switchError).

Fixpoint derive_loop (evmAddresses : list string) (walletAccounts : list WalletAccount)
  : M (list WalletAccount) :=
  match evmAddresses with
  | [] => ret walletAccounts
  | evm :: rest =>
      log (SdkGetAddress evm) ;;
      algorandAddress ← await (sdk_getAddress this evm);
      evmAddressMap_set algorandAddress evm ;;
      derive_loop rest
        (walletAccounts ++
           [ {| name := wallet_name this +:+ " " +:+ evm;
                address := algorandAddress;
                metadata := Some {| evmAddress := Some evm; connectorName := None;
                                    connectorIcon := None |} |} ])
  end.

Definition deriveAlgorandAccounts (evmAddresses : list string) : M (list WalletAccount) :=
  LiquidEvmBase.initializeEvmSdk this ;;
  derive_loop evmAddresses [].

Definition classified (indexesToSign : option (list Z)) (canSignTxn : bool)
    (index : nat) (t : Transaction) : SignerTransaction :=
  if isIndexMatch indexesToSign index && canSignTxn
  then {| txn := t; signers := None |}
  else {| txn := t; signers := Some [] |}.

Fixpoint processTxns_from (index : nat) (txnGroup : list Transaction)
    (indexesToSign : option (list Z)) (txnsToSign : list SignerTransaction)
  : list SignerTransaction :=
  match txnGroup with
  | [] => txnsToSign
  | t :: rest =>
      let signer := sender t in
      let canSignTxn := includes_address (addresses this) signer in
      processTxns_from (S index) rest indexesToSign
        (txnsToSign ++ [classified indexesToSign canSignTxn index t])
  end.

Definition processTxns (txnGroup : list Transaction) (indexesToSign : option (list Z))
  : list SignerTransaction :=
  processTxns_from 0 txnGroup indexesToSign [].

Fixpoint processEncodedTxns_from (index : nat) (txnGroup : list Uint8Array)
    (indexesToSign : option (list Z)) (txnsToSign : list SignerTransaction)
  : Outcome (list SignerTransaction) :=
  match txnGroup with
  | [] => Returned txnsToSign
  | txnBuffer :: rest =>
      '(isSigned, t) ← LiquidEvmBase.decodeTxn this txnBuffer;
      let signer := sender t in
      let canSignTxn := negb isSigned && includes_address (addresses this) signer in
      processEncodedTxns_from (S index) rest indexesToSign
        (txnsToSign ++ [classified indexesToSign canSignTxn index t])
  end.

Definition processEncodedTxns (txnGroup : list Uint8Array) (indexesToSign : option (list Z))
  : Outcome (list SignerTransaction) :=
  processEncodedTxns_from 0 txnGroup indexesToSign [].

(** The [reduce] that collects the positions without a [signers] field. *)
Fixpoint signIndexes_from (i : nat) (txnsToSign : list SignerTransaction) (acc : list nat)
  : list nat :=
  match txnsToSign with
  | [] => acc
  | t :: rest =>
      signIndexes_from (S i) rest
        (match signers t with None => acc ++ [i] | Some _ => acc end)
  end.

(** The [map] that hands out the signed blobs in order; [signedIdx] is the
    counter it increments. *)
Fixpoint assemble_from (index signedIdx : nat) (txnsToSign : list SignerTransaction)
    (signIndexes : list nat) (signedBlobs : list Uint8Array) : list SignedEntry :=
  match txnsToSign with
  | [] => []
  | _ :: rest =>
      if bool_decide (index ∈ signIndexes)
      then blob_at signedBlobs signedIdx
             :: assemble_from (S index) (S signedIdx) rest signIndexes signedBlobs
      else Null :: assemble_from (S index) signedIdx rest signIndexes signedBlobs
  end.

Definition signTransactions_try (txnGroup : SignInput) (indexesToSign : option (list Z))
  : M (list SignedEntry) :=
  LiquidEvmBase.initializeEvmSdk this ;;
  txnsToSign ←
    await (match txnGroup with
           | Structured g => Returned (processTxns (flattenTxnGroup g) indexesToSign)
           | Encoded g => processEncodedTxns (flattenTxnGroup g) indexesToSign
           end);
  match txnsToSign with
  | [] => throw {| err_code := None;
                   err_message := "Cannot read properties of undefined (reading 'txn')" |}
  | firstTxn :: _ =>
      let algorandAddress := sender (txn firstTxn) in
      found ← LiquidEvmBase.evmAddressMap_get algorandAddress;
      match if_truthy found with
      | None => throw (LiquidEvmBase.no_evm_address algorandAddress)
      | Some evm =>
          match nullish (options_onBeforeSign this) (manager_onBeforeSign this) with
          | Some onBeforeSign =>
              let txnsAsUint8 := (λ t, encodeUnsignedTransaction this (txn t)) <$> txnsToSign in
              log (OnBeforeSign indexesToSign) ;;
              await (onBeforeSign (Encoded (Flat txnsAsUint8)) indexesToSign)
          | None => ret tt
          end ;;
          ensureAlgorandChain ;;
          await (sdk_getSigner this evm) ;;
          let allTxns := txn <$> txnsToSign in
          let signIndexes := signIndexes_from 0 txnsToSign [] in
          log (SdkSigner evm allTxns signIndexes) ;;
          signedBlobs ← await (sdk_signer this evm allTxns signIndexes);
          match nullish (options_onAfterSign this) (manager_onAfterSign this) with
          | Some onAfterSign =>
              try_catch (log (OnAfterSign true None) ;; await (onAfterSign true None))
                        (λ _, ret tt)
          | None => ret tt
          end ;;
          ret (assemble_from 0 0 txnsToSign signIndexes signedBlobs)
      end
  end.

Definition signTransactions (txnGroup : SignInput) (indexesToSign : option (list Z))
  : M (list SignedEntry) :=
  try_catch (signTransactions_try txnGroup indexesToSign)
            (LiquidEvmBase.signTransactions_catch this).

Definition resumeWithAccounts (evmAddresses : list string)
    (setAccountsFn : list WalletAccount → M unit) : M unit :=
  w ← get;
  match walletState w with
  | None => ret tt
  | Some ws =>
      LiquidEvmBase.rebuildEvmAddressMap (accounts ws) ;;
      walletAccounts ← deriveAlgorandAccounts evmAddresses;
      let match_ := compareAccounts walletAccounts (accounts ws) in
      if negb match_ then setAccountsFn walletAccounts else ret tt
  end.

End wallet.
End LiquidEvmBaseSigner.

(** ** The stand-alone MetaMaskWallet

    [MetaMaskWallet] of src/unnamed/part_002 extends [BaseWallet] directly.
    Its [initializeEvmSdk], [processTxns], [processEncodedTxns] and result
    loop have the text of [LiquidEvmBaseWallet]'s and are shared with it; its
    [catch] block only logs and rethrows. *)

Module MetaMask.
Section wallet.
Context (this : Env).

Fixpoint derive_loop (i : nat) (evmAddresses : list string)
    (walletAccounts : list WalletAccount) : M (list WalletAccount) :=
  match evmAddresses with
  | [] => ret walletAccounts
  | evm :: rest =>
      log (SdkGetAddress evm) ;;
      algorandAddress ← await (sdk_getAddress this evm);
      evmAddressMap_set algorandAddress evm ;;
      derive_loop (S i) rest
        (walletAccounts ++
           [ {| name := wallet_name this +:+ " Account " +:+ pretty (i + 1);
                address := algorandAddress;
                metadata := None |} ])
  end.

Definition deriveAlgorandAccounts (evmAddresses : list string) : M (list WalletAccount) :=
  LiquidEvmBase.initializeEvmSdk this ;;
  derive_loop 0 evmAddresses [].

Definition signTransactions (txnGroup : SignInput) (indexesToSign : option (list Z))
  : M (list SignedEntry) :=
  LiquidEvmBase.initializeEvmSdk this ;;
  flatTxns ← await (LiquidEvmBase.flatten_and_decode this txnGroup);
  txnsToSign ← await (LiquidEvmBase.select_txnsToSign this txnGroup flatTxns indexesToSign);
  match txnsToSign with
  | [] => ret ((λ _, Null) <$> flatTxns)
  | firstTxn :: _ =>
      let algorandAddress := sender firstTxn in
      found ← LiquidEvmBase.evmAddressMap_get algorandAddress;
      match if_truthy found with
      | None => throw (LiquidEvmBase.no_evm_address algorandAddress)
      | Some evm =>
          log (SdkSignTxn evm flatTxns) ;;
          signedBlobs ← await (sdk_signTxn this evm flatTxns);
          ret (imap (LiquidEvmBase.result_entry this indexesToSign signedBlobs) flatTxns)
      end
  end.

Definition connect : M (list WalletAccount) :=
  await (initializeProvider this) ;;        (* initializeMetamaskSDK *)
  LiquidEvmBase.initializeEvmSdk this ;;
  provider ← await (getEvmProvider this);
  try_catch (request provider wallet_requestPermissions) (λ _, ret tt) ;;
  evmAddresses ← request_accounts provider;
  match evmAddresses with
  | [] => throw {| err_code := None; err_message := "No accounts found!" |}
  | _ :: _ =>
      walletAccounts ← deriveAlgorandAccounts evmAddresses;
      addWallet {| accounts := walletAccounts; activeAccount := head walletAccounts |} ;;
      ret walletAccounts
  end.

End wallet.
End MetaMask.

(** ** Notions used to state the properties *)

(** The world [w] after the calls [cs] were issued and nothing else changed. *)
Definition issued (w : World) (cs : list Call) : World :=
  {| evmAddressMap := evmAddressMap w; liquidEvmSdk := liquidEvmSdk w;
     algorandClient := algorandClient w; walletState := walletState w;
     calls := calls w ++ cs |}.

(** [reverseLookup]: the plain read of the target-to-source map. *)
Definition reverseLookup (w : World) (algorandAddress : string) : option string :=
  evmAddressMap w !! algorandAddress.

(** The claim's rule of eligibility, in the spec's words: (a) no index filter
    is supplied or the entry's index is in the filter, (b) the entry's
    declared sender is among the addresses owned by this wallet, (c) for
    binary-encoded input, the entry is not already signed. *)
Definition eligibleForSignature (owned : list string) (indexFilter : option (list Z))
    (encoded alreadySigned : bool) (index : nat) (declaredSender : string) : Prop :=
  match indexFilter with
  | None => True
  | Some F => Z.of_nat index ∈ F
  end
  ∧ declaredSender ∈ owned
  ∧ (encoded = true → alreadySigned = false).

#[global] Instance eligibleForSignature_dec owned F enc s i a :
  Decision (eligibleForSignature owned F enc s i a).
Proof. unfold eligibleForSignature. destruct F; apply _. Defined.

(** The entries of [l] that satisfy [P] at their position, in order; the
    first entry of [l] has position [i]. *)
Definition selected_from {A} (P : nat → A → Prop) `{∀ i x, Decision (P i x)}
    (i : nat) (l : list A) : list A :=
  omap id (imap (λ j x, if decide (P (i + j) x) then Some x else None) l).

Definition selected {A} (P : nat → A → Prop) `{∀ i x, Decision (P i x)} (l : list A) : list A :=
  selected_from P 0 l.

(** All buffers of a group probe and decode, to [decoded]. *)
Definition decoded_as (this : Env) (bufs : list Uint8Array)
    (decoded : list (bool * Transaction)) : Prop :=
  map_throwing (LiquidEvmBase.decodeTxn this) bufs = Returned decoded.

(** The map after it was refilled from the persisted accounts: every account
    whose metadata carries a source address is (re)entered. *)
Definition rebuilt (m : gmap string string) (persisted : list WalletAccount)
  : gmap string string :=
  foldl (λ m account,
           match if_truthy (metadata account ≫= evmAddress) with
           | Some evm => <[address account := evm]> m
           | None => m
           end) m persisted.

Definition with_map (w : World) (m : gmap string string) : World :=
  {| evmAddressMap := m; liquidEvmSdk := liquidEvmSdk w;
     algorandClient := algorandClient w; walletState := walletState w;
     calls := calls w |}.

(** The claim's resolution of the signing source address for the target
    address [a]: the map is read; when it has no (usable) entry and a session
    is persisted, the map is refilled from the persisted accounts and read
    again.  The empty string counts as no entry, as every falsy value does. *)
Definition resolved (w : World) (a : string) : option string * World :=
  match if_truthy (reverseLookup w a) with
  | Some evm => (Some evm, w)
  | None =>
      match walletState w with
      | Some ws =>
          let w2 := with_map w (rebuilt (evmAddressMap w) (accounts ws)) in
          (if_truthy (reverseLookup w2 a), w2)
      | None => (None, w)
      end
  end.

(** The account [deriveAlgorandAccounts] builds for the source address
    [evm] whose derived address is [target evm]. *)
Definition derived_account (this : Env) (connectorInfo : option ConnectorInfo)
    (target : string → string) (evm : string) : WalletAccount :=
  {| name := wallet_name this +:+ " " +:+ evm;
     address := target evm;
     metadata := Some (LiquidEvmBase.derived_metadata evm connectorInfo) |}.

(** The map after the pairs of [evmAddresses] were entered in order. *)
Definition derived_map (m : gmap string string) (target : string → string)
    (evmAddresses : list string) : gmap string string :=
  foldl (λ m evm, <[target evm := evm]> m) m evmAddresses.

Definition is_sign_call (c : Call) : bool :=
  match c with
  | SdkSignTxn _ _ | SdkSigner _ _ _ => true
  | _ => false
  end.

(** ** A concrete wallet for the examples *)

Module Sample.

Definition on_algorand : Provider :=
  {| reply_chainId := Returned "0x1040";
     reply_requestAccounts := Returned ["0xA"; "0xB"];
     reply_requestPermissions := Returned tt;
     reply_switch := Returned tt;
     reply_add := Returned tt |}.

(** A provider on chain 1 that does not know the Algorand chain and
    answers the switch request with [code]. *)
Definition on_mainnet (code : option Z) : Provider :=
  {| reply_chainId := Returned "0x1";
     reply_requestAccounts := Returned ["0xA"; "0xB"];
     reply_requestPermissions := Returned tt;
     reply_switch := Thrown {| err_code := code; err_message := "Unrecognized chain ID" |};
     reply_add := Returned tt |}.

Definition chain_config : ChainConfig :=
  {| chainId := "0x1040"; chainName := "Algorand";
     rpcUrls := ["https://rpc.example"]; nativeCurrency := "ALGO";
     blockExplorerUrls := ["https://explorer.example"] |}.

(** Encoded transactions of the examples: the first byte tells a signed
    wrapper (01) from a bare transaction, the second names the sender. *)
Definition sender_of (b : Byte.byte) : string :=
  match b with
  | Byte.x0a => "ALGO:0xA"
  | Byte.x0b => "ALGO:0xB"
  | _ => "ALGO:other"
  end.

Definition malformed : JsError :=
  {| err_code := None; err_message := "malformed msgpack" |}.

Definition probe (buf : Uint8Array) : Outcome bool :=
  match buf with
  | Byte.x01 :: _ => Returned true
  | _ :: _ => Returned false
  | [] => Thrown malformed
  end.

Definition decode (buf : Uint8Array) : Outcome Transaction :=
  match buf with
  | _ :: who :: _ => Returned {| sender := sender_of who; payload := length buf |}
  | _ => Thrown malformed
  end.

(** The SDK of the examples signs every transaction it is handed: one blob
    per transaction. *)
Definition sign_all (evm : string) (txns : list Transaction) : Outcome (list Uint8Array) :=
  Returned ((λ _, [Byte.xff]) <$> txns).

Definition sign_selected (evm : string) (txns : list Transaction) (idx : list nat)
  : Outcome (list Uint8Array) :=
  Returned ((λ _, [Byte.xff]) <$> idx).

Definition wallet (p : Provider) : Env :=
  {| wallet_name := "Rainbow";
     addresses := ["ALGO:0xA"; "ALGO:0xB"];
     ALGORAND_CHAIN_ID_HEX := "0x1040";
     ALGORAND_EVM_CHAIN_CONFIG := chain_config;
     algokit_load := Returned tt;
     sdk_load := Returned tt;
     sdk_getAddress := λ evm, Returned ("ALGO:" +:+ evm);
     sdk_signTxn := sign_all;
     sdk_getSigner := λ _, Returned tt;
     sdk_signer := sign_selected;
     initializeProvider := Returned tt;
     getEvmProvider := Returned p;
     isSignedTxn := probe;
     decodeSignedTransaction := decode;
     decodeUnsignedTransaction := decode;
     encodeUnsignedTransaction := λ _, [Byte.x00; Byte.x0a];
     options_onConnect := None;
     manager_onConnect := None;
     options_onBeforeSign := None;
     manager_onBeforeSign := None;
     options_onAfterSign := None;
     manager_onAfterSign := None |}.

(** The same wallet with an application hook that itself throws. *)
Definition with_failing_hook (e : Env) : Env :=
  {| wallet_name := wallet_name e; addresses := addresses e;
     ALGORAND_CHAIN_ID_HEX := ALGORAND_CHAIN_ID_HEX e;
     ALGORAND_EVM_CHAIN_CONFIG := ALGORAND_EVM_CHAIN_CONFIG e;
     algokit_load := algokit_load e; sdk_load := sdk_load e;
     sdk_getAddress := sdk_getAddress e; sdk_signTxn := sdk_signTxn e;
     sdk_getSigner := sdk_getSigner e; sdk_signer := sdk_signer e;
     initializeProvider := initializeProvider e; getEvmProvider := getEvmProvider e;
     isSignedTxn := isSignedTxn e;
     decodeSignedTransaction := decodeSignedTransaction e;
     decodeUnsignedTransaction := decodeUnsignedTransaction e;
     encodeUnsignedTransaction := encodeUnsignedTransaction e;
     options_onConnect := options_onConnect e; manager_onConnect := manager_onConnect e;
     options_onBeforeSign := options_onBeforeSign e;
     manager_onBeforeSign := manager_onBeforeSign e;
     options_onAfterSign :=
       Some (λ _ _, Thrown {| err_code := None; err_message := "hook crashed" |});
     manager_onAfterSign := manager_onAfterSign e |}.

Definition fresh : World :=
  {| evmAddressMap := ∅; liquidEvmSdk := false; algorandClient := false;
     walletState := None; calls := [] |}.

Definition account (evm : string) (connector : option string) : WalletAccount :=
  {| name := "Rainbow " +:+ evm;
     address := "ALGO:" +:+ evm;
     metadata := Some {| evmAddress := Some evm; connectorName := connector;
                         connectorIcon := None |} |}.

(** A reloaded page: the map is empty again, the store still holds the
    session of the two accounts. *)
Definition reloaded (connector : option string) : World :=
  {| evmAddressMap := ∅; liquidEvmSdk := false; algorandClient := false;
     walletState := Some {| accounts := [account "0xA" connector; account "0xB" connector];
                            activeAccount := Some (account "0xA" connector) |};
     calls := [] |}.

(** A connected wallet: the map knows both accounts. *)
Definition connected : World :=
  {| evmAddressMap := {[ "ALGO:0xA" := "0xA"; "ALGO:0xB" := "0xB" ]};
     liquidEvmSdk := true; algorandClient := true;
     walletState := Some {| accounts := [account "0xA" None; account "0xB" None];
                            activeAccount := Some (account "0xA" None) |};
     calls := [] |}.

(** The callback a subclass hands to [resumeWithAccounts]: the store's
    accounts of this wallet are overwritten. *)
Definition store_accounts (accts : list WalletAccount) : M unit :=
  λ w, (Returned tt,
        {| evmAddressMap := evmAddressMap w; liquidEvmSdk := liquidEvmSdk w;
           algorandClient := algorandClient w;
           walletState := Some {| accounts := accts;
                                  activeAccount := walletState w ≫= activeAccount |};
           calls := calls w |}).

Definition via (connector : string) : option ConnectorInfo :=
  Some {| info_name := Some connector; info_icon := None |}.

Definition txn_of (who : string) (n : nat) : Transaction :=
  {| sender := who; payload := n |}.

End Sample.

(** ** Variations of a wallet

    The same wallet with one collaborator or hook exchanged, to compare runs
    and to build the examples. *)

(** The wallet with another answer of the SDK's [getAddress]. *)
Definition with_getAddress (e : Env) (f : string → Outcome string) : Env :=
  {| wallet_name := wallet_name e;
     addresses := addresses e;
     ALGORAND_CHAIN_ID_HEX := ALGORAND_CHAIN_ID_HEX e;
     ALGORAND_EVM_CHAIN_CONFIG := ALGORAND_EVM_CHAIN_CONFIG e;
     algokit_load := algokit_load e;
     sdk_load := sdk_load e;
     sdk_getAddress := f;
     sdk_signTxn := sdk_signTxn e;
     sdk_getSigner := sdk_getSigner e;
     sdk_signer := sdk_signer e;
     initializeProvider := initializeProvider e;
     getEvmProvider := getEvmProvider e;
     isSignedTxn := isSignedTxn e;
     decodeSignedTransaction := decodeSignedTransaction e;
     decodeUnsignedTransaction := decodeUnsignedTransaction e;
     encodeUnsignedTransaction := encodeUnsignedTransaction e;
     options_onConnect := options_onConnect e;
     manager_onConnect := manager_onConnect e;
     options_onBeforeSign := options_onBeforeSign e;
     manager_onBeforeSign := manager_onBeforeSign e;
     options_onAfterSign := options_onAfterSign e;
     manager_onAfterSign := manager_onAfterSign e |}.

(** The wallet with another answer of the SDK's [signTxn]. *)
Definition with_signTxn (e : Env) (f : string → list Transaction → Outcome (list Uint8Array)) : Env :=
  {| wallet_name := wallet_name e;
     addresses := addresses e;
     ALGORAND_CHAIN_ID_HEX := ALGORAND_CHAIN_ID_HEX e;
     ALGORAND_EVM_CHAIN_CONFIG := ALGORAND_EVM_CHAIN_CONFIG e;
     algokit_load := algokit_load e;
     sdk_load := sdk_load e;
     sdk_getAddress := sdk_getAddress e;
     sdk_signTxn := f;
     sdk_getSigner := sdk_getSigner e;
     sdk_signer := sdk_signer e;
     initializeProvider := initializeProvider e;
     getEvmProvider := getEvmProvider e;
     isSignedTxn := isSignedTxn e;
     decodeSignedTransaction := decodeSignedTransaction e;
     decodeUnsignedTransaction := decodeUnsignedTransaction e;
     encodeUnsignedTransaction := encodeUnsignedTransaction e;
     options_onConnect := options_onConnect e;
     manager_onConnect := manager_onConnect e;
     options_onBeforeSign := options_onBeforeSign e;
     manager_onBeforeSign := manager_onBeforeSign e;
     options_onAfterSign := options_onAfterSign e;
     manager_onAfterSign := manager_onAfterSign e |}.

(** The wallet with [h] as its instance-level connect hook. *)
Definition with_onConnect (e : Env) (h : string → string → Outcome unit) : Env :=
  {| wallet_name := wallet_name e;
     addresses := addresses e;
     ALGORAND_CHAIN_ID_HEX := ALGORAND_CHAIN_ID_HEX e;
     ALGORAND_EVM_CHAIN_CONFIG := ALGORAND_EVM_CHAIN_CONFIG e;
     algokit_load := algokit_load e;
     sdk_load := sdk_load e;
     sdk_getAddress := sdk_getAddress e;
     sdk_signTxn := sdk_signTxn e;
     sdk_getSigner := sdk_getSigner e;
     sdk_signer := sdk_signer e;
     initializeProvider := initializeProvider e;
     getEvmProvider := getEvmProvider e;
     isSignedTxn := isSignedTxn e;
     decodeSignedTransaction := decodeSignedTransaction e;
     decodeUnsignedTransaction := decodeUnsignedTransaction e;
     encodeUnsignedTransaction := encodeUnsignedTransaction e;
     options_onConnect := Some h;
     manager_onConnect := manager_onConnect e;
     options_onBeforeSign := options_onBeforeSign e;
     manager_onBeforeSign := manager_onBeforeSign e;
     options_onAfterSign := options_onAfterSign e;
     manager_onAfterSign := manager_onAfterSign e |}.


(** The wallet with [o] as instance-level and [m] as manager-level
    after-sign hook. *)
Definition with_onAfterSign (e : Env) (o m : option (bool → option string → Outcome unit)) : Env :=
  {| wallet_name := wallet_name e;
     addresses := addresses e;
     ALGORAND_CHAIN_ID_HEX := ALGORAND_CHAIN_ID_HEX e;
     ALGORAND_EVM_CHAIN_CONFIG := ALGORAND_EVM_CHAIN_CONFIG e;
     algokit_load := algokit_load e;
     sdk_load := sdk_load e;
     sdk_getAddress := sdk_getAddress e;
     sdk_signTxn := sdk_signTxn e;
     sdk_getSigner := sdk_getSigner e;
     sdk_signer := sdk_signer e;
     initializeProvider := initializeProvider e;
     getEvmProvider := getEvmProvider e;
     isSignedTxn := isSignedTxn e;
     decodeSignedTransaction := decodeSignedTransaction e;
     decodeUnsignedTransaction := decodeUnsignedTransaction e;
     encodeUnsignedTransaction := encodeUnsignedTransaction e;
     options_onConnect := options_onConnect e;
     manager_onConnect := manager_onConnect e;
     options_onBeforeSign := options_onBeforeSign e;
     manager_onBeforeSign := manager_onBeforeSign e;
     options_onAfterSign := o;
     manager_onAfterSign := m |}.

(** The wallet with other outcomes of the two dynamic imports. *)
Definition with_loaders (e : Env) (algokit sdk : Outcome unit) : Env :=
  {| wallet_name := wallet_name e;
     addresses := addresses e;
     ALGORAND_CHAIN_ID_HEX := ALGORAND_CHAIN_ID_HEX e;
     ALGORAND_EVM_CHAIN_CONFIG := ALGORAND_EVM_CHAIN_CONFIG e;
     algokit_load := algokit;
     sdk_load := sdk;
     sdk_getAddress := sdk_getAddress e;
     sdk_signTxn := sdk_signTxn e;
     sdk_getSigner := sdk_getSigner e;
     sdk_signer := sdk_signer e;
     initializeProvider := initializeProvider e;
     getEvmProvider := getEvmProvider e;
     isSignedTxn := isSignedTxn e;
     decodeSignedTransaction := decodeSignedTransaction e;
     decodeUnsignedTransaction := decodeUnsignedTransaction e;
     encodeUnsignedTransaction := encodeUnsignedTransaction e;
     options_onConnect := options_onConnect e;
     manager_onConnect := manager_onConnect e;
     options_onBeforeSign := options_onBeforeSign e;
     manager_onBeforeSign := manager_onBeforeSign e;
     options_onAfterSign := options_onAfterSign e;
     manager_onAfterSign := manager_onAfterSign e |}.

(** What the before-sign and the after-sign hook add to the log when the
    application supplied one. *)
Definition before_log (this : Env) (F : option (list Z)) : list Call :=
  match nullish (options_onBeforeSign this) (manager_onBeforeSign this) with
  | Some _ => [OnBeforeSign F]
  | None => []
  end.

Definition after_log (this : Env) (success : bool) (errorMessage : option string)
  : list Call :=
  match nullish (options_onAfterSign this) (manager_onAfterSign this) with
  | Some _ => [OnAfterSign success errorMessage]
  | None => []
  end.

(** ** Notions for the revision that signs through [getSigner] *)

(** The classification with which that revision's [signTransactions]
    starts: every entry of the flattened group, marked. *)
Definition Signer_classify (this : Env) (txnGroup : SignInput)
    (indexesToSign : option (list Z)) : Outcome (list SignerTransaction) :=
  match txnGroup with
  | Structured g => Returned (LiquidEvmBaseSigner.processTxns this (flattenTxnGroup g) indexesToSign)
  | Encoded g => LiquidEvmBaseSigner.processEncodedTxns this (flattenTxnGroup g) indexesToSign
  end.

(** Whether an entry is left to sign (it has no [signers] field). *)
Definition to_sign (st : SignerTransaction) : bool :=
  match signers st with
  | None => true
  | Some _ => false
  end.

(** The blobs handed out in order: the entries to sign receive
    [signedBlobs[signedIdx]], [signedBlobs[signedIdx + 1]], ..., the others
    [null]. *)
Fixpoint handed_out (signedIdx : nat) (txnsToSign : list SignerTransaction)
    (signedBlobs : list Uint8Array) : list SignedEntry :=
  match txnsToSign with
  | [] => []
  | st :: rest =>
      if to_sign st
      then blob_at signedBlobs signedIdx :: handed_out (S signedIdx) rest signedBlobs
      else Null :: handed_out signedIdx rest signedBlobs
  end.

(** The blobs among the entries of a result, in order. *)
Definition blobs_of (r : list SignedEntry) : list Uint8Array :=
  omap (λ e, match e with Blob b => Some b | _ => None end) r.


(** The error that reading [txnsToSign[0].txn] of an empty array throws. *)
Definition Signer_empty_error : JsError :=
  {| err_code := None;
     err_message := "Cannot read properties of undefined (reading 'txn')" |}.

(** The account the stand-alone MetaMaskWallet builds for the address at
    position [i] (numbered from one, without metadata). *)
Definition MetaMask_account (this : Env) (target : string → string) (i : nat) (evm : string)
  : WalletAccount :=
  {| name := wallet_name this +:+ " Account " +:+ pretty (i + 1);
     address := target evm;
     metadata := None |}.

Definition no_accounts_found : JsError :=
  {| err_code := None; err_message := "No accounts found!" |}.

(** ** bytesToHex

    [bytesToHex] of liquid-evm-base.ts and of MetaMaskWallet:
    ['0x' + Array.from(bytes).map(b => b.toString(16).padStart(2, '0')).join('')]. *)

Module Hex.

Definition digits : string := "0123456789abcdef".

Definition digit (n : N) : ascii :=
  match String.get (N.to_nat n) digits with
  | Some c => c
  | None => "0"%char
  end.

(** [b.toString(16)] for an element of a [Uint8Array]: one digit below 16,
    two from 16 on. *)
Definition toString16 (b : Byte.byte) : string :=
  let n := Byte.to_N b in
  if (n <? 16)%N then String (digit n) EmptyString
  else String (digit (n / 16)) (String (digit (n mod 16)) EmptyString).

Fixpoint repeat_char (n : nat) (c : ascii) : string :=
  match n with
  | O => EmptyString
  | S n => String c (repeat_char n c)
  end.

(** [s.padStart(targetLength, c)] with a one-character pad. *)
Definition padStart (targetLength : nat) (c : ascii) (s : string) : string :=
  repeat_char (targetLength - String.length s) c +:+ s.

Definition bytesToHex (bytes : Uint8Array) : string :=
  "0x" +:+ String.concat "" ((λ b, padStart 2 "0" (toString16 b)) <$> bytes).

(** The reading back of such a string, to state the round trip: the value
    of a digit, and the bytes of a string of digit pairs after "0x". *)
Definition digit_value (c : ascii) : option N :=
  match index 0 (String c EmptyString) digits with
  | Some i => Some (N.of_nat i)
  | None => None
  end.

Fixpoint pairs_to_bytes (fuel : nat) (s : string) : option Uint8Array :=
  match s with
  | EmptyString => Some []
  | String hi (String lo rest) =>
      match fuel with
      | O => None
      | S fuel =>
          h ← digit_value hi;
          l ← digit_value lo;
          b ← Byte.of_N (16 * h + l);
          bs ← pairs_to_bytes fuel rest;
          Some (b :: bs)
      end
  | String _ EmptyString => None
  end.

Definition hexToBytes (s : string) : option Uint8Array :=
  match s with
  | String "0" (String "x" rest) => pairs_to_bytes (String.length rest) rest
  | _ => None
  end.

(** [MetaMaskWallet.signWithMetaMask]: [personal_sign] is what the provider
    answers to the request with the parameters [[hexMessage, evmAddress]]. *)
Definition user_rejected : JsError :=
  {| err_code := None; err_message := "User rejected the signing request" |}.

Definition signWithMetaMask (getProvider : Outcome (string → string → Outcome string))
    (message : Uint8Array) (evm : string) : Outcome string :=
  personal_sign ← getProvider;
  let hexMessage := bytesToHex message in
  match personal_sign hexMessage evm with
  | Returned signature => Returned signature
  | Thrown error =>
      if bool_decide (err_code error = Some 4001%Z) then Thrown user_rejected
      else Thrown error
  end.

End Hex.

(** ** RainbowWallet: the provider among the injected ones, resumeSession

    [RainbowWallet] of src/unnamed/part_001. *)

Record InjectedProvider := { isRainbow : bool; provider_id : nat }.

(** [window.ethereum]: the provider itself and, when wallets share the slot,
    the array [providers]. *)
Record WindowEthereum := {
  eth_self : InjectedProvider;
  eth_providers : option (list InjectedProvider)
}.

(** [window], as far as the wallet looks at it. *)
Record Window := {
  window_rainbow : option InjectedProvider;
  window_ethereum : option WindowEthereum
}.

Module RainbowProvider.

Definition not_in_browser : JsError :=
  {| err_code := None; err_message := "Rainbow wallet only works in browser environment" |}.

Definition not_available : JsError :=
  {| err_code := None;
     err_message := "Rainbow wallet not available. Please install Rainbow browser extension or use WalletConnect for mobile." |}.

(** [initializeProvider]: it throws without a [window] and otherwise only
    logs what it found. *)
Definition initializeProvider (window : option Window) : Outcome unit :=
  match window with
  | None => Thrown not_in_browser
  | Some _ => Returned tt
  end.

(** What [initializeProvider] reports in its log when there is a [window]:
    the three [info] lines and the final [warn]. *)
Inductive Detection :=
  | FoundAtWindowRainbow
  | FoundInProviders
  | FoundAsPrimary
  | NotDetected.

Definition detect (window : Window) : Detection :=
  match window_rainbow window with
  | Some _ => FoundAtWindowRainbow
  | None =>
      let primary :=
        match window_ethereum window with
        | Some eth => if isRainbow (eth_self eth) then FoundAsPrimary else NotDetected
        | None => NotDetected
        end in
      match window_ethereum window ≫= eth_providers with
      | Some providers =>
          match find isRainbow providers with
          | Some _ => FoundInProviders
          | None => primary
          end
      | None => primary
      end
  end.

(** The provider that [getProvider] picks when none is cached. *)
Definition pick (window : Window) : option InjectedProvider :=
  match window_rainbow window with
  | Some r => Some r
  | None =>
      match window_ethereum window ≫= eth_providers with
      | Some providers => find isRainbow providers
      | None =>
          match window_ethereum window with
          | Some eth => if isRainbow (eth_self eth) then Some (eth_self eth) else None
          | None => None
          end
      end
  end.

(** [getProvider]: the outcome and the new value of [this.provider]. *)
Definition getProvider (cached : option InjectedProvider) (window : option Window)
  : Outcome InjectedProvider * option InjectedProvider :=
  match cached with
  | Some p => (Returned p, cached)
  | None =>
      match initializeProvider window, window with
      | Returned _, Some win =>
          match pick win with
          | Some p => (Returned p, Some p)
          | None => (Thrown not_available, None)
          end
      | Thrown e, _ => (Thrown e, None)
      | Returned _, None => (Thrown not_in_browser, None)
      end
  end.

End RainbowProvider.

Module Rainbow.

(** The [try] block of [resumeSession]; [eth_accounts] is the provider's
    answer to that request, [setAccounts] the store's entry point. *)
Definition resumeSession_try (this : Env) (eth_accounts : Provider → Outcome (list string))
    (setAccounts : list WalletAccount → M unit) : M unit :=
  w ← get;
  match walletState w with
  | None => ret tt
  | Some _ =>
      await (initializeProvider this) ;;
      LiquidEvmBase.initializeEvmSdk this ;;
      provider ← await (getEvmProvider this);
      evmAddresses ← await (eth_accounts provider);
      match evmAddresses with
      | [] => throw no_accounts_found
      | _ :: _ => LiquidEvmBase.resumeWithAccounts this evmAddresses setAccounts None
      end
  end.

(** [resumeSession]: a failure disconnects the wallet and is rethrown. *)
Definition resumeSession (this : Env) (eth_accounts : Provider → Outcome (list string))
    (setAccounts : list WalletAccount → M unit) (onDisconnect : M unit) : M unit :=
  try_catch (resumeSession_try this eth_accounts setAccounts)
            (λ error, onDisconnect ;; throw error).

End Rainbow.

(** ** RainbowKitWallet: the chain list, resuming from the persisted accounts

    The parts of [RainbowKitWallet] (src/unnamed/part_003) that compute on
    the wallet's own data. *)

Record Chain := { chain_id : Z; chain_name : string }.

Module RainbowKit.

(** [ensureChainRegistered]: the chain list of the wagmi config after the
    constructor ran. *)
Definition ensureChainRegistered (ALGORAND_CHAIN_ID : Z) (algorandChain : Chain)
    (chains : list Chain) : list Chain :=
  if existsb (λ c, Z.eqb (chain_id c) ALGORAND_CHAIN_ID) chains then chains
  else chains ++ [algorandChain].

(** [walletState.accounts.map(a => a.metadata?.evmAddress).filter(Boolean)]:
    the source addresses [resumeSession] falls back on while wagmi is not
    connected. *)
Definition persistedEvmAddresses (persisted : list WalletAccount) : list string :=
  omap if_truthy ((λ a, metadata a ≫= evmAddress) <$> persisted).

(** The connector info [resumeSession] goes on with: the live one, or, when
    it has no name, what the first persisted account recorded. *)
Definition connectorInfo_or_persisted (live : ConnectorInfo) (persisted : list WalletAccount)
  : ConnectorInfo :=
  match truthy (info_name live), persisted with
  | false, first :: _ =>
      let persistedName := metadata first ≫= connectorName in
      let persistedIcon := metadata first ≫= connectorIcon in
      {| info_name := if truthy persistedName then persistedName else info_name live;
         info_icon := if truthy persistedIcon then persistedIcon else info_icon live |}
  | _, _ => live
  end.

End RainbowKit.

(** ** Rejections that carry no object

    A [throw] and a rejected promise can carry any value.  [JsError] stands
    for the values that have properties to read; [undefined] and [null]
    (what [Promise.reject()] and [throw null] carry) have none. *)
Inductive JsThrown :=
  | ThrownUndefined
  | ThrownNull
  | ThrownObject (error : JsError).

(** The TypeError of reading [property] of [undefined] or [null]. *)
Definition cannot_read (value property : string) : JsError :=
  {| err_code := None;
     err_message := "Cannot read properties of " +:+ value
                    +:+ " (reading '" +:+ property +:+ "')" |}.

(** [error.message]. *)
Definition message_of (error : JsThrown) : Outcome string :=
  match error with
  | ThrownUndefined => Thrown (cannot_read "undefined" "message")
  | ThrownNull => Thrown (cannot_read "null" "message")
  | ThrownObject e => Returned (err_message e)
  end.

(** The [catch] block of [signTransactions], the same text in both
    revisions of [LiquidEvmBaseWallet], run on any caught value.  The
    arguments of [onAfterSignCleanup?.(false, error.message)] are evaluated
    only when there is a hook, inside the inner [try]; [error.message] is
    read again for the logger, outside of it.  The result is the value the
    call is rejected with. *)
Definition signTransactions_catch_any (this : Env) (error : JsThrown) (w : World)
  : JsThrown * World :=
  let w1 :=
    (try_catch
       (match nullish (options_onAfterSign this) (manager_onAfterSign this) with
        | Some onAfterSignCleanup =>
            message ← await (message_of error);
            log (OnAfterSign false (Some message)) ;;
            await (onAfterSignCleanup false (Some message))
        | None => ret tt
        end)
       (λ _, ret tt) w).2 in
  match message_of error with
  | Returned _ => (error, w1)
  | Thrown typeError => (ThrownObject typeError, w1)
  end.

(** * Properties *)

Ltac run :=
  unfold mbind, M_bind, bind, mret, M_ret, ret, await, log, throw, get,
    try_catch, request, request_chainId, request_accounts, issued in *;
  simpl in *.

(** ** The chain guard *)

Section chain_guard.
Context (this : Env).

Lemma chainUnknown_codes (e : JsError) :
  LiquidEvmBase.chainUnknown e = true ↔
  ∃ c, err_code e = Some c ∧ (c = 4902 ∨ c = -32600 ∨ c = -32603)%Z.
Proof.
  unfold LiquidEvmBase.chainUnknown, LiquidEvmBase.unknown_chain_codes.
  destruct (err_code e) as [c|]; split.
  - intros H. apply bool_decide_eq_true in H. exists c. split; [done|].
    rewrite !elem_of_cons, elem_of_nil in H. tauto.
  - intros (c' & [= <-] & H). apply bool_decide_eq_true.
    rewrite !elem_of_cons, elem_of_nil. tauto.
  - done.
  - intros (c & ? & _). done.
Qed.

Lemma sameChainId_refl :
  LiquidEvmBase.sameChainId this (ALGORAND_CHAIN_ID_HEX this) = true.
Proof. unfold LiquidEvmBase.sameChainId. apply String.eqb_refl. Qed.

End chain_guard.


(** ** Classification of the entries *)

Section classification.
Context (this : Env) (F : option (list Z)).

Lemma isIndexMatch_true (i : nat) :
  isIndexMatch F i = true ↔
  match F with None => True | Some l => Z.of_nat i ∈ l end.
Proof.
  unfold isIndexMatch, includes_index. destruct F; [|done].
  apply bool_decide_eq_true.
Qed.

Lemma test_structured (i : nat) (t : Transaction) :
  isIndexMatch F i && includes_address (addresses this) (sender t) = true ↔
  eligibleForSignature (addresses this) F false false i (sender t).
Proof.
  unfold eligibleForSignature, includes_address.
  rewrite andb_true_iff, isIndexMatch_true, bool_decide_eq_true.
  intuition congruence.
Qed.

Lemma test_encoded (i : nat) (isSigned : bool) (t : Transaction) :
  isIndexMatch F i && (negb isSigned && includes_address (addresses this) (sender t)) = true ↔
  eligibleForSignature (addresses this) F true isSigned i (sender t).
Proof.
  unfold eligibleForSignature, includes_address.
  rewrite !andb_true_iff, isIndexMatch_true, bool_decide_eq_true, negb_true_iff.
  intuition congruence.
Qed.

Lemma if_test {A} (b : bool) (P : Prop) `{Decision P} (x y : A) :
  (b = true ↔ P) → (if b then x else y) = (if decide P then x else y).
Proof. intros Hb. destruct b, (decide P); intuition congruence. Qed.

Lemma selected_from_cons {A} (P : nat → A → Prop) `{∀ i x, Decision (P i x)}
    (i : nat) (x : A) (l : list A) :
  selected_from P i (x :: l) =
  (if decide (P i x) then [x] else []) ++ selected_from P (S i) l.
Proof.
  unfold selected_from. simpl. rewrite Nat.add_0_r.
  assert (imap ((λ j y, if decide (P (i + j) y) then Some y else None) ∘ S) l
          = imap (λ j y, if decide (P (S i + j) y) then Some y else None) l) as ->.
  { apply imap_ext. intros j y _. simpl. by rewrite Nat.add_succ_r. }
  by destruct (decide (P i x)).
Qed.

Lemma processTxns_from_selected (l : list Transaction) : ∀ i acc,
  LiquidEvmBase.processTxns_from this i l F acc =
  acc ++ selected_from
           (λ j t, eligibleForSignature (addresses this) F false false j (sender t)) i l.
Proof.
  induction l as [|t l IH]; intros i acc.
  - simpl. by rewrite app_nil_r.
  - rewrite selected_from_cons. simpl. rewrite IH.
    rewrite (if_test _ _ (acc ++ [t]) acc (test_structured i t)).
    destruct (decide _); simpl; [by rewrite <- app_assoc | done].
Qed.

Lemma processEncodedTxns_from_selected (bufs : list Uint8Array) :
  ∀ decoded i acc, decoded_as this bufs decoded →
  LiquidEvmBase.processEncodedTxns_from this i bufs F acc =
  Returned (acc ++ (snd <$> selected_from
              (λ j d, eligibleForSignature (addresses this) F true d.1 j (sender d.2))
              i decoded)).
Proof.
  unfold decoded_as.
  induction bufs as [|b bufs IH]; intros decoded i acc Hd; simpl in *.
  - injection Hd as <-. simpl. by rewrite app_nil_r.
  - destruct (LiquidEvmBase.decodeTxn this b) as [[s t]|e]; [|done]. simpl.
    destruct (map_throwing _ bufs) as [ds|e] eqn:Hds; [|done].
    injection Hd as <-.
    rewrite selected_from_cons. simpl.
    rewrite (IH ds (S i) _ eq_refl).
    rewrite (if_test _ _ (acc ++ [t]) acc (test_encoded i s t)).
    destruct (decide _); simpl; [by rewrite <- app_assoc | done].
Qed.

End classification.

(** C3: an entry is selected for signature exactly when (a) no index filter
    is supplied or its index is in the filter, (b) its declared sender is one
    of the wallet's addresses and (c), on the encoded path, it does not
    decode as an already-signed wrapper: [processTxns] returns the entries
    that satisfy (a) and (b), [processEncodedTxns] those that satisfy (a),
    (b) and (c), each in input order. *)
Theorem C3_eligibility (this : Env) (indexFilter : option (list Z)) :
  (∀ txns : list Transaction,
     LiquidEvmBase.processTxns this txns indexFilter =
     selected (λ i t, eligibleForSignature (addresses this) indexFilter false false
                        i (sender t)) txns)
  ∧ (∀ (bufs : list Uint8Array) (decoded : list (bool * Transaction)),
       decoded_as this bufs decoded →
       LiquidEvmBase.processEncodedTxns this bufs indexFilter =
       Returned (snd <$> selected
                   (λ i d, eligibleForSignature (addresses this) indexFilter true d.1
                             i (sender d.2)) decoded)).
Proof.
  split.
  - intros txns. unfold LiquidEvmBase.processTxns. by rewrite processTxns_from_selected.
  - intros bufs decoded Hd. unfold LiquidEvmBase.processEncodedTxns.
    by rewrite (processEncodedTxns_from_selected this indexFilter bufs decoded 0 [] Hd).
Qed.

Lemma C3_eligibility_witness :
  LiquidEvmBase.processTxns (Sample.wallet Sample.on_algorand)
    [Sample.txn_of "ALGO:0xA" 0; Sample.txn_of "ALGO:other" 1; Sample.txn_of "ALGO:0xB" 2]
    (Some [0; 1]%Z)
  = [Sample.txn_of "ALGO:0xA" 0]
  ∧ LiquidEvmBase.processEncodedTxns (Sample.wallet Sample.on_algorand)
      [[Byte.x00; Byte.x0a]; [Byte.x01; Byte.x0a]; [Byte.x00; Byte.x0c]] None
    = Returned [Sample.txn_of "ALGO:0xA" 2].
Proof.
  destruct (C3_eligibility (Sample.wallet Sample.on_algorand) (Some [0; 1]%Z)) as [Hs _].
  destruct (C3_eligibility (Sample.wallet Sample.on_algorand) None) as [_ He].
  split.
  - rewrite Hs. vm_compute. reflexivity.
  - rewrite (He [[Byte.x00; Byte.x0a]; [Byte.x01; Byte.x0a]; [Byte.x00; Byte.x0c]]
                [(false, Sample.txn_of "ALGO:0xA" 2); (true, Sample.txn_of "ALGO:0xA" 2);
                 (false, Sample.txn_of "ALGO:other" 2)] eq_refl).
    vm_compute. reflexivity.
Defined.


(** ** Stepping through a method *)

Lemma bind_returned {A B} (m : M A) (k : A → M B) (w w' : World) (a : A) :
  m w = (Returned a, w') → (m ≫= k) w = k a w'.
Proof. intros H. unfold mbind, M_bind, bind. by rewrite H. Qed.

Lemma bind_thrown {A B} (m : M A) (k : A → M B) (w w' : World) (e : JsError) :
  m w = (Thrown e, w') → (m ≫= k) w = (Thrown e, w').
Proof. intros H. unfold mbind, M_bind, bind. by rewrite H. Qed.

Lemma bind_await {A B} (o : Outcome A) (k : A → M B) (w : World) (a : A) :
  o = Returned a → (await o ≫= k) w = k a w.
Proof. intros ->. done. Qed.

Lemma if_truthy_Some (x : option string) (v : string) :
  if_truthy x = Some v → x = Some v ∧ if_truthy (Some v) = Some v.
Proof.
  unfold if_truthy. destruct (truthy x) eqn:E; [|done].
  intros ->. by rewrite E.
Qed.

Lemma with_map_id (w : World) : with_map w (evmAddressMap w) = w.
Proof. by destruct w. Qed.

Section base_lemmas.
Context (this : Env).

(** Loading the SDK touches neither the map, the store nor the log. *)
Lemma initializeEvmSdk_frame (w w' : World) (o : Outcome unit) :
  LiquidEvmBase.initializeEvmSdk this w = (o, w') →
  evmAddressMap w' = evmAddressMap w ∧ walletState w' = walletState w
  ∧ calls w' = calls w.
Proof.
  unfold LiquidEvmBase.initializeEvmSdk. run.
  destruct (liquidEvmSdk w); [by intros [= _ <-]|].
  destruct (algorandClient w); simpl.
  - destruct (sdk_load this) as [[]|e]; by intros [= _ <-].
  - destruct (algokit_load this) as [[]|e]; simpl; [|by intros [= _ <-]].
    destruct (sdk_load this) as [[]|e]; by intros [= _ <-].
Qed.

(** Once the SDK is there, [initializeEvmSdk] returns it. *)
Lemma initializeEvmSdk_ready (w : World) :
  liquidEvmSdk w = true → LiquidEvmBase.initializeEvmSdk this w = (Returned tt, w).
Proof. intros H. unfold LiquidEvmBase.initializeEvmSdk. run. by rewrite H. Qed.

Lemma initializeEvmSdk_sets (w w' : World) :
  LiquidEvmBase.initializeEvmSdk this w = (Returned tt, w') → liquidEvmSdk w' = true.
Proof.
  unfold LiquidEvmBase.initializeEvmSdk. run.
  destruct (liquidEvmSdk w) eqn:E; [by intros [= <-]|].
  destruct (algorandClient w); simpl.
  - destruct (sdk_load this) as [[]|e]; by intros [= <-].
  - destruct (algokit_load this) as [[]|e]; simpl; [|done].
    destruct (sdk_load this) as [[]|e]; by intros [= <-].
Qed.

Lemma rebuildEvmAddressMap_rebuilt (persisted : list WalletAccount) : ∀ w,
  LiquidEvmBase.rebuildEvmAddressMap persisted w =
  (Returned tt, with_map w (rebuilt (evmAddressMap w) persisted)).
Proof.
  induction persisted as [|a l IH]; intros w; simpl.
  - run. by rewrite with_map_id.
  - unfold rebuilt. simpl.
    destruct (if_truthy (metadata a ≫= evmAddress)) as [evm|].
    + erewrite bind_returned; [|reflexivity]. rewrite IH. done.
    + erewrite bind_returned; [|reflexivity]. rewrite IH. done.
Qed.

(** The entries of an encoded group decode to [flat] exactly when they
    probe and decode to pairs whose transactions are [flat]. *)
Lemma flatten_and_decode_encoded (g : TxnGroup Uint8Array) (flat : list Transaction) :
  LiquidEvmBase.flatten_and_decode this (Encoded g) = Returned flat →
  ∃ decoded, decoded_as this (flattenTxnGroup g) decoded ∧ flat = snd <$> decoded.
Proof.
  unfold decoded_as. simpl. generalize (flattenTxnGroup g). clear g.
  intros bufs. revert flat. induction bufs as [|b bufs IH]; intros flat; simpl.
  - intros [= <-]. by exists [].
  - destruct (LiquidEvmBase.decodeTxn this b) as [[s t]|e]; simpl; [|done].
    destruct (map_throwing _ bufs) as [ts|e]; [|done].
    intros [= <-]. destruct (IH ts eq_refl) as (ds & -> & ->).
    by exists ((s, t) :: ds).
Qed.

Lemma selected_from_none {A} (P : nat → A → Prop) `{∀ i x, Decision (P i x)} (l : list A) :
  (∀ i x, ¬ P i x) → ∀ i, selected_from P i l = [].
Proof.
  intros HP. induction l as [|x l IH]; intros i; [done|].
  rewrite selected_from_cons, IH. by destruct (decide (P i x)); [destruct (HP i x)|].
Qed.

Lemma all_null (flat : list Transaction) :
  (λ _, Null) <$> flat = replicate (length flat) Null.
Proof. by apply const_fmap. Qed.

(** With the empty array as filter no entry is selected. *)
Lemma select_empty_filter (input : SignInput) (flat : list Transaction) :
  LiquidEvmBase.flatten_and_decode this input = Returned flat →
  LiquidEvmBase.select_txnsToSign this input flat (Some []) = Returned [].
Proof.
  intros Hflat. destruct input as [g|g]; simpl.
  - unfold LiquidEvmBase.processTxns. rewrite processTxns_from_selected.
    rewrite selected_from_none; [done|].
    intros i x (Hin & _). by apply elem_of_nil in Hin.
  - destruct (flatten_and_decode_encoded g flat Hflat) as (ds & Hds & _).
    unfold LiquidEvmBase.processEncodedTxns.
    rewrite (processEncodedTxns_from_selected this (Some []) _ ds 0 [] Hds).
    rewrite selected_from_none; [done|].
    intros i x (Hin & _). by apply elem_of_nil in Hin.
Qed.

End base_lemmas.

(** ** signTransactions *)

Section signing.
Context (this : Env).

(** The [try] block up to the selection of the entries to sign. *)
Lemma signTransactions_try_selected (input : SignInput) (F : option (list Z))
    (w w1 : World) (flat sel : list Transaction) :
  LiquidEvmBase.initializeEvmSdk this w = (Returned tt, w1) →
  LiquidEvmBase.flatten_and_decode this input = Returned flat →
  LiquidEvmBase.select_txnsToSign this input flat F = Returned sel →
  LiquidEvmBase.signTransactions_try this input F w =
  match sel with
  | [] => (Returned ((λ _, Null) <$> flat), w1)
  | firstTxn :: _ =>
      (found ← LiquidEvmBase.resolve_evmAddress (sender firstTxn);
       match if_truthy found with
       | None => throw (LiquidEvmBase.no_evm_address (sender firstTxn))
       | Some evm => LiquidEvmBase.sign_with this input F flat evm
       end) w1
  end.
Proof.
  intros Hinit Hflat Hsel. unfold LiquidEvmBase.signTransactions_try.
  rewrite (bind_returned _ _ _ _ _ Hinit).
  rewrite (bind_await _ _ _ _ Hflat), (bind_await _ _ _ _ Hsel).
  by destruct sel.
Qed.

Lemma resolve_evmAddress_eval (a : string) (w : World) :
  LiquidEvmBase.resolve_evmAddress a w =
  match if_truthy (reverseLookup w a) with
  | Some evm => (Returned (Some evm), w)
  | None =>
      match walletState w with
      | Some ws =>
          let w2 := with_map w (rebuilt (evmAddressMap w) (accounts ws)) in
          (Returned (reverseLookup w2 a), w2)
      | None => (Returned (reverseLookup w a), w)
      end
  end.
Proof.
  unfold LiquidEvmBase.resolve_evmAddress, LiquidEvmBase.evmAddressMap_get, reverseLookup,
    if_truthy.
  erewrite bind_returned; [|reflexivity]. simpl.
  destruct (truthy (evmAddressMap w !! a)) eqn:Ht; simpl.
  { destruct (evmAddressMap w !! a); done. }
  erewrite bind_returned; [|reflexivity]. simpl.
  destruct (walletState w) as [ws|]; [|done].
  erewrite bind_returned; [|apply rebuildEvmAddressMap_rebuilt]. done.
Qed.

(** The [catch] block: the hook is told of the failure if there is one,
    whatever it throws is dropped, and the error goes on to the caller. *)
Lemma signTransactions_catch_eval (error : JsError) (w : World) :
  LiquidEvmBase.signTransactions_catch this error w =
  (Thrown error,
   match nullish (options_onAfterSign this) (manager_onAfterSign this) with
   | Some _ => issued w [OnAfterSign false (Some (err_message error))]
   | None => w
   end).
Proof.
  unfold LiquidEvmBase.signTransactions_catch.
  destruct (nullish _ _) as [hook|]; run; [|done].
  by destruct (hook false (Some (err_message error))) as [[]|e'].
Qed.

End signing.


(** C10: the empty array is a filter that selects nothing: with it no entry
    is selected and the result is [null] at every position of the flattened
    input; it is not the same as leaving the filter out, which signs the
    wallet's entries. *)
Theorem C10_empty_filter (this : Env) (input : SignInput) (w w1 : World)
    (flat : list Transaction) :
  LiquidEvmBase.initializeEvmSdk this w = (Returned tt, w1) →
  LiquidEvmBase.flatten_and_decode this input = Returned flat →
  LiquidEvmBase.select_txnsToSign this input flat (Some []) = Returned []
  ∧ LiquidEvmBase.signTransactions this input (Some []) w
    = (Returned (replicate (length flat) Null), w1)
  ∧ ∃ this' input' w',
      (LiquidEvmBase.signTransactions this' input' None w').1
      ≠ (LiquidEvmBase.signTransactions this' input' (Some []) w').1.
Proof.
  intros Hinit Hflat.
  pose proof (select_empty_filter this input flat Hflat) as Hsel.
  split; [done|]. split.
  - unfold LiquidEvmBase.signTransactions, try_catch.
    rewrite (signTransactions_try_selected this input (Some []) w w1 flat [] Hinit Hflat Hsel).
    by rewrite all_null.
  - exists (Sample.wallet Sample.on_algorand),
      (Structured (Flat [Sample.txn_of "ALGO:0xA" 0])), Sample.connected.
    vm_compute. discriminate.
Qed.

Lemma C10_empty_filter_witness :
  LiquidEvmBase.signTransactions (Sample.wallet Sample.on_algorand)
    (Encoded (Flat [[Byte.x00; Byte.x0a]; [Byte.x00; Byte.x0b]])) (Some []) Sample.connected
  = (Returned [Null; Null], Sample.connected).
Proof.
  exact (proj1 (proj2 (C10_empty_filter (Sample.wallet Sample.on_algorand)
                  (Encoded (Flat [[Byte.x00; Byte.x0a]; [Byte.x00; Byte.x0b]]))
                  Sample.connected Sample.connected
                  [Sample.txn_of "ALGO:0xA" 2; Sample.txn_of "ALGO:0xB" 2]
                  eq_refl eq_refl))).
Defined.


(** When the [try] block of [signTransactions] fails with [error], the
    after-sign hook (if the application supplied one) is called with
    [false] and the error's message, whatever the hook throws is dropped,
    and [signTransactions] throws [error] itself: no array is returned. *)
Lemma signTransactions_rethrows (this : Env) (input : SignInput) (indexFilter : option (list Z))
    (w w' : World) (error : JsError) :
  LiquidEvmBase.signTransactions_try this input indexFilter w = (Thrown error, w') →
  LiquidEvmBase.signTransactions this input indexFilter w =
    (Thrown error,
     match nullish (options_onAfterSign this) (manager_onAfterSign this) with
     | Some _ => issued w' [OnAfterSign false (Some (err_message error))]
     | None => w'
     end).
Proof.
  intros Htry. unfold LiquidEvmBase.signTransactions, try_catch.
  rewrite Htry. apply signTransactions_catch_eval.
Qed.

(** ** Derivation of the accounts *)

Section derivation.
Context (this : Env).

Lemma derive_loop_eval (connectorInfo : option ConnectorInfo) (target : string → string)
    (evmAddresses : list string) : ∀ acc w,
  (∀ evm, evm ∈ evmAddresses → sdk_getAddress this evm = Returned (target evm)) →
  LiquidEvmBase.derive_loop this evmAddresses connectorInfo acc w =
  (Returned (acc ++ (derived_account this connectorInfo target <$> evmAddresses)),
   issued (with_map w (derived_map (evmAddressMap w) target evmAddresses))
     (SdkGetAddress <$> evmAddresses)).
Proof.
  induction evmAddresses as [|evm l IH]; intros acc w Hok; simpl.
  - run. rewrite !app_nil_r. by destruct w.
  - erewrite bind_returned; [|reflexivity].
    rewrite (bind_await _ _ _ _ (Hok evm (list_elem_of_here _ _))).
    erewrite bind_returned; [|reflexivity].
    rewrite IH; [|intros e He; apply Hok; by apply list_elem_of_further].
    unfold issued, with_map, derived_account. simpl.
    by rewrite <- !app_assoc.
Qed.

Lemma deriveAlgorandAccounts_eval (connectorInfo : option ConnectorInfo)
    (target : string → string) (evmAddresses : list string) (w w1 : World) :
  LiquidEvmBase.initializeEvmSdk this w = (Returned tt, w1) →
  (∀ evm, evm ∈ evmAddresses → sdk_getAddress this evm = Returned (target evm)) →
  LiquidEvmBase.deriveAlgorandAccounts this evmAddresses connectorInfo w =
  (Returned (derived_account this connectorInfo target <$> evmAddresses),
   issued (with_map w1 (derived_map (evmAddressMap w1) target evmAddresses))
     (SdkGetAddress <$> evmAddresses)).
Proof.
  intros Hinit Hok. unfold LiquidEvmBase.deriveAlgorandAccounts.
  rewrite (bind_returned _ _ _ _ _ Hinit).
  by rewrite (derive_loop_eval connectorInfo target evmAddresses [] w1 Hok).
Qed.

(** Each derived account records the source address it was derived from. *)
Lemma derived_sources (connectorInfo : option ConnectorInfo) (target : string → string)
    (evmAddresses : list string) :
  (λ a, metadata a ≫= evmAddress) <$> (derived_account this connectorInfo target <$> evmAddresses)
  = Some <$> evmAddresses.
Proof. rewrite <- list_fmap_compose. by apply list_fmap_ext. Qed.

(** What a successful derivation of a single address did. *)
Lemma derive_single_inv (connectorInfo : option ConnectorInfo) (s : string)
    (w w' : World) (accts : list WalletAccount) :
  LiquidEvmBase.deriveAlgorandAccounts this [s] connectorInfo w = (Returned accts, w') →
  ∃ a w1,
    LiquidEvmBase.initializeEvmSdk this w = (Returned tt, w1)
    ∧ sdk_getAddress this s = Returned a
    ∧ accts = [derived_account this connectorInfo (λ _, a) s]
    ∧ w' = issued (with_map w1 (<[a := s]> (evmAddressMap w1))) [SdkGetAddress s].
Proof.
  unfold LiquidEvmBase.deriveAlgorandAccounts.
  destruct (LiquidEvmBase.initializeEvmSdk this w) as [[[]|e] w1] eqn:Hinit.
  2: { rewrite (bind_thrown _ _ _ _ _ Hinit). done. }
  rewrite (bind_returned _ _ _ _ _ Hinit). simpl.
  erewrite bind_returned; [|reflexivity].
  destruct (sdk_getAddress this s) as [a|e] eqn:Ha; run; [|done].
  intros [= <- <-]. by exists a, w1.
Qed.

End derivation.

(** C6: after [deriveAlgorandAccounts [s]] returned, the map's entry for the
    derived account's address is [s]; deriving [s] again returns the same
    account (so the same address) without an error and leaves the map as it
    was. *)
Theorem C6_derive_then_lookup (this : Env) (connectorInfo : option ConnectorInfo)
    (s : string) (w w' : World) (accts : list WalletAccount) :
  LiquidEvmBase.deriveAlgorandAccounts this [s] connectorInfo w = (Returned accts, w') →
  ∃ acct,
    accts = [acct]
    ∧ reverseLookup w' (address acct) = Some s
    ∧ ∃ w'',
        LiquidEvmBase.deriveAlgorandAccounts this [s] connectorInfo w' = (Returned [acct], w'')
        ∧ evmAddressMap w'' = evmAddressMap w'.
Proof.
  intros Hd.
  destruct (derive_single_inv this connectorInfo s w w' accts Hd) as (a & w1 & Hinit & Ha & -> & ->).
  eexists. split; [done|]. split.
  - unfold reverseLookup. simpl. apply lookup_insert_eq.
  - pose proof (initializeEvmSdk_sets this _ _ Hinit) as Hready.
    set (w2 := issued (with_map w1 (<[a:=s]> (evmAddressMap w1))) [SdkGetAddress s]).
    assert (LiquidEvmBase.initializeEvmSdk this w2 = (Returned tt, w2)) as Hinit2
      by (by apply initializeEvmSdk_ready).
    eexists.
    rewrite (deriveAlgorandAccounts_eval this connectorInfo (λ _, a) [s] w2 w2 Hinit2).
    2: { intros evm Hin. apply list_elem_of_singleton in Hin as ->. done. }
    split; [done|]. simpl. apply insert_insert_eq.
Qed.

Lemma C6_derive_then_lookup_witness :
  ∃ acct,
    [Sample.account "0xA" None] = [acct]
    ∧ reverseLookup
        (issued (with_map (with_map Sample.connected ∅) {[ "ALGO:0xA" := "0xA" ]})
           [SdkGetAddress "0xA"]) (address acct) = Some "0xA"
    ∧ ∃ w'',
        LiquidEvmBase.deriveAlgorandAccounts (Sample.wallet Sample.on_algorand) ["0xA"] None
          (issued (with_map (with_map Sample.connected ∅) {[ "ALGO:0xA" := "0xA" ]})
             [SdkGetAddress "0xA"])
        = (Returned [acct], w'')
        ∧ evmAddressMap w''
          = evmAddressMap
              (issued (with_map (with_map Sample.connected ∅) {[ "ALGO:0xA" := "0xA" ]})
                 [SdkGetAddress "0xA"]).
Proof.
  exact (C6_derive_then_lookup (Sample.wallet Sample.on_algorand) None "0xA"
           (Sample.reloaded None) _ _ eq_refl).
Defined.


(** ** Session resume *)

Section resume.
Context (this : Env).

Lemma resumeWithAccounts_eval (evmAddresses : list string)
    (setAccountsFn : list WalletAccount → M unit) (connectorInfo : option ConnectorInfo)
    (w w1 : World) (ws : WalletState) (accts : list WalletAccount) :
  walletState w = Some ws →
  LiquidEvmBase.deriveAlgorandAccounts this evmAddresses connectorInfo
    (with_map w (rebuilt (evmAddressMap w) (accounts ws))) = (Returned accts, w1) →
  LiquidEvmBase.resumeWithAccounts this evmAddresses setAccountsFn connectorInfo w
  = setAccountsFn accts w1.
Proof.
  intros Hws Hd. unfold LiquidEvmBase.resumeWithAccounts.
  erewrite bind_returned; [|reflexivity]. rewrite Hws.
  erewrite bind_returned; [|apply rebuildEvmAddressMap_rebuilt].
  by rewrite (bind_returned _ _ _ _ _ Hd).
Qed.

(** Without a persisted session nothing is done. *)
Lemma resumeWithAccounts_no_session (evmAddresses : list string)
    (setAccountsFn : list WalletAccount → M unit) (connectorInfo : option ConnectorInfo)
    (w : World) :
  walletState w = None →
  LiquidEvmBase.resumeWithAccounts this evmAddresses setAccountsFn connectorInfo w
  = (Returned tt, w).
Proof.
  intros Hws. unfold LiquidEvmBase.resumeWithAccounts.
  erewrite bind_returned; [|reflexivity]. by rewrite Hws.
Qed.

(** The revision that signs through [getSigner] hands the accounts to the
    callback only on a mismatch: with matching addresses the store keeps
    the persisted accounts. *)
Lemma Signer_resume_matching (evmAddresses : list string)
    (setAccountsFn : list WalletAccount → M unit)
    (w w1 : World) (ws : WalletState) (accts : list WalletAccount) :
  walletState w = Some ws →
  LiquidEvmBaseSigner.deriveAlgorandAccounts this evmAddresses
    (with_map w (rebuilt (evmAddressMap w) (accounts ws))) = (Returned accts, w1) →
  LiquidEvmBaseSigner.resumeWithAccounts this evmAddresses setAccountsFn w
  = if compareAccounts accts (accounts ws) then (Returned tt, w1) else setAccountsFn accts w1.
Proof.
  intros Hws Hd. unfold LiquidEvmBaseSigner.resumeWithAccounts.
  erewrite bind_returned; [|reflexivity]. rewrite Hws.
  erewrite bind_returned; [|apply rebuildEvmAddressMap_rebuilt].
  rewrite (bind_returned _ _ _ _ _ Hd).
  by destruct (compareAccounts accts (accounts ws)).
Qed.

End resume.

(** C8: on resume, when the freshly derived accounts carry the same set of
    addresses as the persisted ones, [resumeWithAccounts] still hands the
    freshly derived accounts to the callback that overwrites the persisted
    accounts, so that new connector metadata reaches the store. *)
Theorem C8_resume_refreshes_metadata (this : Env) (evmAddresses : list string)
    (setAccountsFn : list WalletAccount → M unit) (connectorInfo : option ConnectorInfo)
    (w w1 : World) (ws : WalletState) (accts : list WalletAccount) :
  walletState w = Some ws →
  LiquidEvmBase.deriveAlgorandAccounts this evmAddresses connectorInfo
    (with_map w (rebuilt (evmAddressMap w) (accounts ws))) = (Returned accts, w1) →
  compareAccounts accts (accounts ws) = true →
  LiquidEvmBase.resumeWithAccounts this evmAddresses setAccountsFn connectorInfo w
  = setAccountsFn accts w1.
Proof.
  intros Hws Hd _. by apply resumeWithAccounts_eval with ws.
Qed.

Lemma C8_resume_refreshes_metadata_witness :
  (walletState
     (LiquidEvmBase.resumeWithAccounts (Sample.wallet Sample.on_algorand) ["0xB"; "0xA"]
        Sample.store_accounts (Sample.via "MetaMask") (Sample.reloaded (Some "Rainbow"))).2
   ≫= λ ws, Some (accounts ws))
  = Some [Sample.account "0xB" (Some "MetaMask"); Sample.account "0xA" (Some "MetaMask")].
Proof.
  rewrite (C8_resume_refreshes_metadata (Sample.wallet Sample.on_algorand) ["0xB"; "0xA"]
             Sample.store_accounts (Sample.via "MetaMask") (Sample.reloaded (Some "Rainbow"))
             _ _ _ eq_refl eq_refl eq_refl).
  vm_compute. reflexivity.
Defined.

(** ** The result array *)

Lemma bind_inv {A B} (m : M A) (k : A → M B) (w w' : World) (b : B) :
  (m ≫= k) w = (Returned b, w') →
  ∃ a w1, m w = (Returned a, w1) ∧ k a w1 = (Returned b, w').
Proof.
  unfold mbind, M_bind, bind. destruct (m w) as [[a|e] w1]; [|done].
  intros H. by exists a, w1.
Qed.

Lemma selected_from_nil_inv {A} (P : nat → A → Prop) `{∀ i x, Decision (P i x)} (l : list A) :
  ∀ n, selected_from P n l = [] → ∀ i x, l !! i = Some x → ¬ P (n + i) x.
Proof.
  induction l as [|y l IH]; intros n Hnil i x Hi; [done|].
  rewrite selected_from_cons in Hnil. apply app_eq_nil in Hnil as [Hy Hl].
  destruct i as [|i]; simpl in Hi.
  - injection Hi as ->. rewrite Nat.add_0_r. by destruct (decide (P n x)).
  - rewrite Nat.add_succ_r. by apply (IH (S n)).
Qed.

Section result_array.
Context (this : Env).

(** What a returning [sign_with] returned: the entries of the SDK's answer
    at the positions that pass the result test, [null] elsewhere. *)
Lemma sign_with_returned (input : SignInput) (F : option (list Z))
    (flat : list Transaction) (evm : string) (w w' : World) (r : list SignedEntry) :
  LiquidEvmBase.sign_with this input F flat evm w = (Returned r, w') →
  ∃ blobs, sdk_signTxn this evm flat = Returned blobs
           ∧ r = imap (LiquidEvmBase.result_entry this F blobs) flat
           ∧ SdkSignTxn evm flat ∈ calls w'.
Proof.
  unfold LiquidEvmBase.sign_with. intros H.
  apply bind_inv in H as ([] & w1 & _ & H).
  apply bind_inv in H as ([] & w2 & _ & H).
  apply bind_inv in H as ([] & w3 & Hlog & H).
  apply bind_inv in H as (blobs & w4 & Hsign & H).
  apply bind_inv in H as ([] & w5 & Hafter & H).
  injection H as <- <-. injection Hsign as Hsign <-.
  injection Hlog as <-.
  exists blobs. split; [done|]. split; [done|].
  assert (SdkSignTxn evm flat ∈ calls (issued w2 [SdkSignTxn evm flat])) as Hin.
  { simpl. apply elem_of_app. right. apply list_elem_of_here. }
  revert Hafter Hin. unfold issued. simpl.
  destruct (nullish (options_onAfterSign this) (manager_onAfterSign this)) as [hook|].
  - run. destruct (hook true None) as [[]|e]; intros [= <-] Hin; simpl;
      apply elem_of_app; by left.
  - run. by intros [= <-].
Qed.

Lemma signTransactions_returned (input : SignInput) (F : option (list Z))
    (w w' : World) (r : list SignedEntry) :
  LiquidEvmBase.signTransactions this input F w = (Returned r, w') →
  ∃ flat sel,
    LiquidEvmBase.flatten_and_decode this input = Returned flat
    ∧ LiquidEvmBase.select_txnsToSign this input flat F = Returned sel
    ∧ ((sel = [] ∧ r = replicate (length flat) Null ∧ calls w' = calls w)
       ∨ (sel ≠ [] ∧ ∃ evm blobs,
            sdk_signTxn this evm flat = Returned blobs
            ∧ r = imap (LiquidEvmBase.result_entry this F blobs) flat)).
Proof.
  unfold LiquidEvmBase.signTransactions, try_catch.
  destruct (LiquidEvmBase.signTransactions_try this input F w) as [[r'|e] w1] eqn:Htry.
  2: { by rewrite signTransactions_catch_eval. }
  intros [= <- <-]. revert Htry. unfold LiquidEvmBase.signTransactions_try.
  intros H.
  apply bind_inv in H as ([] & w2 & Hinit & H).
  apply bind_inv in H as (flat & w3 & Hflat & H).
  apply bind_inv in H as (sel & w4 & Hsel & H).
  injection Hflat as Hflat <-. injection Hsel as Hsel <-.
  exists flat, sel. split; [done|]. split; [done|].
  destruct sel as [|first rest].
  - left. injection H as <- <-. split; [done|]. split; [apply all_null|].
    by destruct (initializeEvmSdk_frame this _ _ _ Hinit) as (_ & _ & ?).
  - right. split; [done|].
    apply bind_inv in H as (found & w5 & _ & H).
    destruct (if_truthy found) as [evm|]; [|done].
    apply sign_with_returned in H as (blobs & Hs & -> & _).
    by exists evm, blobs.
Qed.

(** The returned array always has the length of the flattened input. *)
Lemma signTransactions_length (input : SignInput) (F : option (list Z))
    (w w' : World) (r : list SignedEntry) (flat : list Transaction) :
  LiquidEvmBase.signTransactions this input F w = (Returned r, w') →
  LiquidEvmBase.flatten_and_decode this input = Returned flat →
  length r = length flat.
Proof.
  intros Hr Hflat.
  destruct (signTransactions_returned _ _ _ _ _ Hr) as (flat' & sel & Hflat' & _ & H).
  rewrite Hflat in Hflat'. injection Hflat' as <-.
  destruct H as [(_ & -> & _)|(_ & evm & blobs & _ & ->)].
  - apply length_replicate.
  - apply length_imap.
Qed.

(** On a group of transaction objects the result follows the
    classification: the SDK's entry at every selected position, [null] at
    every other one. *)
Lemma signTransactions_structured (g : TxnGroup Transaction) (F : option (list Z))
    (w w' : World) (r : list SignedEntry) :
  LiquidEvmBase.signTransactions this (Structured g) F w = (Returned r, w') →
  ∃ blobs, ∀ i t, flattenTxnGroup g !! i = Some t →
    r !! i = Some (if decide (eligibleForSignature (addresses this) F false false i (sender t))
                   then blob_at blobs i else Null).
Proof.
  intros Hr.
  destruct (signTransactions_returned _ _ _ _ _ Hr) as (flat & sel & Hflat & Hsel & H).
  injection Hflat as <-. simpl in Hsel. injection Hsel as <-.
  destruct H as [(Hnil & -> & _)|(_ & evm & blobs & _ & ->)].
  - exists []. intros i t Hi.
    rewrite lookup_replicate_2; [|by apply lookup_lt_Some in Hi].
    destruct (decide _) as [He|]; [|done]. exfalso.
    unfold LiquidEvmBase.processTxns in Hnil.
    rewrite processTxns_from_selected in Hnil. simpl in Hnil.
    by apply (selected_from_nil_inv _ _ 0 Hnil i t Hi).
  - exists blobs. intros i t Hi. rewrite list_lookup_imap, Hi. simpl.
    unfold LiquidEvmBase.result_entry.
    by rewrite (if_test _ _ (blob_at blobs i) Null (test_structured this F i t)).
Qed.

End result_array.

Section signed_entries.
Context (this : Env).

(** The result test of [signTransactions] does not look at whether an
    encoded entry was already signed: such an entry, when its index
    passes the filter and its sender is the wallet's, is never [null] in
    the result of a call that signs something. *)
Lemma result_entry_not_null (F : option (list Z)) (blobs : list Uint8Array)
    (i : nat) (t : Transaction) :
  isIndexMatch F i = true → sender t ∈ addresses this →
  LiquidEvmBase.result_entry this F blobs i t = blob_at blobs i
  ∧ LiquidEvmBase.result_entry this F blobs i t ≠ Null.
Proof.
  intros Hi Hs. unfold LiquidEvmBase.result_entry, includes_address.
  rewrite Hi, bool_decide_eq_true_2 by done. simpl.
  split; [done|]. unfold blob_at. by destruct (blobs !! i).
Qed.

Lemma signTransactions_signed_entry (g : TxnGroup Uint8Array) (F : option (list Z))
    (w w' : World) (r : list SignedEntry) (flat : list Transaction)
    (first : Transaction) (rest : list Transaction) (i : nat) (t : Transaction) :
  LiquidEvmBase.signTransactions this (Encoded g) F w = (Returned r, w') →
  LiquidEvmBase.flatten_and_decode this (Encoded g) = Returned flat →
  LiquidEvmBase.select_txnsToSign this (Encoded g) flat F = Returned (first :: rest) →
  flat !! i = Some t →
  isIndexMatch F i = true → sender t ∈ addresses this →
  ¬ eligibleForSignature (addresses this) F true true i (sender t)
  ∧ r !! i ≠ Some Null.
Proof.
  intros Hr Hflat Hsel Hi Him Hs. split.
  { intros (_ & _ & Hc). by specialize (Hc eq_refl). }
  destruct (signTransactions_returned _ _ _ _ _ _ Hr) as (flat' & sel & Hflat' & Hsel' & H).
  rewrite Hflat in Hflat'. injection Hflat' as <-.
  rewrite Hsel in Hsel'. injection Hsel' as <-.
  destruct H as [(? & _)|(_ & evm & blobs & _ & ->)]; [done|].
  rewrite list_lookup_imap, Hi. simpl. intros [= Hn].
  by destruct (result_entry_not_null F blobs i t Him Hs) as [_ ?].
Qed.

(** The revision that signs through [getSigner] assembles the result from
    the classification itself: the array keeps the length of the group and
    is [null] wherever the position was not selected. *)
Lemma Signer_assemble_length (l : list SignerTransaction) (idxs : list nat)
    (blobs : list Uint8Array) : ∀ i k,
  length (LiquidEvmBaseSigner.assemble_from i k l idxs blobs) = length l.
Proof.
  induction l as [|x l IH]; intros i k; simpl; [done|].
  destruct (bool_decide (i ∈ idxs)); simpl; by rewrite IH.
Qed.

Lemma Signer_assemble_null (l : list SignerTransaction) (idxs : list nat)
    (blobs : list Uint8Array) : ∀ i k j,
  j < length l → (i + j) ∉ idxs →
  LiquidEvmBaseSigner.assemble_from i k l idxs blobs !! j = Some Null.
Proof.
  induction l as [|x l IH]; intros i k j Hj Hn; simpl in *; [lia|].
  destruct j as [|j].
  - rewrite Nat.add_0_r in Hn. by rewrite bool_decide_eq_false_2.
  - rewrite Nat.add_succ_r in Hn.
    destruct (bool_decide (i ∈ idxs)); simpl; apply IH; (lia || done).
Qed.

End signed_entries.

(** C1 (the code departs from it): on an encoded group the result test of
    [signTransactions] leaves out the already-signed check that the
    classification makes.  In the group below entry 0 is a bare transaction
    of the wallet and entry 1 an already-signed one of the wallet: entry 1
    is not eligible and not selected, yet the returned array holds a blob at
    position 1 instead of [null].  The revision that signs through
    [getSigner] returns [null] there. *)
Theorem C1_signed_entry_not_null :
  let this := Sample.wallet Sample.on_algorand in
  let group := [[Byte.x00; Byte.x0a]; [Byte.x01; Byte.x0a; Byte.x00]] in
  decoded_as this group [(false, Sample.txn_of "ALGO:0xA" 2); (true, Sample.txn_of "ALGO:0xA" 3)]
  ∧ LiquidEvmBase.processEncodedTxns this group None = Returned [Sample.txn_of "ALGO:0xA" 2]
  ∧ ¬ eligibleForSignature (addresses this) None true true 1 "ALGO:0xA"
  ∧ (LiquidEvmBase.signTransactions this (Encoded (Flat group)) None Sample.connected).1
    = Returned [Blob [Byte.xff]; Blob [Byte.xff]]
  ∧ (LiquidEvmBaseSigner.signTransactions this (Encoded (Flat group)) None Sample.connected).1
    = Returned [Blob [Byte.xff]; Null].
Proof.
  simpl. split; [reflexivity|]. split; [reflexivity|]. split.
  - intros (_ & _ & Hc). by specialize (Hc eq_refl).
  - split; vm_compute; reflexivity.
Qed.

(** A group of three entries, the first and the last of the wallet, signed
    without a filter: blobs at positions 0 and 2, [null] at position 1. *)
Example mixed_owner_group :
  let this := Sample.wallet Sample.on_algorand in
  let group := [Sample.txn_of "ALGO:0xA" 0; Sample.txn_of "ALGO:other" 1;
                Sample.txn_of "ALGO:0xA" 2] in
  LiquidEvmBase.signTransactions this (Structured (Flat group)) None Sample.connected
  = (Returned [Blob [Byte.xff]; Null; Blob [Byte.xff]],
     issued Sample.connected [ProviderRequest eth_chainId; SdkSignTxn "0xA" group]).
Proof. vm_compute. reflexivity. Qed.

(** ** The other revisions *)

(** The revision that signs through [getSigner] classifies every entry in
    place: the entry at position [i] is left without a [signers] field
    exactly when it is eligible. *)
Lemma Signer_processTxns_from (this : Env) (F : option (list Z)) (l : list Transaction) :
  ∀ i acc,
    LiquidEvmBaseSigner.processTxns_from this i l F acc =
    acc ++ imap (λ j t, LiquidEvmBaseSigner.classified F
                          (includes_address (addresses this) (sender t)) (i + j) t) l.
Proof.
  induction l as [|t l IH]; intros i acc; simpl.
  - by rewrite app_nil_r.
  - rewrite IH, Nat.add_0_r, <- app_assoc. simpl. do 2 f_equal.
    apply imap_ext. intros j x _. simpl. by rewrite Nat.add_succ_r.
Qed.

Lemma Signer_classification (this : Env) (F : option (list Z)) (l : list Transaction)
    (i : nat) (t : Transaction) :
  l !! i = Some t →
  ∃ st, LiquidEvmBaseSigner.processTxns this l F !! i = Some st
        ∧ txn st = t
        ∧ (signers st = None ↔
           eligibleForSignature (addresses this) F false false i (sender t)).
Proof.
  intros Hi. unfold LiquidEvmBaseSigner.processTxns.
  rewrite Signer_processTxns_from. simpl. rewrite list_lookup_imap, Hi. simpl.
  eexists. split; [done|]. unfold LiquidEvmBaseSigner.classified.
  rewrite <- test_structured.
  destruct (isIndexMatch F i && includes_address (addresses this) (sender t)); simpl;
    split; [done| |done..]; split; done.
Qed.

(** The chain guard of the revision that signs through [getSigner]: the ids
    are compared as they are, and only code 4902 leads to the add request. *)
Lemma Signer_chain_guard (this : Env) (provider : Provider) (current : string) (w : World) :
  getEvmProvider this = Returned provider →
  reply_chainId provider = Returned current →
  let switch := ProviderRequest (wallet_switchEthereumChain (ALGORAND_CHAIN_ID_HEX this)) in
  let add := ProviderRequest (wallet_addEthereumChain (ALGORAND_EVM_CHAIN_CONFIG this)) in
  LiquidEvmBaseSigner.ensureAlgorandChain this w =
    if String.eqb current (ALGORAND_CHAIN_ID_HEX this)
    then (Returned tt, issued w [ProviderRequest eth_chainId])
    else match reply_switch provider with
         | Returned _ => (Returned tt, issued w [ProviderRequest eth_chainId; switch])
         | Thrown switchError =>
             if bool_decide (err_code switchError = Some 4902%Z)
             then (reply_add provider, issued w [ProviderRequest eth_chainId; switch; add])
             else (Thrown switchError, issued w [ProviderRequest eth_chainId; switch])
         end.
Proof.
  intros Hp Hc. unfold LiquidEvmBaseSigner.ensureAlgorandChain. run.
  rewrite Hp. simpl. rewrite Hc. simpl.
  destruct (String.eqb current (ALGORAND_CHAIN_ID_HEX this)); [done|].
  destruct (reply_switch provider) as [[]|e]; simpl.
  - by rewrite <- app_assoc.
  - destruct (bool_decide (err_code e = Some 4902%Z)); run; by rewrite <- !app_assoc.
Qed.

(** The stand-alone MetaMaskWallet derives accounts without metadata. *)
Example MetaMask_accounts_lack_metadata :
  (MetaMask.connect (Sample.wallet Sample.on_algorand) Sample.fresh).1
  = Returned [ {| name := "Rainbow Account 1"; address := "ALGO:0xA"; metadata := None |};
               {| name := "Rainbow Account 2"; address := "ALGO:0xB"; metadata := None |} ].
Proof. vm_compute. reflexivity. Qed.

(** After a reload the base class refills the map from the store and signs;
    the two other copies have no such fallback and throw. *)
Example fallback_only_in_base :
  let this := Sample.wallet Sample.on_algorand in
  let input := Structured (Flat [Sample.txn_of "ALGO:0xA" 0]) in
  (LiquidEvmBase.signTransactions this input None (Sample.reloaded None)).1
  = Returned [Blob [Byte.xff]]
  ∧ (MetaMask.signTransactions this input None (Sample.reloaded None)).1
    = Thrown (LiquidEvmBase.no_evm_address "ALGO:0xA")
  ∧ (LiquidEvmBaseSigner.signTransactions this input None (Sample.reloaded None)).1
    = Thrown (LiquidEvmBase.no_evm_address "ALGO:0xA").
Proof. simpl. repeat split; vm_compute; reflexivity. Qed.

(** The revision that signs through [getSigner] has no early return: with
    nothing selected it still calls the signer, with no index to sign. *)
Example Signer_calls_signer_for_nothing :
  let this := Sample.wallet Sample.on_algorand in
  let other := Sample.txn_of "ALGO:0xA" 0 in
  LiquidEvmBaseSigner.signTransactions this (Structured (Flat [other])) (Some []) Sample.connected
  = (Returned [Null], issued Sample.connected [ProviderRequest eth_chainId;
                                                 SdkSigner "0xA" [other] []]).
Proof. vm_compute. reflexivity. Qed.

(** * Further properties of the code *)

(** ** Derivation over a list of addresses *)

Section derivation_lists.
Context (this : Env).

Lemma derived_map_snoc (m : gmap string string) (target : string → string)
    (l : list string) (x : string) :
  derived_map m target (l ++ [x]) = <[target x := x]> (derived_map m target l).
Proof. unfold derived_map. by rewrite foldl_app. Qed.

Lemma derived_map_lookup_other (target : string → string) (l : list string) :
  ∀ (m : gmap string string) (k : string),
    k ∉ target <$> l → derived_map m target l !! k = m !! k.
Proof.
  induction l as [|x l IH] using rev_ind; intros m k Hk; [done|].
  rewrite derived_map_snoc. rewrite fmap_app in Hk. simpl in Hk.
  rewrite lookup_insert_ne.
  - apply IH. intros Hin. apply Hk. apply elem_of_app. by left.
  - intros Heq. subst k. apply Hk. apply elem_of_app. right. apply list_elem_of_here.
Qed.

Lemma derived_map_lookup_inj (target : string → string) (l : list string) :
  ∀ (m : gmap string string) (evm : string),
    (∀ a b, a ∈ l → b ∈ l → target a = target b → a = b) →
    evm ∈ l → derived_map m target l !! target evm = Some evm.
Proof.
  induction l as [|x l IH] using rev_ind; intros m evm Hinj Hin.
  - by apply elem_of_nil in Hin.
  - rewrite derived_map_snoc.
    destruct (decide (target x = target evm)) as [Heq|Hne].
    + assert (x = evm) as ->.
      { apply Hinj; [apply elem_of_app; right; apply list_elem_of_here|done|done]. }
      apply lookup_insert_eq.
    + rewrite lookup_insert_ne by done.
      apply IH.
      * intros a b Ha Hb. apply Hinj; apply elem_of_app; by left.
      * apply elem_of_app in Hin as [Hin|Hin]; [done|].
        apply list_elem_of_singleton in Hin as ->. done.
Qed.

(** The loop over a list that fails at [bad]: the addresses before it were
    derived and entered, [bad] was asked for, the rest was not. *)
Lemma derive_loop_fails (connectorInfo : option ConnectorInfo) (target : string → string)
    (before : list string) (bad : string) (after : list string) (e : JsError) :
  ∀ acc w,
    (∀ evm, evm ∈ before → sdk_getAddress this evm = Returned (target evm)) →
    sdk_getAddress this bad = Thrown e →
    LiquidEvmBase.derive_loop this (before ++ bad :: after) connectorInfo acc w =
    (Thrown e,
     issued (with_map w (derived_map (evmAddressMap w) target before))
       (SdkGetAddress <$> (before ++ [bad]))).
Proof.
  induction before as [|evm l IH]; intros acc w Hok Hbad; simpl.
  - erewrite bind_returned; [|reflexivity].
    unfold mbind, M_bind, bind, await. rewrite Hbad. by destruct w.
  - erewrite bind_returned; [|reflexivity].
    rewrite (bind_await _ _ _ _ (Hok evm (list_elem_of_here _ _))).
    erewrite bind_returned; [|reflexivity].
    rewrite IH; [|intros x Hx; apply Hok; by apply list_elem_of_further|done].
    unfold issued, with_map. simpl. by rewrite <- !app_assoc.
Qed.

(** Refilling a map from accounts that [deriveAlgorandAccounts] built enters
    the very pairs the derivation entered. *)
Lemma rebuilt_derived (connectorInfo : option ConnectorInfo) (target : string → string)
    (l : list string) :
  (∀ evm, evm ∈ l → evm ≠ "") →
  ∀ m, rebuilt m (derived_account this connectorInfo target <$> l) = derived_map m target l.
Proof.
  unfold rebuilt, derived_map.
  induction l as [|evm l IH]; intros Hne m; [done|]. simpl.
  assert (if_truthy (Some evm) = Some evm) as ->.
  { unfold if_truthy, truthy.
    destruct (String.eqb_spec evm ""); [|done].
    by destruct (Hne evm (list_elem_of_here _ _)). }
  apply IH. intros x Hx. apply Hne. by apply list_elem_of_further.
Qed.

End derivation_lists.

(** X1: when the derived addresses of the input addresses are pairwise
    distinct, [deriveAlgorandAccounts] returns, for every input address, an
    account at the same position whose address reads back from
    [evmAddressMap] as that input address. *)
Theorem X1_derive_lookup_all (this : Env) (connectorInfo : option ConnectorInfo)
    (target : string → string) (evmAddresses : list string) (w w1 : World) :
  LiquidEvmBase.initializeEvmSdk this w = (Returned tt, w1) →
  (∀ evm, evm ∈ evmAddresses → sdk_getAddress this evm = Returned (target evm)) →
  (∀ a b, a ∈ evmAddresses → b ∈ evmAddresses → target a = target b → a = b) →
  ∃ accts w',
    LiquidEvmBase.deriveAlgorandAccounts this evmAddresses connectorInfo w = (Returned accts, w')
    ∧ ∀ i evm, evmAddresses !! i = Some evm →
        ∃ acct, accts !! i = Some acct
                ∧ address acct = target evm
                ∧ reverseLookup w' (address acct) = Some evm.
Proof.
  intros Hinit Hok Hinj. eexists _, _.
  split; [by apply deriveAlgorandAccounts_eval|].
  intros i evm Hi. exists (derived_account this connectorInfo target evm).
  split; [by rewrite list_lookup_fmap, Hi|]. split; [done|].
  unfold reverseLookup. simpl. apply derived_map_lookup_inj; [done|].
  by apply list_elem_of_lookup_2 in Hi.
Qed.

Lemma X1_derive_lookup_all_witness :
  ∃ accts w',
    LiquidEvmBase.deriveAlgorandAccounts (Sample.wallet Sample.on_algorand)
      ["0xA"; "0xB"] None Sample.fresh = (Returned accts, w')
    ∧ ∀ i evm, ["0xA"; "0xB"] !! i = Some evm →
        ∃ acct, accts !! i = Some acct
                ∧ address acct = "ALGO:" +:+ evm
                ∧ reverseLookup w' (address acct) = Some evm.
Proof.
  refine (X1_derive_lookup_all (Sample.wallet Sample.on_algorand) None
            (λ evm, "ALGO:" +:+ evm) ["0xA"; "0xB"] Sample.fresh
            {| evmAddressMap := ∅; liquidEvmSdk := true; algorandClient := true;
               walletState := None; calls := [] |} eq_refl _ _).
  - intros evm _. reflexivity.
  - intros a b _ _ H. by injection H.
Defined.

(** X2: a derivation that succeeds asks the SDK for exactly one address per
    input address, in input order, leaves the persisted session alone, and
    leaves every map entry whose key is not one of the derived addresses as
    it was. *)
Theorem X2_derive_frame (this : Env) (connectorInfo : option ConnectorInfo)
    (target : string → string) (evmAddresses : list string) (w w1 : World) :
  LiquidEvmBase.initializeEvmSdk this w = (Returned tt, w1) →
  (∀ evm, evm ∈ evmAddresses → sdk_getAddress this evm = Returned (target evm)) →
  let w' := (LiquidEvmBase.deriveAlgorandAccounts this evmAddresses connectorInfo w).2 in
  calls w' = calls w ++ (SdkGetAddress <$> evmAddresses)
  ∧ walletState w' = walletState w
  ∧ ∀ k, k ∉ target <$> evmAddresses → reverseLookup w' k = reverseLookup w k.
Proof.
  intros Hinit Hok.
  rewrite (deriveAlgorandAccounts_eval this connectorInfo target evmAddresses w w1 Hinit Hok).
  destruct (initializeEvmSdk_frame this _ _ _ Hinit) as (Hmap & Hws & Hcalls).
  simpl. rewrite Hcalls, Hws. split; [done|]. split; [done|].
  intros k Hk. unfold reverseLookup. simpl.
  rewrite derived_map_lookup_other by done. by rewrite Hmap.
Qed.

Lemma X2_derive_frame_witness :
  let w' := (LiquidEvmBase.deriveAlgorandAccounts (Sample.wallet Sample.on_algorand)
               ["0xB"] None Sample.connected).2 in
  calls w' = calls Sample.connected ++ (SdkGetAddress <$> ["0xB"])
  ∧ walletState w' = walletState Sample.connected
  ∧ ∀ k, k ∉ (λ evm, "ALGO:" +:+ evm) <$> ["0xB"] →
      reverseLookup w' k = reverseLookup Sample.connected k.
Proof.
  refine (X2_derive_frame (Sample.wallet Sample.on_algorand) None
            (λ evm, "ALGO:" +:+ evm) ["0xB"] Sample.connected Sample.connected eq_refl _).
  intros evm _. reflexivity.
Defined.

(** X3: when the SDK fails on one address, [deriveAlgorandAccounts] throws
    that error and returns no account, but the pairs of the addresses before
    it stay in the map, and the addresses after it are never asked for. *)
Theorem X3_derive_partial (this : Env) (connectorInfo : option ConnectorInfo)
    (target : string → string) (before : list string) (bad : string) (after : list string)
    (e : JsError) (w w1 : World) :
  LiquidEvmBase.initializeEvmSdk this w = (Returned tt, w1) →
  (∀ evm, evm ∈ before → sdk_getAddress this evm = Returned (target evm)) →
  sdk_getAddress this bad = Thrown e →
  LiquidEvmBase.deriveAlgorandAccounts this (before ++ bad :: after) connectorInfo w =
  (Thrown e,
   issued (with_map w1 (derived_map (evmAddressMap w1) target before))
     (SdkGetAddress <$> (before ++ [bad]))).
Proof.
  intros Hinit Hok Hbad. unfold LiquidEvmBase.deriveAlgorandAccounts.
  rewrite (bind_returned _ _ _ _ _ Hinit).
  by apply derive_loop_fails.
Qed.

Lemma X3_derive_partial_witness :
  LiquidEvmBase.deriveAlgorandAccounts
    (with_getAddress (Sample.wallet Sample.on_algorand)
       (λ evm, if String.eqb evm "0xBAD" then Thrown Sample.malformed
               else Returned ("ALGO:" +:+ evm)))
    (["0xA"] ++ "0xBAD" :: ["0xB"]) None Sample.fresh
  = (Thrown Sample.malformed,
     {| evmAddressMap := {[ "ALGO:0xA" := "0xA" ]}; liquidEvmSdk := true;
        algorandClient := true; walletState := None;
        calls := [SdkGetAddress "0xA"; SdkGetAddress "0xBAD"] |}).
Proof.
  pose proof (X3_derive_partial
    (with_getAddress (Sample.wallet Sample.on_algorand)
       (λ evm, if String.eqb evm "0xBAD" then Thrown Sample.malformed
               else Returned ("ALGO:" +:+ evm)))
    None (λ evm, "ALGO:" +:+ evm) ["0xA"] "0xBAD" ["0xB"] Sample.malformed Sample.fresh
    {| evmAddressMap := ∅; liquidEvmSdk := true; algorandClient := true;
       walletState := None; calls := [] |} eq_refl) as H.
  rewrite H.
  - vm_compute. reflexivity.
  - intros evm Hin. apply list_elem_of_singleton in Hin as ->. reflexivity.
  - reflexivity.
Defined.

(** ** Reload: the map is lost, the persisted accounts are not *)

Section reload.
Context (this : Env).

(** The [try] block once the entries to sign are known, in terms of the
    resolution of the source address. *)
Lemma signTransactions_try_resolved (input : SignInput) (F : option (list Z))
    (w w1 : World) (flat : list Transaction) (first : Transaction) (rest : list Transaction) :
  LiquidEvmBase.initializeEvmSdk this w = (Returned tt, w1) →
  LiquidEvmBase.flatten_and_decode this input = Returned flat →
  LiquidEvmBase.select_txnsToSign this input flat F = Returned (first :: rest) →
  LiquidEvmBase.signTransactions_try this input F w =
    match resolved w1 (sender first) with
    | (Some evm, w2) => LiquidEvmBase.sign_with this input F flat evm w2
    | (None, w2) => (Thrown (LiquidEvmBase.no_evm_address (sender first)), w2)
    end.
Proof.
  intros Hinit Hflat Hsel.
  rewrite (signTransactions_try_selected this input F w w1 flat _ Hinit Hflat Hsel).
  unfold mbind, M_bind, bind. rewrite resolve_evmAddress_eval. unfold resolved.
  destruct (if_truthy (reverseLookup w1 (sender first))) as [evm|] eqn:E1.
  - simpl. by rewrite (proj2 (if_truthy_Some _ _ E1)).
  - destruct (walletState w1) as [ws|]; simpl.
    + by destruct (if_truthy (reverseLookup (with_map _ _) _)).
    + by rewrite E1.
Qed.

Lemma if_truthy_nonempty (s : string) : s ≠ "" → if_truthy (Some s) = Some s.
Proof.
  intros Hs. unfold if_truthy, truthy. by destruct (String.eqb_spec s "").
Qed.

End reload.

(** X4: the accounts that [deriveAlgorandAccounts] returns carry enough to
    restore the map: when the map is set back to what it was before the
    derivation, the refill from those accounts (the loop of [signTransactions]
    and [resumeWithAccounts]) yields the map the derivation had built.  The
    source addresses must be non-empty: the refill skips an empty one. *)
Theorem X4_refill_restores_derivation (this : Env) (connectorInfo : option ConnectorInfo)
    (target : string → string) (evmAddresses : list string) (w w1 : World) :
  LiquidEvmBase.initializeEvmSdk this w = (Returned tt, w1) →
  (∀ evm, evm ∈ evmAddresses → sdk_getAddress this evm = Returned (target evm)) →
  (∀ evm, evm ∈ evmAddresses → evm ≠ "") →
  ∃ accts w',
    LiquidEvmBase.deriveAlgorandAccounts this evmAddresses connectorInfo w = (Returned accts, w')
    ∧ LiquidEvmBase.rebuildEvmAddressMap accts (with_map w' (evmAddressMap w))
      = (Returned tt, w').
Proof.
  intros Hinit Hok Hne. eexists _, _.
  split; [by apply deriveAlgorandAccounts_eval|].
  rewrite rebuildEvmAddressMap_rebuilt. simpl.
  rewrite (rebuilt_derived this connectorInfo target evmAddresses Hne).
  destruct (initializeEvmSdk_frame this _ _ _ Hinit) as (-> & _ & _).
  done.
Qed.

Lemma X4_refill_restores_derivation_witness :
  ∃ accts w',
    LiquidEvmBase.deriveAlgorandAccounts (Sample.wallet Sample.on_algorand)
      ["0xA"; "0xB"] (Sample.via "MetaMask") Sample.fresh = (Returned accts, w')
    ∧ LiquidEvmBase.rebuildEvmAddressMap accts (with_map w' (evmAddressMap Sample.fresh))
      = (Returned tt, w').
Proof.
  refine (X4_refill_restores_derivation (Sample.wallet Sample.on_algorand)
            (Sample.via "MetaMask") (λ evm, "ALGO:" +:+ evm) ["0xA"; "0xB"] Sample.fresh
            {| evmAddressMap := ∅; liquidEvmSdk := true; algorandClient := true;
               walletState := None; calls := [] |} eq_refl _ _).
  - intros evm _. reflexivity.
  - intros evm Hin. rewrite !elem_of_cons, elem_of_nil in Hin.
    destruct Hin as [->|[->|[]]]; discriminate.
Defined.

(** X5: after a reload (the map has no entry for the sender, the store still
    holds the accounts a derivation produced), [signTransactions] for a
    transaction of any of those accounts refills the map and signs with that
    account's source address. *)
Theorem X5_sign_after_reload (this : Env) (connectorInfo : option ConnectorInfo)
    (target : string → string) (evmAddresses : list string) (evm : string)
    (input : SignInput) (indexFilter : option (list Z)) (w w1 : World) (ws : WalletState)
    (flat : list Transaction) (first : Transaction) (rest : list Transaction) :
  LiquidEvmBase.initializeEvmSdk this w = (Returned tt, w1) →
  LiquidEvmBase.flatten_and_decode this input = Returned flat →
  LiquidEvmBase.select_txnsToSign this input flat indexFilter = Returned (first :: rest) →
  walletState w = Some ws →
  accounts ws = derived_account this connectorInfo target <$> evmAddresses →
  (∀ a, a ∈ evmAddresses → a ≠ "") →
  (∀ a b, a ∈ evmAddresses → b ∈ evmAddresses → target a = target b → a = b) →
  evm ∈ evmAddresses →
  sender first = target evm →
  reverseLookup w (sender first) = None →
  LiquidEvmBase.signTransactions_try this input indexFilter w =
  LiquidEvmBase.sign_with this input indexFilter flat evm
    (with_map w1 (derived_map (evmAddressMap w1) target evmAddresses)).
Proof.
  intros Hinit Hflat Hsel Hws Haccts Hne Hinj Hin Hsender Hlost.
  rewrite (signTransactions_try_resolved this input indexFilter w w1 flat first rest
             Hinit Hflat Hsel).
  destruct (initializeEvmSdk_frame this _ _ _ Hinit) as (Hmap & Hws1 & _).
  unfold resolved, reverseLookup in *. rewrite Hmap, Hsender in *. rewrite Hlost.
  unfold if_truthy at 1. simpl. rewrite Hws1, Hws, Haccts.
  rewrite (rebuilt_derived this connectorInfo target evmAddresses Hne). simpl.
  rewrite (derived_map_lookup_inj target evmAddresses _ evm Hinj Hin).
  by rewrite (if_truthy_nonempty evm (Hne evm Hin)).
Qed.

Lemma X5_sign_after_reload_witness :
  LiquidEvmBase.signTransactions_try (Sample.wallet Sample.on_algorand)
    (Structured (Flat [Sample.txn_of "ALGO:0xB" 7])) None (Sample.reloaded None)
  = LiquidEvmBase.sign_with (Sample.wallet Sample.on_algorand)
      (Structured (Flat [Sample.txn_of "ALGO:0xB" 7])) None [Sample.txn_of "ALGO:0xB" 7] "0xB"
      (with_map (with_map Sample.connected ∅)
         (derived_map ∅ (λ evm, "ALGO:" +:+ evm) ["0xA"; "0xB"])).
Proof.
  refine (X5_sign_after_reload (Sample.wallet Sample.on_algorand) None
            (λ evm, "ALGO:" +:+ evm) ["0xA"; "0xB"] "0xB"
            (Structured (Flat [Sample.txn_of "ALGO:0xB" 7])) None (Sample.reloaded None)
            (with_map Sample.connected ∅)
            {| accounts := [Sample.account "0xA" None; Sample.account "0xB" None];
               activeAccount := Some (Sample.account "0xA" None) |}
            [Sample.txn_of "ALGO:0xB" 7] (Sample.txn_of "ALGO:0xB" 7) []
            eq_refl eq_refl eq_refl eq_refl eq_refl _ _ _ eq_refl eq_refl).
  - intros a Hin. rewrite !elem_of_cons, elem_of_nil in Hin.
    destruct Hin as [->|[->|[]]]; discriminate.
  - intros a b _ _ H. by injection H.
  - apply list_elem_of_further, list_elem_of_here.
Defined.

(** X6: [initializeEvmSdk] touches neither the map, the persisted session
    nor the log, whatever its outcome; a client or SDK that was created is
    kept; and once the SDK is there every later call returns at once without
    loading anything, even for a wallet whose imports would fail. *)
Theorem X6_initializeEvmSdk_memo (this : Env) (w : World) :
  let r := LiquidEvmBase.initializeEvmSdk this w in
  (evmAddressMap r.2 = evmAddressMap w ∧ walletState r.2 = walletState w
   ∧ calls r.2 = calls w)
  ∧ (algorandClient w = true → algorandClient r.2 = true)
  ∧ (liquidEvmSdk w = true → r = (Returned tt, w))
  ∧ (r.1 = Returned tt →
     liquidEvmSdk r.2 = true
     ∧ ∀ other : Env, LiquidEvmBase.initializeEvmSdk other r.2 = (Returned tt, r.2)).
Proof.
  simpl. destruct (LiquidEvmBase.initializeEvmSdk this w) as [o w'] eqn:Hr. simpl.
  split; [by apply (initializeEvmSdk_frame this w w' o)|].
  split.
  { revert Hr. unfold LiquidEvmBase.initializeEvmSdk. run. intros Hr Hc.
    destruct (liquidEvmSdk w); [by injection Hr as _ <-|].
    rewrite Hc in Hr. simpl in Hr.
    destruct (sdk_load this) as [[]|e]; by injection Hr as _ <-. }
  split.
  { intros Hs. by rewrite <- Hr, initializeEvmSdk_ready. }
  intros ->. pose proof (initializeEvmSdk_sets this _ _ Hr) as Hs.
  split; [done|]. intros other. by apply initializeEvmSdk_ready.
Qed.

(** ** The order of the calls of signTransactions *)

Section call_order.
Context (this : Env).

(** Whatever the provider does, the chain guard changes nothing but the log,
    to which it adds provider requests only: none, the read, the read and
    the switch, or the read, the switch and the add. *)
Lemma ensureAlgorandChain_requests (w w' : World) (o : Outcome unit) :
  LiquidEvmBase.ensureAlgorandChain this w = (o, w') →
  ∃ rs, w' = issued w (ProviderRequest <$> rs)
        ∧ (rs = []
           ∨ rs = [eth_chainId]
           ∨ rs = [eth_chainId; wallet_switchEthereumChain (ALGORAND_CHAIN_ID_HEX this)]
           ∨ rs = [eth_chainId; wallet_switchEthereumChain (ALGORAND_CHAIN_ID_HEX this);
                   wallet_addEthereumChain (ALGORAND_EVM_CHAIN_CONFIG this)]).
Proof.
  unfold LiquidEvmBase.ensureAlgorandChain. run.
  destruct (getEvmProvider this) as [p|e]; simpl.
  { destruct (reply_chainId p) as [cur|e]; simpl.
    - destruct (LiquidEvmBase.sameChainId this cur).
      + intros [= _ <-]. exists [eth_chainId]. split; [done|]. tauto.
      + destruct (reply_switch p) as [[]|e]; simpl.
        * intros [= _ <-]. eexists [_; _]. rewrite <- app_assoc. split; [done|]. tauto.
        * destruct (LiquidEvmBase.chainUnknown e); run.
          -- intros [= _ <-]. eexists [_; _; _]. rewrite <- !app_assoc.
             split; [done|]. tauto.
          -- intros [= _ <-]. eexists [_; _]. rewrite <- app_assoc. split; [done|]. tauto.
    - intros [= _ <-]. exists [eth_chainId]. split; [done|]. tauto. }
  intros [= _ <-]. exists []. simpl. rewrite app_nil_r. split; [by destruct w|]. tauto.
Qed.

End call_order.

Lemma no_sign_call_among_requests (rs : list RpcRequest) :
  filter is_sign_call (ProviderRequest <$> rs) = [].
Proof.
  induction rs as [|x rs IH]; [done|]. simpl.
  rewrite filter_cons_False; [done|]. simpl. tauto.
Qed.

Section sign_log.
Context (this : Env).

Lemma issued_app (w : World) (cs ds : list Call) :
  issued (issued w cs) ds = issued w (cs ++ ds).
Proof. unfold issued. simpl. by rewrite app_assoc. Qed.

Lemma issued_empty (w : World) : issued w [] = w.
Proof. destruct w. unfold issued. simpl. by rewrite app_nil_r. Qed.

(** The before-sign stage of [sign_with]. *)
Lemma before_stage (input : SignInput) (F : option (list Z)) (w : World) :
  (match nullish (options_onBeforeSign this) (manager_onBeforeSign this) with
   | Some onBeforeSign => log (OnBeforeSign F) ;; await (onBeforeSign input F)
   | None => ret tt
   end) w
  = (match nullish (options_onBeforeSign this) (manager_onBeforeSign this) with
     | Some onBeforeSign => onBeforeSign input F
     | None => Returned tt
     end, issued w (before_log this F)).
Proof.
  unfold before_log. destruct (nullish _ _) as [h|].
  - unfold mbind, M_bind, bind, log, await. done.
  - by rewrite issued_empty.
Qed.

(** The after-sign stage of [sign_with]: it always returns. *)
Lemma after_stage (w : World) :
  (match nullish (options_onAfterSign this) (manager_onAfterSign this) with
   | Some onAfterSign =>
       try_catch (log (OnAfterSign true None) ;; await (onAfterSign true None)) (λ _, ret tt)
   | None => ret tt
   end) w
  = (Returned tt, issued w (after_log this true None)).
Proof.
  unfold after_log. destruct (nullish _ _) as [h|].
  - unfold try_catch, mbind, M_bind, bind, log, await. simpl.
    by destruct (h true None) as [[]|e].
  - by rewrite issued_empty.
Qed.

(** A returning [sign_with]: the log gained, in this order, the before-sign
    hook, the guard's provider requests, the one SDK call, the after-sign
    hook; nothing else changed. *)
Lemma sign_with_log (input : SignInput) (F : option (list Z)) (flat : list Transaction)
    (evm : string) (w w' : World) (r : list SignedEntry) :
  LiquidEvmBase.sign_with this input F flat evm w = (Returned r, w') →
  ∃ rs, w' = issued w (before_log this F ++ (ProviderRequest <$> rs)
                       ++ [SdkSignTxn evm flat] ++ after_log this true None).
Proof.
  unfold LiquidEvmBase.sign_with. intros H.
  apply bind_inv in H as ([] & w1 & Hb & H).
  rewrite before_stage in Hb. injection Hb as _ <-.
  apply bind_inv in H as ([] & w2 & Hg & H).
  apply ensureAlgorandChain_requests in Hg as (rs & -> & _).
  apply bind_inv in H as ([] & w3 & Hlog & H). injection Hlog as <-.
  apply bind_inv in H as (blobs & w4 & Hsign & H). injection Hsign as _ <-.
  apply bind_inv in H as ([] & w5 & Ha & H).
  rewrite after_stage in Ha. injection Ha as <-. injection H as _ <-.
  exists rs. unfold issued. simpl. by rewrite <- !app_assoc.
Qed.

End sign_log.

(** X7: whatever the provider answers, the chain guard changes nothing but
    the log and issues one of four request sequences: none (no provider),
    the chain-id read, the read and the switch, or the read, the switch and
    the add; when the provider cannot be obtained or the read fails, that
    error is what the guard throws. *)
Theorem X7_chain_guard_requests (this : Env) (w : World) :
  (∃ rs, (LiquidEvmBase.ensureAlgorandChain this w).2 = issued w (ProviderRequest <$> rs)
         ∧ (rs = []
            ∨ rs = [eth_chainId]
            ∨ rs = [eth_chainId; wallet_switchEthereumChain (ALGORAND_CHAIN_ID_HEX this)]
            ∨ rs = [eth_chainId; wallet_switchEthereumChain (ALGORAND_CHAIN_ID_HEX this);
                    wallet_addEthereumChain (ALGORAND_EVM_CHAIN_CONFIG this)]))
  ∧ (∀ e, getEvmProvider this = Thrown e →
          LiquidEvmBase.ensureAlgorandChain this w = (Thrown e, w))
  ∧ (∀ p e, getEvmProvider this = Returned p → reply_chainId p = Thrown e →
            LiquidEvmBase.ensureAlgorandChain this w
            = (Thrown e, issued w [ProviderRequest eth_chainId])).
Proof.
  split.
  { destruct (LiquidEvmBase.ensureAlgorandChain this w) as [o w'] eqn:H.
    by apply ensureAlgorandChain_requests in H. }
  split.
  - intros e He. unfold LiquidEvmBase.ensureAlgorandChain. run. by rewrite He.
  - intros p e Hp He. unfold LiquidEvmBase.ensureAlgorandChain. run.
    rewrite Hp. simpl. by rewrite He.
Qed.

(** X8: a call of [signTransactions] that returns with something to sign
    made exactly one SDK call, with the resolved source address and the whole
    flattened sequence; in the log it comes after the before-sign hook and
    the guard's provider requests and before the after-sign hook. *)
Theorem X8_one_sign_call (this : Env) (input : SignInput) (indexFilter : option (list Z))
    (w w1 w' : World) (flat : list Transaction) (first : Transaction)
    (rest : list Transaction) (r : list SignedEntry) :
  LiquidEvmBase.initializeEvmSdk this w = (Returned tt, w1) →
  LiquidEvmBase.flatten_and_decode this input = Returned flat →
  LiquidEvmBase.select_txnsToSign this input flat indexFilter = Returned (first :: rest) →
  LiquidEvmBase.signTransactions this input indexFilter w = (Returned r, w') →
  ∃ evm rs,
    (resolved w1 (sender first)).1 = Some evm
    ∧ calls w' = calls w ++ before_log this indexFilter ++ (ProviderRequest <$> rs)
                 ++ [SdkSignTxn evm flat] ++ after_log this true None
    ∧ filter is_sign_call (calls w')
      = filter is_sign_call (calls w) ++ [SdkSignTxn evm flat].
Proof.
  intros Hinit Hflat Hsel Hr.
  unfold LiquidEvmBase.signTransactions, try_catch in Hr.
  rewrite (signTransactions_try_resolved this input indexFilter w w1 flat first rest
             Hinit Hflat Hsel) in Hr.
  destruct (initializeEvmSdk_frame this _ _ _ Hinit) as (_ & _ & Hc1).
  assert (calls (resolved w1 (sender first)).2 = calls w) as Hc2.
  { unfold resolved. destruct (if_truthy _); [done|].
    by destruct (walletState w1). }
  destruct (resolved w1 (sender first)) as [[evm|] w2]; simpl in *.
  2: { by rewrite signTransactions_catch_eval in Hr. }
  destruct (LiquidEvmBase.sign_with this input indexFilter flat evm w2) as [[r'|e] w3] eqn:Hs.
  2: { by rewrite signTransactions_catch_eval in Hr. }
  injection Hr as -> ->.
  apply sign_with_log in Hs as (rs & ->).
  exists evm, rs. split; [done|]. simpl. rewrite Hc2. split; [done|].
  rewrite !filter_app.
  assert (filter is_sign_call (before_log this indexFilter) = []) as ->.
  { unfold before_log. by destruct (nullish _ _). }
  rewrite no_sign_call_among_requests.
  rewrite filter_cons_True by done.
  assert (filter is_sign_call (after_log this true None) = []) as ->.
  { unfold after_log. by destruct (nullish _ _). }
  done.
Qed.

Lemma X8_one_sign_call_witness :
  let this := Sample.wallet (Sample.on_mainnet (Some 4902%Z)) in
  let flat := [Sample.txn_of "ALGO:0xA" 0; Sample.txn_of "ALGO:other" 1] in
  ∃ evm rs,
    (resolved Sample.connected "ALGO:0xA").1 = Some evm
    ∧ calls (issued Sample.connected
               [ProviderRequest eth_chainId;
                ProviderRequest (wallet_switchEthereumChain "0x1040");
                ProviderRequest (wallet_addEthereumChain Sample.chain_config);
                SdkSignTxn "0xA" flat])
      = calls Sample.connected ++ before_log this None ++ (ProviderRequest <$> rs)
        ++ [SdkSignTxn evm flat] ++ after_log this true None
    ∧ filter is_sign_call
        (calls (issued Sample.connected
                  [ProviderRequest eth_chainId;
                   ProviderRequest (wallet_switchEthereumChain "0x1040");
                   ProviderRequest (wallet_addEthereumChain Sample.chain_config);
                   SdkSignTxn "0xA" flat]))
      = filter is_sign_call (calls Sample.connected) ++ [SdkSignTxn evm flat].
Proof.
  exact (X8_one_sign_call (Sample.wallet (Sample.on_mainnet (Some 4902%Z)))
           (Structured (Flat [Sample.txn_of "ALGO:0xA" 0; Sample.txn_of "ALGO:other" 1]))
           None Sample.connected Sample.connected _
           [Sample.txn_of "ALGO:0xA" 0; Sample.txn_of "ALGO:other" 1]
           (Sample.txn_of "ALGO:0xA" 0) [] [Blob [Byte.xff]; Null]
           eq_refl eq_refl eq_refl eq_refl).
Defined.



(** X10: when the chain guard throws (the provider is gone, the user
    declines the switch, the add fails), [signTransactions] throws the
    guard's error and the SDK is not asked to sign: the log gains no SDK
    call. *)
Theorem X10_guard_failure_aborts (this : Env) (input : SignInput)
    (indexFilter : option (list Z)) (w w1 w2 wg : World) (flat : list Transaction)
    (first : Transaction) (rest : list Transaction) (evm : string) (e : JsError) :
  LiquidEvmBase.initializeEvmSdk this w = (Returned tt, w1) →
  LiquidEvmBase.flatten_and_decode this input = Returned flat →
  LiquidEvmBase.select_txnsToSign this input flat indexFilter = Returned (first :: rest) →
  resolved w1 (sender first) = (Some evm, w2) →
  (∀ onBeforeSign,
     nullish (options_onBeforeSign this) (manager_onBeforeSign this) = Some onBeforeSign →
     onBeforeSign input indexFilter = Returned tt) →
  LiquidEvmBase.ensureAlgorandChain this (issued w2 (before_log this indexFilter))
  = (Thrown e, wg) →
  LiquidEvmBase.signTransactions this input indexFilter w =
    (Thrown e, issued wg (after_log this false (Some (err_message e))))
  ∧ filter is_sign_call (calls (LiquidEvmBase.signTransactions this input indexFilter w).2)
    = filter is_sign_call (calls w).
Proof.
  intros Hinit Hflat Hsel Hres Hhook Hg.
  assert (LiquidEvmBase.signTransactions this input indexFilter w =
          (Thrown e, issued wg (after_log this false (Some (err_message e))))) as Hrun.
  { unfold LiquidEvmBase.signTransactions, try_catch.
    rewrite (signTransactions_try_resolved this input indexFilter w w1 flat first rest
               Hinit Hflat Hsel), Hres.
    unfold LiquidEvmBase.sign_with.
    erewrite bind_returned.
    2: { rewrite before_stage.
         destruct (nullish (options_onBeforeSign this) (manager_onBeforeSign this)) as [h|] eqn:E;
           [by rewrite (Hhook h eq_refl)|done]. }
    erewrite bind_thrown; [|exact Hg].
    rewrite signTransactions_catch_eval. unfold after_log.
    destruct (nullish (options_onAfterSign this) (manager_onAfterSign this)); [done|].
    by rewrite issued_empty. }
  split; [exact Hrun|]. rewrite Hrun. simpl.
  apply ensureAlgorandChain_requests in Hg as (rs & -> & _). simpl.
  destruct (initializeEvmSdk_frame this _ _ _ Hinit) as (_ & _ & Hc1).
  assert (calls w2 = calls w) as ->.
  { replace w2 with (resolved w1 (sender first)).2 by by rewrite Hres.
    unfold resolved. destruct (if_truthy _); [done|]. by destruct (walletState w1). }
  rewrite !filter_app.
  assert (filter is_sign_call (before_log this indexFilter) = []) as ->.
  { unfold before_log. by destruct (nullish _ _). }
  assert (filter is_sign_call (after_log this false (Some (err_message e))) = []) as ->.
  { unfold after_log.
    by destruct (nullish (options_onAfterSign this) (manager_onAfterSign this)). }
  rewrite no_sign_call_among_requests.
  by rewrite !app_nil_r.
Qed.

Lemma X10_guard_failure_aborts_witness :
  let this := Sample.wallet (Sample.on_mainnet (Some 4001%Z)) in
  let input := Structured (Flat [Sample.txn_of "ALGO:0xA" 0]) in
  let declined := {| err_code := Some 4001%Z; err_message := "Unrecognized chain ID" |} in
  LiquidEvmBase.signTransactions this input None Sample.connected =
    (Thrown declined,
     issued (issued Sample.connected
               [ProviderRequest eth_chainId;
                ProviderRequest (wallet_switchEthereumChain "0x1040")])
       (after_log this false (Some (err_message declined))))
  ∧ filter is_sign_call (calls (LiquidEvmBase.signTransactions this input None Sample.connected).2)
    = filter is_sign_call (calls Sample.connected).
Proof.
  refine (X10_guard_failure_aborts (Sample.wallet (Sample.on_mainnet (Some 4001%Z)))
            (Structured (Flat [Sample.txn_of "ALGO:0xA" 0])) None
            Sample.connected Sample.connected Sample.connected _
            [Sample.txn_of "ALGO:0xA" 0] (Sample.txn_of "ALGO:0xA" 0) [] "0xA" _
            eq_refl eq_refl eq_refl eq_refl _ eq_refl).
  intros h H. discriminate H.
Defined.

(** ** What a hook or a run cannot change *)

Section hooks_and_frames.
Context (this : Env).

Lemma bind_cases {A B} (m : M A) (k : A → M B) (w : World) :
  (m ≫= k) w = match m w with
               | (Returned a, w1) => k a w1
               | (Thrown e, w1) => (Thrown e, w1)
               end.
Proof. reflexivity. Qed.

(** The [try] block, stage by stage, for every outcome of every stage. *)
Lemma signTransactions_try_cases (input : SignInput) (F : option (list Z)) (w : World) :
  LiquidEvmBase.signTransactions_try this input F w =
  match LiquidEvmBase.initializeEvmSdk this w with
  | (Thrown e, w1) => (Thrown e, w1)
  | (Returned _, w1) =>
      match LiquidEvmBase.flatten_and_decode this input with
      | Thrown e => (Thrown e, w1)
      | Returned flat =>
          match LiquidEvmBase.select_txnsToSign this input flat F with
          | Thrown e => (Thrown e, w1)
          | Returned [] => (Returned ((λ _, Null) <$> flat), w1)
          | Returned (first :: _) =>
              match resolved w1 (sender first) with
              | (Some evm, w2) => LiquidEvmBase.sign_with this input F flat evm w2
              | (None, w2) => (Thrown (LiquidEvmBase.no_evm_address (sender first)), w2)
              end
          end
      end
  end.
Proof.
  unfold LiquidEvmBase.signTransactions_try. rewrite bind_cases.
  destruct (LiquidEvmBase.initializeEvmSdk this w) as [[[]|e] w1] eqn:Hinit; [|done].
  rewrite bind_cases. unfold await at 1.
  destruct (LiquidEvmBase.flatten_and_decode this input) as [flat|e] eqn:Hflat; [|done].
  rewrite bind_cases. unfold await at 1.
  destruct (LiquidEvmBase.select_txnsToSign this input flat F) as [[|first rest]|e] eqn:Hsel;
    [done| |done].
  rewrite <- (signTransactions_try_resolved this input F w w1 flat first rest Hinit Hflat Hsel).
  unfold LiquidEvmBase.signTransactions_try.
  by rewrite (bind_returned _ _ _ _ _ Hinit), (bind_await _ _ _ _ Hflat),
       (bind_await _ _ _ _ Hsel).
Qed.

(** [sign_with] for every outcome: the stages before the after-sign hook,
    then the hook's entry in the log on success. *)
Lemma sign_with_cases (input : SignInput) (F : option (list Z)) (flat : list Transaction)
    (evm : string) (w : World) :
  LiquidEvmBase.sign_with this input F flat evm w =
  match (match nullish (options_onBeforeSign this) (manager_onBeforeSign this) with
         | Some onBeforeSign => onBeforeSign input F
         | None => Returned tt
         end) with
  | Thrown e => (Thrown e, issued w (before_log this F))
  | Returned _ =>
      match LiquidEvmBase.ensureAlgorandChain this (issued w (before_log this F)) with
      | (Thrown e, wg) => (Thrown e, wg)
      | (Returned _, wg) =>
          match sdk_signTxn this evm flat with
          | Thrown e => (Thrown e, issued wg [SdkSignTxn evm flat])
          | Returned signedBlobs =>
              (Returned (imap (LiquidEvmBase.result_entry this F signedBlobs) flat),
               issued (issued wg [SdkSignTxn evm flat]) (after_log this true None))
          end
      end
  end.
Proof.
  unfold LiquidEvmBase.sign_with. rewrite bind_cases, before_stage.
  destruct (match nullish _ _ with Some h => h input F | None => Returned tt end) as [[]|e];
    [|done].
  rewrite bind_cases.
  destruct (LiquidEvmBase.ensureAlgorandChain this _) as [[[]|e] wg]; [|done].
  rewrite bind_cases. unfold log at 1. rewrite bind_cases. unfold await at 1.
  destruct (sdk_signTxn this evm flat) as [blobs|e]; [|done].
  rewrite bind_cases, after_stage. done.
Qed.

End hooks_and_frames.

Section after_hook.
Context (this : Env).

Lemma signTransactions_cases (env : Env) (input : SignInput) (F : option (list Z))
    (w : World) :
  LiquidEvmBase.signTransactions env input F w =
  match LiquidEvmBase.signTransactions_try env input F w with
  | (Returned r, w') => (Returned r, w')
  | (Thrown e, w') => (Thrown e, issued w' (after_log env false (Some (err_message e))))
  end.
Proof.
  unfold LiquidEvmBase.signTransactions, try_catch.
  destruct (LiquidEvmBase.signTransactions_try env input F w) as [[r|e] w']; [done|].
  rewrite signTransactions_catch_eval. unfold after_log.
  destruct (nullish _ _); [done|]. by rewrite issued_empty.
Qed.

Lemma after_log_no_sign_call (env : Env) (success : bool) (msg : option string) :
  filter is_sign_call (after_log env success msg) = [].
Proof. unfold after_log. by destruct (nullish _ _). Qed.

(** Exchanging the after-sign hooks changes the run of the [try] block in
    one place only: the hook's entry in the log after the SDK signed. *)
Lemma try_without_after_hook (o m : option (bool → option string → Outcome unit))
    (input : SignInput) (F : option (list Z)) (w : World) :
  ∃ cs,
    filter is_sign_call cs = []
    ∧ LiquidEvmBase.signTransactions_try (with_onAfterSign this o m) input F w =
      ((LiquidEvmBase.signTransactions_try (with_onAfterSign this None None) input F w).1,
       issued (LiquidEvmBase.signTransactions_try (with_onAfterSign this None None) input F w).2
         cs).
Proof.
  rewrite !signTransactions_try_cases.
  change (LiquidEvmBase.initializeEvmSdk (with_onAfterSign this o m))
    with (LiquidEvmBase.initializeEvmSdk this).
  change (LiquidEvmBase.initializeEvmSdk (with_onAfterSign this None None))
    with (LiquidEvmBase.initializeEvmSdk this).
  destruct (LiquidEvmBase.initializeEvmSdk this w) as [[[]|e] w1];
    [|by exists []; rewrite issued_empty].
  change (LiquidEvmBase.flatten_and_decode (with_onAfterSign this o m))
    with (LiquidEvmBase.flatten_and_decode this).
  change (LiquidEvmBase.flatten_and_decode (with_onAfterSign this None None))
    with (LiquidEvmBase.flatten_and_decode this).
  destruct (LiquidEvmBase.flatten_and_decode this input) as [flat|e];
    [|by exists []; rewrite issued_empty].
  change (LiquidEvmBase.select_txnsToSign (with_onAfterSign this o m))
    with (LiquidEvmBase.select_txnsToSign this).
  change (LiquidEvmBase.select_txnsToSign (with_onAfterSign this None None))
    with (LiquidEvmBase.select_txnsToSign this).
  destruct (LiquidEvmBase.select_txnsToSign this input flat F) as [[|first rest]|e];
    [by exists []; rewrite issued_empty| |by exists []; rewrite issued_empty].
  destruct (resolved w1 (sender first)) as [[evm|] w2];
    [|by exists []; rewrite issued_empty].
  rewrite !sign_with_cases.
  change (before_log (with_onAfterSign this o m)) with (before_log this).
  change (before_log (with_onAfterSign this None None)) with (before_log this).
  change (options_onBeforeSign (with_onAfterSign this o m)) with (options_onBeforeSign this).
  change (manager_onBeforeSign (with_onAfterSign this o m)) with (manager_onBeforeSign this).
  change (options_onBeforeSign (with_onAfterSign this None None))
    with (options_onBeforeSign this).
  change (manager_onBeforeSign (with_onAfterSign this None None))
    with (manager_onBeforeSign this).
  destruct (match nullish _ _ with Some h => h input F | None => Returned tt end) as [[]|e];
    [|by exists []; rewrite issued_empty].
  change (LiquidEvmBase.ensureAlgorandChain (with_onAfterSign this o m))
    with (LiquidEvmBase.ensureAlgorandChain this).
  change (LiquidEvmBase.ensureAlgorandChain (with_onAfterSign this None None))
    with (LiquidEvmBase.ensureAlgorandChain this).
  destruct (LiquidEvmBase.ensureAlgorandChain this _) as [[[]|e] wg];
    [|by exists []; rewrite issued_empty].
  change (sdk_signTxn (with_onAfterSign this o m)) with (sdk_signTxn this).
  change (sdk_signTxn (with_onAfterSign this None None)) with (sdk_signTxn this).
  destruct (sdk_signTxn this evm flat) as [blobs|e];
    [|by exists []; rewrite issued_empty].
  change (LiquidEvmBase.result_entry (with_onAfterSign this o m))
    with (LiquidEvmBase.result_entry this).
  change (LiquidEvmBase.result_entry (with_onAfterSign this None None))
    with (LiquidEvmBase.result_entry this).
  change (after_log (with_onAfterSign this None None) true None) with (@nil Call).
  exists (after_log (with_onAfterSign this o m) true None). simpl.
  split; [apply after_log_no_sign_call|]. by rewrite issued_empty.
Qed.

(** With any after-sign hooks the run is the run without them up to entries
    in the log that are no SDK calls. *)
Lemma run_without_after_hook (o m : option (bool → option string → Outcome unit))
    (input : SignInput) (F : option (list Z)) (w : World) :
  ∃ cs,
    filter is_sign_call cs = []
    ∧ LiquidEvmBase.signTransactions (with_onAfterSign this o m) input F w =
      ((LiquidEvmBase.signTransactions (with_onAfterSign this None None) input F w).1,
       issued (LiquidEvmBase.signTransactions (with_onAfterSign this None None) input F w).2
         cs).
Proof.
  rewrite !signTransactions_cases.
  destruct (try_without_after_hook o m input F w) as (cs & Hcs & ->).
  destruct (LiquidEvmBase.signTransactions_try (with_onAfterSign this None None) input F w)
    as [[r|e] w']; simpl.
  - by exists cs.
  - change (after_log (with_onAfterSign this None None) false (Some (err_message e)))
      with (@nil Call).
    exists (cs ++ after_log (with_onAfterSign this o m) false (Some (err_message e))).
    split.
    + by rewrite filter_app, Hcs, after_log_no_sign_call.
    + by rewrite issued_empty, issued_app.
Qed.

End after_hook.



Section store_frame.
Context (this : Env).

Lemma resolved_frame (w : World) (a : string) :
  walletState (resolved w a).2 = walletState w
  ∧ (evmAddressMap (resolved w a).2 = evmAddressMap w
     ∨ ∃ ws, walletState w = Some ws
             ∧ if_truthy (reverseLookup w a) = None
             ∧ evmAddressMap (resolved w a).2 = rebuilt (evmAddressMap w) (accounts ws)).
Proof.
  unfold resolved. destruct (if_truthy (reverseLookup w a)) as [evm|] eqn:E.
  - split; [done|]. by left.
  - destruct (walletState w) as [ws|] eqn:Hws; simpl.
    + split; [done|]. right. by exists ws.
    + split; [done|]. by left.
Qed.

Lemma sign_with_only_logs (input : SignInput) (F : option (list Z)) (flat : list Transaction)
    (evm : string) (w : World) :
  ∃ cs, (LiquidEvmBase.sign_with this input F flat evm w).2 = issued w cs.
Proof.
  rewrite sign_with_cases.
  destruct (match nullish _ _ with Some h => h input F | None => Returned tt end) as [[]|e].
  2: { by eexists. }
  destruct (LiquidEvmBase.ensureAlgorandChain this _) as [o wg] eqn:Hg.
  apply ensureAlgorandChain_requests in Hg as (rs & -> & _).
  destruct o as [[]|e]; [|eexists; simpl; by rewrite issued_app].
  destruct (sdk_signTxn this evm flat) as [blobs|e]; eexists; simpl;
    by rewrite !issued_app.
Qed.

End store_frame.


(** X13: for a group of transaction objects and an SDK that answers with one
    blob per transaction, the array that [signTransactions] returns has the
    length of the flattened group, holds a blob at every eligible position
    and [null] at every other one. *)
Theorem X13_structured_result (this : Env) (g : TxnGroup Transaction)
    (indexFilter : option (list Z)) (w w' : World) (r : list SignedEntry) :
  (∀ evm txns blobs, sdk_signTxn this evm txns = Returned blobs → length blobs = length txns) →
  LiquidEvmBase.signTransactions this (Structured g) indexFilter w = (Returned r, w') →
  length r = length (flattenTxnGroup g)
  ∧ ∀ i t, flattenTxnGroup g !! i = Some t →
      if decide (eligibleForSignature (addresses this) indexFilter false false i (sender t))
      then ∃ b, r !! i = Some (Blob b)
      else r !! i = Some Null.
Proof.
  intros Hsdk Hr.
  split; [by apply (signTransactions_length this _ _ _ _ _ _ Hr)|].
  destruct (signTransactions_returned this _ _ _ _ _ Hr) as (flat & sel & Hflat & Hsel & H).
  injection Hflat as <-. simpl in Hsel. injection Hsel as <-.
  intros i t Hi.
  destruct H as [(Hnil & -> & _)|(_ & evm & blobs & Hs & ->)].
  - rewrite lookup_replicate_2; [|by apply lookup_lt_Some in Hi].
    destruct (decide _) as [He|]; [|done]. exfalso.
    unfold LiquidEvmBase.processTxns in Hnil.
    rewrite processTxns_from_selected in Hnil. simpl in Hnil.
    by apply (selected_from_nil_inv _ _ 0 Hnil i t Hi).
  - rewrite list_lookup_imap, Hi. simpl. unfold LiquidEvmBase.result_entry.
    rewrite (if_test _ _ (blob_at blobs i) Null (test_structured this indexFilter i t)).
    destruct (decide _); [|done].
    unfold blob_at. apply Hsdk in Hs.
    destruct (blobs !! i) as [b|] eqn:Hb; [by exists b|].
    apply lookup_ge_None in Hb. apply lookup_lt_Some in Hi. lia.
Qed.

Lemma X13_structured_result_witness :
  let this := Sample.wallet Sample.on_algorand in
  let g := Nested [[Sample.txn_of "ALGO:0xA" 0]; [Sample.txn_of "ALGO:other" 1;
                                                  Sample.txn_of "ALGO:0xB" 2]] in
  let r := [Blob [Byte.xff]; Null; Null] in
  length r = length (flattenTxnGroup g)
  ∧ ∀ i t, flattenTxnGroup g !! i = Some t →
      if decide (eligibleForSignature (addresses this) (Some [0; 1]%Z) false false i (sender t))
      then ∃ b, r !! i = Some (Blob b)
      else r !! i = Some Null.
Proof.
  refine (X13_structured_result (Sample.wallet Sample.on_algorand)
            (Nested [[Sample.txn_of "ALGO:0xA" 0];
                     [Sample.txn_of "ALGO:other" 1; Sample.txn_of "ALGO:0xB" 2]])
            (Some [0; 1]%Z) Sample.connected _ [Blob [Byte.xff]; Null; Null] _ eq_refl).
  intros evm txns blobs [= <-]. apply length_fmap.
Defined.

(** X14: for an encoded group and an SDK that answers with one blob per
    transaction, the returned array has the length of the flattened group, a
    blob at every eligible position, and [null] at every position whose
    index the filter leaves out or whose sender is not the wallet's. *)
Theorem X14_encoded_result (this : Env) (g : TxnGroup Uint8Array)
    (indexFilter : option (list Z)) (w w' : World) (r : list SignedEntry)
    (decoded : list (bool * Transaction)) :
  (∀ evm txns blobs, sdk_signTxn this evm txns = Returned blobs → length blobs = length txns) →
  decoded_as this (flattenTxnGroup g) decoded →
  LiquidEvmBase.signTransactions this (Encoded g) indexFilter w = (Returned r, w') →
  length r = length (flattenTxnGroup g)
  ∧ ∀ i isSigned t, decoded !! i = Some (isSigned, t) →
      (eligibleForSignature (addresses this) indexFilter true isSigned i (sender t) →
       ∃ b, r !! i = Some (Blob b))
      ∧ (isIndexMatch indexFilter i = false ∨ sender t ∉ addresses this →
         r !! i = Some Null).
Proof.
  intros Hsdk Hdec Hr.
  destruct (signTransactions_returned this _ _ _ _ _ Hr) as (flat & sel & Hflat & Hsel & H).
  destruct (flatten_and_decode_encoded this g flat Hflat) as (ds & Hds & ->).
  unfold decoded_as in *. rewrite Hdec in Hds. injection Hds as <-.
  assert (length decoded = length (flattenTxnGroup g)) as Hlen.
  { clear -Hdec. revert decoded Hdec.
    induction (flattenTxnGroup g) as [|b bufs IH]; intros decoded; simpl.
    - by intros [= <-].
    - destruct (LiquidEvmBase.decodeTxn this b) as [d|e]; [|done].
      destruct (map_throwing _ bufs) as [ds|e]; [|done].
      intros [= <-]. simpl. by rewrite (IH ds eq_refl). }
  simpl in Hsel. unfold LiquidEvmBase.processEncodedTxns in Hsel.
  rewrite (processEncodedTxns_from_selected this indexFilter _ decoded 0 [] Hdec) in Hsel.
  injection Hsel as <-. simpl in H.
  split.
  { destruct H as [(_ & -> & _)|(_ & evm & blobs & _ & ->)].
    - by rewrite length_replicate, length_fmap.
    - by rewrite length_imap, length_fmap. }
  intros i s t Hi.
  destruct H as [(Hnil & -> & _)|(_ & evm & blobs & Hs & ->)].
  - rewrite lookup_replicate_2; [|rewrite length_fmap; by apply lookup_lt_Some in Hi].
    split; [|done]. intros He. exfalso.
    apply fmap_nil_inv in Hnil.
    by apply (selected_from_nil_inv _ _ 0 Hnil i (s, t) Hi).
  - rewrite list_lookup_imap, list_lookup_fmap, Hi. simpl.
    unfold LiquidEvmBase.result_entry, includes_address. split.
    + intros (Hf & Hown & _).
      rewrite (proj2 (isIndexMatch_true indexFilter i) Hf), bool_decide_eq_true_2 by done.
      simpl. unfold blob_at. apply Hsdk in Hs. rewrite length_fmap in Hs.
      destruct (blobs !! i) as [b|] eqn:Hb; [by exists b|].
      apply lookup_ge_None in Hb. apply lookup_lt_Some in Hi. lia.
    + intros [Hf|Hown].
      * by rewrite Hf.
      * rewrite bool_decide_eq_false_2 by done. by rewrite andb_false_r.
Qed.

Lemma X14_encoded_result_witness :
  let this := Sample.wallet Sample.on_algorand in
  let g := Flat [[Byte.x00; Byte.x0a]; [Byte.x00; Byte.x0c]; [Byte.x00; Byte.x0b; Byte.x00]] in
  let decoded := [(false, Sample.txn_of "ALGO:0xA" 2); (false, Sample.txn_of "ALGO:other" 2);
                  (false, Sample.txn_of "ALGO:0xB" 3)] in
  let r := [Blob [Byte.xff]; Null; Null] in
  length r = length (flattenTxnGroup g)
  ∧ ∀ i isSigned t, decoded !! i = Some (isSigned, t) →
      (eligibleForSignature (addresses this) (Some [0; 1]%Z) true isSigned i (sender t) →
       ∃ b, r !! i = Some (Blob b))
      ∧ (isIndexMatch (Some [0; 1]%Z) i = false ∨ sender t ∉ addresses this →
         r !! i = Some Null).
Proof.
  refine (X14_encoded_result (Sample.wallet Sample.on_algorand)
            (Flat [[Byte.x00; Byte.x0a]; [Byte.x00; Byte.x0c];
                   [Byte.x00; Byte.x0b; Byte.x00]])
            (Some [0; 1]%Z) Sample.connected _ [Blob [Byte.xff]; Null; Null]
            [(false, Sample.txn_of "ALGO:0xA" 2); (false, Sample.txn_of "ALGO:other" 2);
             (false, Sample.txn_of "ALGO:0xB" 3)] _ eq_refl eq_refl).
  intros evm txns blobs [= <-]. apply length_fmap.
Defined.

(** ** The revision that signs through [getSigner] *)

Section signer_result.
Context (this : Env).

Lemma signIndexes_from_acc (l : list SignerTransaction) : ∀ i acc,
  LiquidEvmBaseSigner.signIndexes_from i l acc
  = acc ++ LiquidEvmBaseSigner.signIndexes_from i l [].
Proof.
  induction l as [|st l IH]; intros i acc; simpl.
  - by rewrite app_nil_r.
  - rewrite IH, (IH _ (match signers st with None => [] ++ [i] | Some _ => [] end)).
    destruct (signers st); simpl; [done|]. by rewrite <- app_assoc.
Qed.

Lemma signIndexes_from_elem (l : list SignerTransaction) : ∀ i p,
  p ∈ LiquidEvmBaseSigner.signIndexes_from i l []
  ↔ ∃ q st, l !! q = Some st ∧ to_sign st = true ∧ p = i + q.
Proof.
  induction l as [|st l IH]; intros i p; simpl.
  - split; [by intros ?%elem_of_nil|]. by intros (q & st & ? & _).
  - rewrite signIndexes_from_acc, elem_of_app, IH. unfold to_sign at 2. split.
    + intros [Hin|(q & st' & Hq & Hs & ->)].
      * destruct (signers st) eqn:E; [by apply elem_of_nil in Hin|].
        apply list_elem_of_singleton in Hin as ->.
        exists 0, st. unfold to_sign. rewrite E. split; [done|]. split; [done|lia].
      * exists (S q), st'. split; [done|]. split; [done|lia].
    + intros ([|q] & st' & Hq & Hs & ->); simpl in Hq.
      * injection Hq as <-. left. unfold to_sign in Hs.
        destruct (signers st); [done|]. rewrite Nat.add_0_r. apply list_elem_of_here.
      * right. exists q, st'. split; [done|]. split; [done|lia].
Qed.

Lemma signIndexes_from_length (l : list SignerTransaction) : ∀ i,
  length (LiquidEvmBaseSigner.signIndexes_from i l []) = length (filter to_sign l).
Proof.
  induction l as [|st l IH]; intros i; simpl; [done|].
  rewrite signIndexes_from_acc, length_app, IH.
  destruct (signers st) eqn:E.
  - rewrite filter_cons_False; [done|]. unfold to_sign. rewrite E. simpl. tauto.
  - rewrite filter_cons_True; [done|]. unfold to_sign. by rewrite E.
Qed.

(** The [map] with its counter hands the blobs out in order. *)
Lemma assemble_handed_out (blobs : list Uint8Array) (idxs : list nat)
    (l : list SignerTransaction) : ∀ i k,
  (∀ q st, l !! q = Some st → ((i + q) ∈ idxs ↔ to_sign st = true)) →
  LiquidEvmBaseSigner.assemble_from i k l idxs blobs = handed_out k l blobs.
Proof.
  induction l as [|st l IH]; intros i k H; simpl; [done|].
  pose proof (H 0 st eq_refl) as H0. rewrite Nat.add_0_r in H0.
  destruct (to_sign st).
  - rewrite bool_decide_eq_true_2 by by apply H0. f_equal. apply IH.
    intros q st' Hq. rewrite <- (H (S q) st' Hq). by rewrite Nat.add_succ_r.
  - rewrite bool_decide_eq_false_2 by (intros Hin; by apply H0 in Hin). f_equal. apply IH.
    intros q st' Hq. rewrite <- (H (S q) st' Hq). by rewrite Nat.add_succ_r.
Qed.

Lemma assemble_signIndexes (blobs : list Uint8Array) (l : list SignerTransaction) :
  LiquidEvmBaseSigner.assemble_from 0 0 l (LiquidEvmBaseSigner.signIndexes_from 0 l []) blobs
  = handed_out 0 l blobs.
Proof.
  apply assemble_handed_out. intros q st Hq. rewrite signIndexes_from_elem. split.
  - intros (q' & st' & Hq' & Hs & Heq). simpl in Heq. subst q'. congruence.
  - intros Hs. by exists q, st.
Qed.

Lemma handed_out_length (blobs : list Uint8Array) (l : list SignerTransaction) :
  ∀ k, length (handed_out k l blobs) = length l.
Proof.
  induction l as [|st l IH]; intros k; simpl; [done|].
  destruct (to_sign st); simpl; by rewrite IH.
Qed.

Lemma handed_out_lookup (blobs : list Uint8Array) (l : list SignerTransaction) :
  ∀ k i st, l !! i = Some st →
    handed_out k l blobs !! i
    = Some (if to_sign st
            then blob_at blobs (k + length (filter to_sign (take i l)))
            else Null).
Proof.
  induction l as [|x l IH]; intros k i st Hi; [done|].
  destruct i as [|i]; simpl in Hi.
  - injection Hi as ->. simpl. rewrite Nat.add_0_r. by destruct (to_sign st).
  - simpl. destruct (to_sign x) eqn:Ex; simpl.
    + rewrite (IH _ _ _ Hi). rewrite filter_cons_True by by rewrite Ex.
      simpl. by rewrite Nat.add_succ_r.
    + rewrite (IH _ _ _ Hi).
      rewrite filter_cons_False; [done|]. rewrite Ex. simpl. tauto.
Qed.

(** With as many blobs as entries to sign (from position [k] on), the blobs
    in the result are the answer's blobs, in the answer's order. *)
Lemma handed_out_blobs (blobs : list Uint8Array) (l : list SignerTransaction) :
  ∀ k, k + length (filter to_sign l) = length blobs →
    blobs_of (handed_out k l blobs) = drop k blobs.
Proof.
  unfold blobs_of.
  induction l as [|x l IH]; intros k Hk; simpl in *.
  - rewrite drop_ge; [done|lia].
  - destruct (to_sign x) eqn:Ex.
    + rewrite filter_cons_True in Hk by by rewrite Ex. simpl in Hk.
      unfold blob_at. destruct (blobs !! k) as [b|] eqn:Hb.
      * simpl. rewrite IH by lia. by rewrite (drop_S _ _ _ Hb).
      * apply lookup_ge_None in Hb. lia.
    + rewrite filter_cons_False in Hk by (rewrite Ex; simpl; tauto). simpl. by apply IH.
Qed.

End signer_result.

Section signer_run.
Context (this : Env).

(** The [try] block of the revision, stage by stage, for every outcome. *)
Lemma Signer_try_cases (input : SignInput) (F : option (list Z)) (w : World) :
  LiquidEvmBaseSigner.signTransactions_try this input F w =
  match LiquidEvmBase.initializeEvmSdk this w with
  | (Thrown e, w1) => (Thrown e, w1)
  | (Returned _, w1) =>
      match Signer_classify this input F with
      | Thrown e => (Thrown e, w1)
      | Returned [] => (Thrown Signer_empty_error, w1)
      | Returned (firstTxn :: others) =>
          let sts := firstTxn :: others in
          match if_truthy (reverseLookup w1 (sender (txn firstTxn))) with
          | None => (Thrown (LiquidEvmBase.no_evm_address (sender (txn firstTxn))), w1)
          | Some evm =>
              match (match nullish (options_onBeforeSign this) (manager_onBeforeSign this) with
                     | Some onBeforeSign =>
                         onBeforeSign
                           (Encoded (Flat ((λ t, encodeUnsignedTransaction this (txn t)) <$> sts)))
                           F
                     | None => Returned tt
                     end) with
              | Thrown e => (Thrown e, issued w1 (before_log this F))
              | Returned _ =>
                  match LiquidEvmBaseSigner.ensureAlgorandChain this
                          (issued w1 (before_log this F)) with
                  | (Thrown e, wg) => (Thrown e, wg)
                  | (Returned _, wg) =>
                      match sdk_getSigner this evm with
                      | Thrown e => (Thrown e, wg)
                      | Returned _ =>
                          let idxs := LiquidEvmBaseSigner.signIndexes_from 0 sts [] in
                          match sdk_signer this evm (txn <$> sts) idxs with
                          | Thrown e => (Thrown e, issued wg [SdkSigner evm (txn <$> sts) idxs])
                          | Returned blobs =>
                              (Returned (handed_out 0 sts blobs),
                               issued (issued wg [SdkSigner evm (txn <$> sts) idxs])
                                 (after_log this true None))
                          end
                      end
                  end
              end
          end
      end
  end.
Proof.
  unfold LiquidEvmBaseSigner.signTransactions_try. rewrite bind_cases.
  destruct (LiquidEvmBase.initializeEvmSdk this w) as [[[]|e] w1]; [|done].
  rewrite bind_cases. unfold await at 1.
  change (match input with
          | Structured g =>
              Returned (LiquidEvmBaseSigner.processTxns this (flattenTxnGroup g) F)
          | Encoded g => LiquidEvmBaseSigner.processEncodedTxns this (flattenTxnGroup g) F
          end) with (Signer_classify this input F).
  destruct (Signer_classify this input F) as [[|firstTxn others]|e]; [done| |done].
  rewrite bind_cases. unfold LiquidEvmBase.evmAddressMap_get at 1.
  rewrite bind_cases. unfold get at 1, ret at 1. unfold reverseLookup. cbv zeta.
  destruct (if_truthy (evmAddressMap w1 !! sender (txn firstTxn))) as [evm|]; [|done].
  rewrite bind_cases.
  assert ((match nullish (options_onBeforeSign this) (manager_onBeforeSign this) with
           | Some onBeforeSign =>
               log (OnBeforeSign F) ;;
               await (onBeforeSign
                        (Encoded (Flat ((λ t, encodeUnsignedTransaction this (txn t))
                                          <$> firstTxn :: others))) F)
           | None => ret tt
           end) w1
          = (match nullish (options_onBeforeSign this) (manager_onBeforeSign this) with
             | Some onBeforeSign =>
                 onBeforeSign
                   (Encoded (Flat ((λ t, encodeUnsignedTransaction this (txn t))
                                     <$> firstTxn :: others))) F
             | None => Returned tt
             end, issued w1 (before_log this F))) as ->.
  { unfold before_log. destruct (nullish _ _) as [h|]; [done|]. by rewrite issued_empty. }
  destruct (match nullish _ _ with Some h => h _ F | None => Returned tt end) as [[]|e];
    [|done].
  rewrite bind_cases.
  destruct (LiquidEvmBaseSigner.ensureAlgorandChain this _) as [[[]|e] wg]; [|done].
  rewrite bind_cases. unfold await at 1.
  destruct (sdk_getSigner this evm) as [[]|e]; [|done].
  rewrite bind_cases. unfold log at 1. rewrite bind_cases. unfold await at 1.
  destruct (sdk_signer this evm _ _) as [blobs|e]; [|done].
  rewrite bind_cases, after_stage. unfold ret. by rewrite assemble_signIndexes.
Qed.

Lemma Signer_cases (input : SignInput) (F : option (list Z)) (w : World) :
  LiquidEvmBaseSigner.signTransactions this input F w =
  match LiquidEvmBaseSigner.signTransactions_try this input F w with
  | (Returned r, w') => (Returned r, w')
  | (Thrown e, w') => (Thrown e, issued w' (after_log this false (Some (err_message e))))
  end.
Proof.
  unfold LiquidEvmBaseSigner.signTransactions, try_catch.
  destruct (LiquidEvmBaseSigner.signTransactions_try this input F w) as [[r|e] w']; [done|].
  rewrite signTransactions_catch_eval. unfold after_log.
  destruct (nullish _ _); [done|]. by rewrite issued_empty.
Qed.

(** What a returning call of the revision returned. *)
Lemma Signer_returned (input : SignInput) (F : option (list Z)) (w w' : World)
    (r : list SignedEntry) :
  LiquidEvmBaseSigner.signTransactions this input F w = (Returned r, w') →
  ∃ sts evm blobs,
    Signer_classify this input F = Returned sts
    ∧ sdk_signer this evm (txn <$> sts) (LiquidEvmBaseSigner.signIndexes_from 0 sts [])
      = Returned blobs
    ∧ r = handed_out 0 sts blobs.
Proof.
  rewrite Signer_cases, Signer_try_cases.
  destruct (LiquidEvmBase.initializeEvmSdk this w) as [[[]|e] w1]; [|done].
  destruct (Signer_classify this input F) as [[|firstTxn others]|e]; [done| |done].
  cbv zeta.
  destruct (if_truthy _) as [evm|]; [|done].
  destruct (match nullish _ _ with Some h => h _ F | None => Returned tt end) as [[]|e];
    [|done].
  destruct (LiquidEvmBaseSigner.ensureAlgorandChain this _) as [[[]|e] wg]; [|done].
  destruct (sdk_getSigner this evm) as [[]|e]; [|done].
  destruct (sdk_signer this evm _ _) as [blobs|e] eqn:Hs; [|done].
  intros [= <- <-]. by exists (firstTxn :: others), evm, blobs.
Qed.

(** With one blob per position to sign, the result has a blob exactly at the
    positions to sign, [null] elsewhere, and its blobs are the answer's. *)
Lemma handed_out_contract (sts : list SignerTransaction) (blobs : list Uint8Array) :
  length blobs = length (filter to_sign sts) →
  length (handed_out 0 sts blobs) = length sts
  ∧ blobs_of (handed_out 0 sts blobs) = blobs
  ∧ ∀ i st, sts !! i = Some st →
      if to_sign st then ∃ b, handed_out 0 sts blobs !! i = Some (Blob b)
      else handed_out 0 sts blobs !! i = Some Null.
Proof.
  intros Hlen. split; [apply handed_out_length|].
  split; [by rewrite handed_out_blobs|].
  intros i st Hi. rewrite (handed_out_lookup blobs sts 0 i st Hi).
  destruct (to_sign st) eqn:Es; [|done]. simpl. unfold blob_at.
  destruct (blobs !! _) as [b|] eqn:Hb; [by exists b|].
  apply lookup_ge_None in Hb. exfalso.
  assert (length (filter to_sign (take i sts)) < length (filter to_sign sts)); [|lia].
  rewrite <- (take_drop_middle sts i st Hi) at 2.
  rewrite filter_app, filter_cons_True by by rewrite Es.
  rewrite length_app. simpl. lia.
Qed.

Lemma Signer_processEncodedTxns_from (F : option (list Z)) (bufs : list Uint8Array) :
  ∀ decoded i acc, decoded_as this bufs decoded →
    LiquidEvmBaseSigner.processEncodedTxns_from this i bufs F acc =
    Returned (acc ++ imap (λ j d,
                LiquidEvmBaseSigner.classified F
                  (negb d.1 && includes_address (addresses this) (sender d.2)) (i + j) d.2)
                decoded).
Proof.
  unfold decoded_as.
  induction bufs as [|b bufs IH]; intros decoded i acc Hd; simpl in *.
  - injection Hd as <-. simpl. by rewrite app_nil_r.
  - destruct (LiquidEvmBase.decodeTxn this b) as [[s t]|e]; [|done]. simpl.
    destruct (map_throwing _ bufs) as [ds|e] eqn:Hds; [|done].
    injection Hd as <-.
    rewrite (IH ds (S i) _ eq_refl). simpl. rewrite Nat.add_0_r, <- app_assoc. simpl.
    do 3 f_equal. apply imap_ext. intros j x _. simpl. by rewrite Nat.add_succ_r.
Qed.

Lemma to_sign_classified (F : option (list Z)) (can : bool) (i : nat) (t : Transaction) :
  to_sign (LiquidEvmBaseSigner.classified F can i t) = isIndexMatch F i && can
  ∧ txn (LiquidEvmBaseSigner.classified F can i t) = t.
Proof.
  unfold LiquidEvmBaseSigner.classified, to_sign.
  by destruct (isIndexMatch F i && can).
Qed.

End signer_run.

(** X15: in the revision that signs through [getSigner], with a signer that
    answers one blob per position it is asked to sign, the array returned
    for a group of transaction objects has the length of the flattened
    group, a blob at every eligible position and [null] at every other one,
    and its blobs are the signer's blobs in the signer's order. *)
Theorem X15_signer_structured_result (this : Env) (g : TxnGroup Transaction)
    (indexFilter : option (list Z)) (w w' : World) (r : list SignedEntry) :
  (∀ evm txns idxs blobs,
     sdk_signer this evm txns idxs = Returned blobs → length blobs = length idxs) →
  LiquidEvmBaseSigner.signTransactions this (Structured g) indexFilter w = (Returned r, w') →
  length r = length (flattenTxnGroup g)
  ∧ (∃ evm idxs, sdk_signer this evm (flattenTxnGroup g) idxs = Returned (blobs_of r))
  ∧ ∀ i t, flattenTxnGroup g !! i = Some t →
      if decide (eligibleForSignature (addresses this) indexFilter false false i (sender t))
      then ∃ b, r !! i = Some (Blob b)
      else r !! i = Some Null.
Proof.
  intros Hsdk Hr.
  destruct (Signer_returned this _ _ _ _ _ Hr) as (sts & evm & blobs & Hc & Hs & ->).
  simpl in Hc. injection Hc as <-.
  set (sts := LiquidEvmBaseSigner.processTxns this (flattenTxnGroup g) indexFilter) in *.
  assert (sts = imap (λ j t, LiquidEvmBaseSigner.classified indexFilter
                 (includes_address (addresses this) (sender t)) j t) (flattenTxnGroup g))
    as Hsts.
  { unfold sts, LiquidEvmBaseSigner.processTxns. by rewrite Signer_processTxns_from. }
  pose proof (Hsdk _ _ _ _ Hs) as Hlen. rewrite signIndexes_from_length in Hlen.
  destruct (handed_out_contract sts blobs Hlen) as (Hl & Hb & Hentries).
  assert (txn <$> sts = flattenTxnGroup g) as Htx.
  { rewrite Hsts. apply list_eq. intros i.
    rewrite list_lookup_fmap, list_lookup_imap.
    destruct (flattenTxnGroup g !! i) as [t|]; [|done]. simpl.
    by rewrite (proj2 (to_sign_classified _ _ _ _)). }
  split; [by rewrite Hl, Hsts, length_imap|].
  split.
  { exists evm, (LiquidEvmBaseSigner.signIndexes_from 0 sts []). by rewrite Hb, <- Htx. }
  intros i t Hi.
  assert (sts !! i = Some (LiquidEvmBaseSigner.classified indexFilter
            (includes_address (addresses this) (sender t)) i t)) as Hsti.
  { by rewrite Hsts, list_lookup_imap, Hi. }
  specialize (Hentries _ _ Hsti).
  rewrite (proj1 (to_sign_classified _ _ _ _)) in Hentries.
  by rewrite (if_test _ _ (∃ b, handed_out 0 sts blobs !! i = Some (Blob b))
                (handed_out 0 sts blobs !! i = Some Null)
                (test_structured this indexFilter i t)) in Hentries.
Qed.

Lemma X15_signer_structured_result_witness :
  let this := Sample.wallet Sample.on_algorand in
  let g := Flat [Sample.txn_of "ALGO:0xA" 0; Sample.txn_of "ALGO:other" 1;
                 Sample.txn_of "ALGO:0xB" 2] in
  let r := [Blob [Byte.xff]; Null; Blob [Byte.xff]] in
  length r = length (flattenTxnGroup g)
  ∧ (∃ evm idxs, sdk_signer this evm (flattenTxnGroup g) idxs = Returned (blobs_of r))
  ∧ ∀ i t, flattenTxnGroup g !! i = Some t →
      if decide (eligibleForSignature (addresses this) None false false i (sender t))
      then ∃ b, r !! i = Some (Blob b)
      else r !! i = Some Null.
Proof.
  refine (X15_signer_structured_result (Sample.wallet Sample.on_algorand)
            (Flat [Sample.txn_of "ALGO:0xA" 0; Sample.txn_of "ALGO:other" 1;
                   Sample.txn_of "ALGO:0xB" 2])
            None Sample.connected _ [Blob [Byte.xff]; Null; Blob [Byte.xff]] _ eq_refl).
  intros evm txns idxs blobs [= <-]. apply length_fmap.
Defined.

(** X16: in the same revision, on an encoded group, an entry gets a blob
    exactly when it is eligible; in particular an entry that decodes as an
    already-signed wrapper is [null] in the result, whoever its sender is. *)
Theorem X16_signer_encoded_result (this : Env) (g : TxnGroup Uint8Array)
    (indexFilter : option (list Z)) (w w' : World) (r : list SignedEntry)
    (decoded : list (bool * Transaction)) :
  (∀ evm txns idxs blobs,
     sdk_signer this evm txns idxs = Returned blobs → length blobs = length idxs) →
  decoded_as this (flattenTxnGroup g) decoded →
  LiquidEvmBaseSigner.signTransactions this (Encoded g) indexFilter w = (Returned r, w') →
  length r = length decoded
  ∧ ∀ i isSigned t, decoded !! i = Some (isSigned, t) →
      (if decide (eligibleForSignature (addresses this) indexFilter true isSigned i (sender t))
       then ∃ b, r !! i = Some (Blob b)
       else r !! i = Some Null)
      ∧ (isSigned = true → r !! i = Some Null).
Proof.
  intros Hsdk Hdec Hr.
  destruct (Signer_returned this _ _ _ _ _ Hr) as (sts & evm & blobs & Hc & Hs & ->).
  simpl in Hc. unfold LiquidEvmBaseSigner.processEncodedTxns in Hc.
  rewrite (Signer_processEncodedTxns_from this indexFilter _ decoded 0 [] Hdec) in Hc.
  injection Hc as Hsts. simpl in Hsts.
  pose proof (Hsdk _ _ _ _ Hs) as Hlen. rewrite signIndexes_from_length in Hlen.
  destruct (handed_out_contract sts blobs Hlen) as (Hl & _ & Hentries).
  split; [by rewrite Hl, <- Hsts, length_imap|].
  intros i s t Hi.
  assert (sts !! i = Some (LiquidEvmBaseSigner.classified indexFilter
            (negb s && includes_address (addresses this) (sender t)) i t)) as Hsti.
  { by rewrite <- Hsts, list_lookup_imap, Hi. }
  specialize (Hentries _ _ Hsti).
  rewrite (proj1 (to_sign_classified _ _ _ _)) in Hentries.
  split.
  - by rewrite (if_test _ _ (∃ b, handed_out 0 sts blobs !! i = Some (Blob b))
                  (handed_out 0 sts blobs !! i = Some Null)
                  (test_encoded this indexFilter i s t)) in Hentries.
  - intros ->. simpl in Hentries. by rewrite andb_false_r in Hentries.
Qed.

Lemma X16_signer_encoded_result_witness :
  let this := Sample.wallet Sample.on_algorand in
  let decoded := [(false, Sample.txn_of "ALGO:0xA" 2); (true, Sample.txn_of "ALGO:0xA" 3)] in
  let r := [Blob [Byte.xff]; Null] in
  length r = length decoded
  ∧ ∀ i isSigned t, decoded !! i = Some (isSigned, t) →
      (if decide (eligibleForSignature (addresses this) None true isSigned i (sender t))
       then ∃ b, r !! i = Some (Blob b)
       else r !! i = Some Null)
      ∧ (isSigned = true → r !! i = Some Null).
Proof.
  refine (X16_signer_encoded_result (Sample.wallet Sample.on_algorand)
            (Flat [[Byte.x00; Byte.x0a]; [Byte.x01; Byte.x0a; Byte.x00]])
            None Sample.connected _ [Blob [Byte.xff]; Null]
            [(false, Sample.txn_of "ALGO:0xA" 2); (true, Sample.txn_of "ALGO:0xA" 3)]
            _ eq_refl eq_refl).
  intros evm txns idxs blobs [= <-]. apply length_fmap.
Defined.

(** X17: the revision that signs through [getSigner] looks the source address
    up for the sender of the first entry of the group, eligible or not, and
    has no fallback: when the map has no entry for that sender the call
    throws "No EVM address found" for it, whatever the rest of the group and
    the persisted session hold, and nothing is asked of the provider or the
    signer. *)
Theorem X17_signer_first_entry (this : Env) (g : TxnGroup Transaction)
    (indexFilter : option (list Z)) (w w1 : World) (first : Transaction)
    (rest : list Transaction) :
  LiquidEvmBase.initializeEvmSdk this w = (Returned tt, w1) →
  flattenTxnGroup g = first :: rest →
  if_truthy (reverseLookup w (sender first)) = None →
  LiquidEvmBaseSigner.signTransactions this (Structured g) indexFilter w =
  (Thrown (LiquidEvmBase.no_evm_address (sender first)),
   issued w1 (after_log this false
                (Some (err_message (LiquidEvmBase.no_evm_address (sender first)))))).
Proof.
  intros Hinit Hflat Hnone.
  rewrite Signer_cases, Signer_try_cases, Hinit. simpl.
  unfold LiquidEvmBaseSigner.processTxns. rewrite Signer_processTxns_from, Hflat. simpl.
  rewrite (proj2 (to_sign_classified _ _ _ _)).
  destruct (initializeEvmSdk_frame this _ _ _ Hinit) as (Hmap & _ & _).
  unfold reverseLookup in *. by rewrite Hmap, Hnone.
Qed.

Lemma X17_signer_first_entry_witness :
  LiquidEvmBaseSigner.signTransactions (Sample.wallet Sample.on_algorand)
    (Structured (Flat [Sample.txn_of "ALGO:other" 0; Sample.txn_of "ALGO:0xA" 1]))
    None Sample.connected
  = (Thrown (LiquidEvmBase.no_evm_address "ALGO:other"), Sample.connected).
Proof.
  exact (X17_signer_first_entry (Sample.wallet Sample.on_algorand)
           (Flat [Sample.txn_of "ALGO:other" 0; Sample.txn_of "ALGO:0xA" 1])
           None Sample.connected Sample.connected
           (Sample.txn_of "ALGO:other" 0) [Sample.txn_of "ALGO:0xA" 1]
           eq_refl eq_refl eq_refl).
Defined.

(** X18: the revision that signs through [getSigner] has no answer for an
    empty group: it throws (reading the first entry of an empty array) where
    the other revision returns an empty array; the after-sign hook is told
    of the failure and nothing else is called. *)
Theorem X18_signer_empty_group (this : Env) (input : SignInput)
    (indexFilter : option (list Z)) (w w1 : World) :
  LiquidEvmBase.initializeEvmSdk this w = (Returned tt, w1) →
  Signer_classify this input indexFilter = Returned [] →
  LiquidEvmBaseSigner.signTransactions this input indexFilter w =
    (Thrown Signer_empty_error,
     issued w1 (after_log this false (Some (err_message Signer_empty_error))))
  ∧ (LiquidEvmBase.flatten_and_decode this input = Returned [] →
     LiquidEvmBase.signTransactions this input indexFilter w = (Returned [], w1)).
Proof.
  intros Hinit Hc. split.
  - by rewrite Signer_cases, Signer_try_cases, Hinit, Hc.
  - intros Hflat. rewrite signTransactions_cases, signTransactions_try_cases, Hinit, Hflat.
    destruct input as [g|g]; simpl in *.
    + done.
    + assert (flattenTxnGroup g = []) as ->; [|done].
      destruct (flattenTxnGroup g) as [|b bufs]; [done|]. simpl in Hflat.
      destruct (LiquidEvmBase.decodeTxn this b) as [[s t]|e]; [|done]. simpl in Hflat.
      by destruct (map_throwing _ bufs).
Qed.

Lemma X18_signer_empty_group_witness :
  LiquidEvmBaseSigner.signTransactions (Sample.wallet Sample.on_algorand)
    (Structured (Nested [[]; []])) None Sample.connected =
    (Thrown Signer_empty_error,
     issued Sample.connected
       (after_log (Sample.wallet Sample.on_algorand) false
          (Some (err_message Signer_empty_error))))
  ∧ (LiquidEvmBase.flatten_and_decode (Sample.wallet Sample.on_algorand)
       (Structured (Nested [[]; []])) = Returned [] →
     LiquidEvmBase.signTransactions (Sample.wallet Sample.on_algorand)
       (Structured (Nested [[]; []])) None Sample.connected = (Returned [], Sample.connected)).
Proof.
  exact (X18_signer_empty_group (Sample.wallet Sample.on_algorand)
           (Structured (Nested [[]; []])) None Sample.connected Sample.connected
           eq_refl eq_refl).
Defined.

(** X19: on resume the revision that signs through [getSigner] hands the
    freshly derived accounts to its callback exactly when their address set
    differs from the persisted one; with the same set the callback is not
    called and the run ends after the derivation. *)
Theorem X19_signer_resume (this : Env) (evmAddresses : list string)
    (setAccountsFn : list WalletAccount → M unit)
    (w w1 : World) (ws : WalletState) (accts : list WalletAccount) :
  walletState w = Some ws →
  LiquidEvmBaseSigner.deriveAlgorandAccounts this evmAddresses
    (with_map w (rebuilt (evmAddressMap w) (accounts ws))) = (Returned accts, w1) →
  LiquidEvmBaseSigner.resumeWithAccounts this evmAddresses setAccountsFn w
  = if compareAccounts accts (accounts ws) then (Returned tt, w1) else setAccountsFn accts w1.
Proof. apply Signer_resume_matching. Qed.

Lemma X19_signer_resume_witness :
  walletState
    (LiquidEvmBaseSigner.resumeWithAccounts (Sample.wallet Sample.on_algorand) ["0xB"; "0xA"]
       Sample.store_accounts (Sample.reloaded (Some "Rainbow"))).2
  = walletState (Sample.reloaded (Some "Rainbow")).
Proof.
  rewrite (X19_signer_resume (Sample.wallet Sample.on_algorand) ["0xB"; "0xA"]
             Sample.store_accounts (Sample.reloaded (Some "Rainbow")) _ _ _ eq_refl eq_refl).
  vm_compute. reflexivity.
Defined.

(** X20: the chain guard of the revision that signs through [getSigner]
    compares the chain ids as strings (another letter case is another chain)
    and adds the chain only after code 4902; any other switch failure,
    -32600 and -32603 included, is rethrown. *)
Theorem X20_signer_chain_guard (this : Env) (provider : Provider) (current : string)
    (w : World) :
  getEvmProvider this = Returned provider →
  reply_chainId provider = Returned current →
  let switch := ProviderRequest (wallet_switchEthereumChain (ALGORAND_CHAIN_ID_HEX this)) in
  let add := ProviderRequest (wallet_addEthereumChain (ALGORAND_EVM_CHAIN_CONFIG this)) in
  LiquidEvmBaseSigner.ensureAlgorandChain this w =
    if String.eqb current (ALGORAND_CHAIN_ID_HEX this)
    then (Returned tt, issued w [ProviderRequest eth_chainId])
    else match reply_switch provider with
         | Returned _ => (Returned tt, issued w [ProviderRequest eth_chainId; switch])
         | Thrown switchError =>
             if bool_decide (err_code switchError = Some 4902%Z)
             then (reply_add provider, issued w [ProviderRequest eth_chainId; switch; add])
             else (Thrown switchError, issued w [ProviderRequest eth_chainId; switch])
         end.
Proof. apply Signer_chain_guard. Qed.

Lemma X20_signer_chain_guard_witness :
  LiquidEvmBaseSigner.ensureAlgorandChain
    (Sample.wallet (Sample.on_mainnet (Some (-32603)%Z))) Sample.fresh
  = (Thrown {| err_code := Some (-32603)%Z; err_message := "Unrecognized chain ID" |},
     issued Sample.fresh [ProviderRequest eth_chainId;
                          ProviderRequest (wallet_switchEthereumChain "0x1040")]).
Proof.
  exact (X20_signer_chain_guard (Sample.wallet (Sample.on_mainnet (Some (-32603)%Z)))
           (Sample.on_mainnet (Some (-32603)%Z)) "0x1" Sample.fresh eq_refl eq_refl).
Defined.

(** ** connect *)

Section connecting.
Context (this : Env).

Lemma MetaMask_derive_loop_eval (target : string → string) (evmAddresses : list string) :
  ∀ i acc w,
    (∀ evm, evm ∈ evmAddresses → sdk_getAddress this evm = Returned (target evm)) →
    MetaMask.derive_loop this i evmAddresses acc w =
    (Returned (acc ++ imap (λ j evm, MetaMask_account this target (i + j) evm) evmAddresses),
     issued (with_map w (derived_map (evmAddressMap w) target evmAddresses))
       (SdkGetAddress <$> evmAddresses)).
Proof.
  induction evmAddresses as [|evm l IH]; intros i acc w Hok; simpl.
  - unfold ret, issued, with_map. rewrite !app_nil_r. by destruct w.
  - erewrite bind_returned; [|reflexivity].
    rewrite (bind_await _ _ _ _ (Hok evm (list_elem_of_here _ _))).
    erewrite bind_returned; [|reflexivity].
    rewrite IH; [|intros e He; apply Hok; by apply list_elem_of_further].
    rewrite Nat.add_0_r, <- !app_assoc.
    assert (imap ((λ j e, MetaMask_account this target (i + j) e) ∘ S) l
            = imap (λ j e, MetaMask_account this target (S i + j) e) l) as ->.
    { apply imap_ext. intros j x _. simpl. by rewrite Nat.add_succ_r. }
    unfold issued, with_map. simpl. by rewrite <- !app_assoc.
Qed.

End connecting.

(** X21: [MetaMaskWallet.connect] first asks for the permission prompt and
    ignores how that request ends; with a non-empty account list it then
    returns one account per address, in order, named "... Account 1",
    "... Account 2", ..., without metadata, records them in the store with
    the first one active, and leaves the pairs in the address map. *)
Theorem X21_metamask_connect (this : Env) (provider : Provider) (evmAddresses : list string)
    (target : string → string) (w w1 : World) :
  initializeProvider this = Returned tt →
  LiquidEvmBase.initializeEvmSdk this w = (Returned tt, w1) →
  getEvmProvider this = Returned provider →
  reply_requestAccounts provider = Returned evmAddresses →
  evmAddresses ≠ [] →
  (∀ evm, evm ∈ evmAddresses → sdk_getAddress this evm = Returned (target evm)) →
  let accts := imap (MetaMask_account this target) evmAddresses in
  MetaMask.connect this w =
  (Returned accts,
   {| evmAddressMap := derived_map (evmAddressMap w) target evmAddresses;
      liquidEvmSdk := true;
      algorandClient := algorandClient w1;
      walletState := Some {| accounts := accts; activeAccount := head accts |};
      calls := calls w ++ [ProviderRequest wallet_requestPermissions;
                           ProviderRequest eth_requestAccounts]
                       ++ (SdkGetAddress <$> evmAddresses) |}).
Proof.
  intros Hprov Hinit Hget Hreq Hne Hok.
  pose proof (initializeEvmSdk_sets this _ _ Hinit) as Hready.
  destruct (initializeEvmSdk_frame this _ _ _ Hinit) as (Hmap & _ & Hcalls).
  unfold MetaMask.connect.
  rewrite (bind_await _ _ _ _ Hprov), (bind_returned _ _ _ _ _ Hinit).
  rewrite (bind_await _ _ _ _ Hget).
  erewrite bind_returned.
  2: { unfold try_catch, request, mbind, M_bind, bind, log, await. simpl.
       destruct (reply_requestPermissions provider) as [[]|e]; reflexivity. }
  unfold request_accounts.
  erewrite bind_returned.
  2: { erewrite bind_returned; [|reflexivity]. unfold await. by rewrite Hreq. }
  destruct evmAddresses as [|firstEvm others]; [done|].
  set (l := firstEvm :: others) in *.
  unfold MetaMask.deriveAlgorandAccounts.
  erewrite bind_returned.
  2: { erewrite bind_returned; [|by apply initializeEvmSdk_ready].
       by apply (MetaMask_derive_loop_eval this target l 0 []). }
  erewrite bind_returned; [|reflexivity].
  unfold ret, issued, with_map. simpl. rewrite Hready, Hmap, Hcalls.
  rewrite <- !app_assoc. done.
Qed.

Lemma X21_metamask_connect_witness :
  MetaMask.connect
    (Sample.wallet {| reply_chainId := Returned "0x1";
                      reply_requestAccounts := Returned ["0xA"; "0xB"];
                      reply_requestPermissions := Thrown Sample.malformed;
                      reply_switch := Returned tt;
                      reply_add := Returned tt |}) Sample.fresh
  = (Returned [ {| name := "Rainbow Account 1"; address := "ALGO:0xA"; metadata := None |};
                {| name := "Rainbow Account 2"; address := "ALGO:0xB"; metadata := None |} ],
     {| evmAddressMap := {[ "ALGO:0xA" := "0xA"; "ALGO:0xB" := "0xB" ]};
        liquidEvmSdk := true; algorandClient := true;
        walletState :=
          Some {| accounts :=
                    [ {| name := "Rainbow Account 1"; address := "ALGO:0xA"; metadata := None |};
                      {| name := "Rainbow Account 2"; address := "ALGO:0xB"; metadata := None |} ];
                  activeAccount :=
                    Some {| name := "Rainbow Account 1"; address := "ALGO:0xA";
                            metadata := None |} |};
        calls := [ProviderRequest wallet_requestPermissions;
                  ProviderRequest eth_requestAccounts;
                  SdkGetAddress "0xA"; SdkGetAddress "0xB"] |}).
Proof.
  pose proof (X21_metamask_connect
    (Sample.wallet {| reply_chainId := Returned "0x1";
                      reply_requestAccounts := Returned ["0xA"; "0xB"];
                      reply_requestPermissions := Thrown Sample.malformed;
                      reply_switch := Returned tt;
                      reply_add := Returned tt |})
    {| reply_chainId := Returned "0x1";
       reply_requestAccounts := Returned ["0xA"; "0xB"];
       reply_requestPermissions := Thrown Sample.malformed;
       reply_switch := Returned tt;
       reply_add := Returned tt |}
    ["0xA"; "0xB"] (λ evm, "ALGO:" +:+ evm) Sample.fresh
    {| evmAddressMap := ∅; liquidEvmSdk := true; algorandClient := true;
       walletState := None; calls := [] |}
    eq_refl eq_refl eq_refl eq_refl) as H.
  rewrite H.
  - vm_compute. reflexivity.
  - discriminate.
  - intros evm _. reflexivity.
Defined.

(** X22: when the provider reports no account, [connect] throws
    "No accounts found!" before anything is derived or recorded: the address
    map and the persisted session are as they were and the SDK was not asked
    for an address.  This holds for [RainbowWallet.connect] and for
    [MetaMaskWallet.connect]. *)
Theorem X22_connect_without_accounts (this : Env) (provider : Provider) (w w1 : World) :
  initializeProvider this = Returned tt →
  LiquidEvmBase.initializeEvmSdk this w = (Returned tt, w1) →
  getEvmProvider this = Returned provider →
  reply_requestAccounts provider = Returned [] →
  LiquidEvmBase.connect this w
    = (Thrown no_accounts_found, issued w1 [ProviderRequest eth_requestAccounts])
  ∧ MetaMask.connect this w
    = (Thrown no_accounts_found,
       issued w1 [ProviderRequest wallet_requestPermissions;
                  ProviderRequest eth_requestAccounts])
  ∧ evmAddressMap w1 = evmAddressMap w ∧ walletState w1 = walletState w.
Proof.
  intros Hprov Hinit Hget Hreq.
  destruct (initializeEvmSdk_frame this _ _ _ Hinit) as (Hmap & Hws & _).
  split; [|split; [|done]].
  - unfold LiquidEvmBase.connect.
    rewrite (bind_await _ _ _ _ Hprov), (bind_returned _ _ _ _ _ Hinit).
    rewrite (bind_await _ _ _ _ Hget).
    unfold request_accounts.
    erewrite bind_returned.
    2: { erewrite bind_returned; [|reflexivity]. unfold await. by rewrite Hreq. }
    done.
  - unfold MetaMask.connect.
    rewrite (bind_await _ _ _ _ Hprov), (bind_returned _ _ _ _ _ Hinit).
    rewrite (bind_await _ _ _ _ Hget).
    erewrite bind_returned.
    2: { unfold try_catch, request, mbind, M_bind, bind, log, await. simpl.
         destruct (reply_requestPermissions provider) as [[]|e]; reflexivity. }
    unfold request_accounts.
    erewrite bind_returned.
    2: { erewrite bind_returned; [|reflexivity]. unfold await. by rewrite Hreq. }
    unfold throw, issued. simpl. by rewrite <- app_assoc.
Qed.

Lemma X22_connect_without_accounts_witness :
  LiquidEvmBase.connect
    (Sample.wallet {| reply_chainId := Returned "0x1040";
                      reply_requestAccounts := Returned [];
                      reply_requestPermissions := Returned tt;
                      reply_switch := Returned tt;
                      reply_add := Returned tt |}) Sample.fresh
    = (Thrown no_accounts_found,
       issued {| evmAddressMap := ∅; liquidEvmSdk := true; algorandClient := true;
                 walletState := None; calls := [] |}
              [ProviderRequest eth_requestAccounts])
  ∧ MetaMask.connect
      (Sample.wallet {| reply_chainId := Returned "0x1040";
                        reply_requestAccounts := Returned [];
                        reply_requestPermissions := Returned tt;
                        reply_switch := Returned tt;
                        reply_add := Returned tt |}) Sample.fresh
    = (Thrown no_accounts_found,
       issued {| evmAddressMap := ∅; liquidEvmSdk := true; algorandClient := true;
                 walletState := None; calls := [] |}
              [ProviderRequest wallet_requestPermissions;
               ProviderRequest eth_requestAccounts])
  ∧ (∅ : gmap string string) = evmAddressMap Sample.fresh
  ∧ None = walletState Sample.fresh.
Proof.
  exact (X22_connect_without_accounts
    (Sample.wallet {| reply_chainId := Returned "0x1040";
                      reply_requestAccounts := Returned [];
                      reply_requestPermissions := Returned tt;
                      reply_switch := Returned tt;
                      reply_add := Returned tt |})
    {| reply_chainId := Returned "0x1040";
       reply_requestAccounts := Returned [];
       reply_requestPermissions := Returned tt;
       reply_switch := Returned tt;
       reply_add := Returned tt |}
    Sample.fresh
    {| evmAddressMap := ∅; liquidEvmSdk := true; algorandClient := true;
       walletState := None; calls := [] |}
    eq_refl eq_refl eq_refl eq_refl).
Defined.

(** X23: with a connect hook installed, [RainbowWallet.connect] first
    records the session (the derived accounts, the first one active) and
    the address pairs, and only then calls the hook, once, with the first
    source address and the address derived from it.  A hook that throws
    makes [connect] throw the same error, with the session already in the
    store. *)
Theorem X23_connect_records_then_notifies (this : Env) (provider : Provider)
    (firstEvm : string) (others : list string) (target : string → string)
    (hook : string → string → Outcome unit) (w w1 : World) :
  initializeProvider this = Returned tt →
  LiquidEvmBase.initializeEvmSdk this w = (Returned tt, w1) →
  getEvmProvider this = Returned provider →
  reply_requestAccounts provider = Returned (firstEvm :: others) →
  (∀ evm, evm ∈ firstEvm :: others → sdk_getAddress this evm = Returned (target evm)) →
  nullish (options_onConnect this) (manager_onConnect this) = Some hook →
  let accts := derived_account this None target <$> firstEvm :: others in
  LiquidEvmBase.connect this w =
  (match hook firstEvm (target firstEvm) with
   | Returned _ => Returned accts
   | Thrown e => Thrown e
   end,
   {| evmAddressMap := derived_map (evmAddressMap w) target (firstEvm :: others);
      liquidEvmSdk := true;
      algorandClient := algorandClient w1;
      walletState :=
        Some {| accounts := accts;
                activeAccount := Some (derived_account this None target firstEvm) |};
      calls := calls w ++ [ProviderRequest eth_requestAccounts]
                       ++ (SdkGetAddress <$> firstEvm :: others)
                       ++ [OnConnect firstEvm (target firstEvm)] |}).
Proof.
  intros Hprov Hinit Hget Hreq Hok Hhook.
  pose proof (initializeEvmSdk_sets this _ _ Hinit) as Hready.
  destruct (initializeEvmSdk_frame this _ _ _ Hinit) as (Hmap & _ & Hcalls).
  unfold LiquidEvmBase.connect.
  rewrite (bind_await _ _ _ _ Hprov), (bind_returned _ _ _ _ _ Hinit).
  rewrite (bind_await _ _ _ _ Hget).
  unfold request_accounts.
  erewrite bind_returned.
  2: { erewrite bind_returned; [|reflexivity]. unfold await. by rewrite Hreq. }
  cbv beta iota.
  set (l := firstEvm :: others) in *.
  erewrite bind_returned.
  2: { apply (deriveAlgorandAccounts_eval this None target l); [|exact Hok].
       by apply initializeEvmSdk_ready. }
  erewrite bind_returned; [|reflexivity].
  simpl.
  unfold LiquidEvmBase.notifyConnect. rewrite Hhook.
  unfold mbind, M_bind, bind, log, await, ret, issued, with_map. simpl.
  rewrite Hready, Hmap, Hcalls.
  destruct (hook firstEvm (target firstEvm)) as [[]|e]; simpl;
    by rewrite <- !app_assoc.
Qed.

Lemma X23_connect_records_then_notifies_witness :
  LiquidEvmBase.connect
    (with_onConnect (Sample.wallet Sample.on_algorand) (λ _ _, Thrown Sample.malformed))
    Sample.fresh
  = (Thrown Sample.malformed,
     {| evmAddressMap := {[ "ALGO:0xA" := "0xA"; "ALGO:0xB" := "0xB" ]};
        liquidEvmSdk := true; algorandClient := true;
        walletState :=
          Some {| accounts := [Sample.account "0xA" None; Sample.account "0xB" None];
                  activeAccount := Some (Sample.account "0xA" None) |};
        calls := [ProviderRequest eth_requestAccounts;
                  SdkGetAddress "0xA"; SdkGetAddress "0xB";
                  OnConnect "0xA" "ALGO:0xA"] |}).
Proof.
  pose proof (X23_connect_records_then_notifies
    (with_onConnect (Sample.wallet Sample.on_algorand) (λ _ _, Thrown Sample.malformed))
    Sample.on_algorand "0xA" ["0xB"] (λ evm, "ALGO:" +:+ evm)
    (λ _ _, Thrown Sample.malformed) Sample.fresh
    {| evmAddressMap := ∅; liquidEvmSdk := true; algorandClient := true;
       walletState := None; calls := [] |}
    eq_refl eq_refl eq_refl eq_refl) as H.
  rewrite H.
  - vm_compute. reflexivity.
  - intros evm _. reflexivity.
  - reflexivity.
Defined.

(** ** bytesToHex *)

Lemma concat_empty_cons (x : string) (xs : list string) :
  String.concat "" (x :: xs) = x +:+ String.concat "" xs.
Proof.
  destruct xs as [|y ys]; simpl.
  - induction x as [|c x IH]; [done|].
    change (String c x +:+ "") with (String c (x +:+ "")). by rewrite <- IH.
  - done.
Qed.

Lemma string_length_app (s t : string) :
  String.length (s +:+ t) = String.length s + String.length t.
Proof.
  induction s as [|c s IH]; [done|].
  change (String c s +:+ t) with (String c (s +:+ t)). simpl. by rewrite IH.
Qed.

(** Every byte is written as exactly two digits that read back as the byte. *)
Lemma byte_pair_read (b : Byte.byte) (rest : string) (fuel : nat) :
  Hex.pairs_to_bytes (S fuel) (Hex.padStart 2 "0" (Hex.toString16 b) +:+ rest)
  = bs ← Hex.pairs_to_bytes fuel rest; Some (b :: bs).
Proof. destruct b; reflexivity. Qed.

Lemma byte_pair_length (b : Byte.byte) :
  String.length (Hex.padStart 2 "0" (Hex.toString16 b)) = 2.
Proof. destruct b; reflexivity. Qed.

Lemma digits_length (bytes : Uint8Array) :
  String.length (String.concat "" ((λ b, Hex.padStart 2 "0" (Hex.toString16 b)) <$> bytes))
  = 2 * length bytes.
Proof.
  induction bytes as [|b bs IH]; [done|].
  rewrite fmap_cons, concat_empty_cons, string_length_app, byte_pair_length, IH.
  simpl. lia.
Qed.

Lemma digits_read (bytes : Uint8Array) : ∀ fuel : nat, (length bytes ≤ fuel)%nat →
  Hex.pairs_to_bytes fuel
    (String.concat "" ((λ b, Hex.padStart 2 "0" (Hex.toString16 b)) <$> bytes))
  = Some bytes.
Proof.
  induction bytes as [|b bs IH]; intros fuel Hfuel.
  - by destruct fuel.
  - destruct fuel as [|fuel]; [simpl in Hfuel; lia|].
    rewrite fmap_cons, concat_empty_cons, byte_pair_read.
    rewrite IH; [done|]. simpl in Hfuel. lia.
Qed.

Lemma bytesToHex_digits (bytes : Uint8Array) :
  Hex.bytesToHex bytes
  = String "0" (String "x"
      (String.concat "" ((λ b, Hex.padStart 2 "0" (Hex.toString16 b)) <$> bytes))).
Proof. reflexivity. Qed.

Lemma hexToBytes_prefixed (rest : string) :
  Hex.hexToBytes (String "0" (String "x" rest))
  = Hex.pairs_to_bytes (String.length rest) rest.
Proof. reflexivity. Qed.

(** X24: [bytesToHex] writes "0x" and then exactly two lower-case
    hexadecimal digits per byte, also for the bytes below 16; reading the
    digits back gives the bytes, so two different byte arrays never share a
    hex string. *)
Theorem X24_bytesToHex_round_trip (bytes : Uint8Array) :
  String.length (Hex.bytesToHex bytes) = 2 + 2 * length bytes
  ∧ Hex.hexToBytes (Hex.bytesToHex bytes) = Some bytes
  ∧ ∀ other, Hex.bytesToHex other = Hex.bytesToHex bytes → other = bytes.
Proof.
  assert (∀ bs, Hex.hexToBytes (Hex.bytesToHex bs) = Some bs) as Hread.
  { intros bs. rewrite bytesToHex_digits, hexToBytes_prefixed.
    apply digits_read. rewrite digits_length. lia. }
  split; [|split].
  - rewrite bytesToHex_digits.
    change (String.length (String "0" (String "x" ?s))) with (S (S (String.length s))).
    by rewrite digits_length.
  - apply Hread.
  - intros other Heq.
    pose proof (Hread other) as H1. rewrite Heq, Hread in H1. by injection H1.
Qed.

(** X25: [signWithMetaMask] hands the provider the hex form of the message
    and returns its signature; a failure of the request with code 4001
    becomes the error "User rejected the signing request", any other failure
    is rethrown as it is, so no error of the request leaves with code 4001.
    A failure of [getProvider] itself is outside the [try] and is not
    translated. *)
Theorem X25_sign_rejection (personal_sign : string → string → Outcome string)
    (message : Uint8Array) (evm : string) :
  let reply := personal_sign (Hex.bytesToHex message) evm in
  let r := Hex.signWithMetaMask (Returned personal_sign) message evm in
  (∀ s, r = Returned s ↔ reply = Returned s)
  ∧ (∀ e, reply = Thrown e → err_code e = Some 4001%Z → r = Thrown Hex.user_rejected)
  ∧ (∀ e, reply = Thrown e → err_code e ≠ Some 4001%Z → r = Thrown e)
  ∧ (∀ e, r = Thrown e → err_code e ≠ Some 4001%Z)
  ∧ (∀ e, Hex.signWithMetaMask (Thrown e) message evm = Thrown e).
Proof.
  cbv zeta. unfold Hex.signWithMetaMask. simpl.
  destruct (personal_sign (Hex.bytesToHex message) evm) as [s|e].
  - split; [done|]. split; [done|]. split; [done|]. split; done.
  - case_bool_decide as Hcode.
    + split; [done|]. split; [done|].
      split; [by intros e' [= <-] Hne|]. split; [|done].
      by intros e' [= <-].
    + split; [done|].
      split; [by intros e' [= <-] Hc|]. split; [done|]. split; [|done].
      by intros e' [= <-].
Qed.

(** ** RainbowWallet *)

(** X26: [RainbowWallet.getProvider] returns a cached provider without
    looking at the window and caches what it finds, so later calls no
    longer depend on the window; what it finds is [window.rainbow] or else a
    provider flagged [isRainbow].  When [window.ethereum.providers] is an
    array without such a provider the call throws "not available" and leaves
    the cache empty, also when [window.ethereum] itself is flagged
    [isRainbow] and [initializeProvider] has just reported Rainbow as the
    primary provider. *)
Theorem X26_rainbow_provider (cached : option InjectedProvider) (window : option Window) :
  let r := RainbowProvider.getProvider cached window in
  (∀ p, cached = Some p → r = (Returned p, Some p))
  ∧ (∀ p, r.1 = Returned p →
       r.2 = Some p ∧ ∀ window', RainbowProvider.getProvider r.2 window' = r)
  ∧ (∀ e, r.1 = Thrown e → cached = None ∧ r.2 = None)
  ∧ (∀ win p, cached = None → window = Some win → r.1 = Returned p →
       RainbowProvider.detect win ≠ RainbowProvider.NotDetected
       ∧ (window_rainbow win = Some p
          ∨ (window_rainbow win = None ∧ isRainbow p = true)))
  ∧ (∀ win eth providers,
       cached = None → window = Some win → window_rainbow win = None →
       window_ethereum win = Some eth → eth_providers eth = Some providers →
       find isRainbow providers = None →
       r = (Thrown RainbowProvider.not_available, None)
       ∧ (isRainbow (eth_self eth) = true →
          RainbowProvider.detect win = RainbowProvider.FoundAsPrimary)).
Proof.
  cbv zeta. unfold RainbowProvider.getProvider.
  split; [by intros p ->|]. split; [|split; [|split]].
  - destruct cached as [c|]; simpl.
    { intros p [= ->]. split; [done|]. by intros _. }
    destruct window as [win|]; simpl; [|done].
    destruct (RainbowProvider.pick win) as [q|]; simpl; [|done].
    intros p [= ->]. split; [done|]. by intros _.
  - destruct cached as [c|]; simpl; [done|].
    destruct window as [win|]; simpl; [|done].
    by destruct (RainbowProvider.pick win) as [q|].
  - intros win p -> ->. simpl.
    unfold RainbowProvider.pick, RainbowProvider.detect.
    destruct (window_rainbow win) as [r|]; simpl.
    { intros [= ->]. split; [done|]. by left. }
    destruct (window_ethereum win) as [eth|]; simpl; [|done].
    destruct (eth_providers eth) as [ps|]; simpl.
    + destruct (find isRainbow ps) as [q|] eqn:Hfind; simpl; [|done].
      intros [= ->]. split; [done|]. right. split; [done|].
      apply find_some in Hfind. tauto.
    + destruct (isRainbow (eth_self eth)) eqn:Hflag; simpl; [|done].
      intros [= <-]. split; [done|]. right. done.
  - intros win eth ps -> -> Hr He Hps Hfind. simpl.
    unfold RainbowProvider.pick, RainbowProvider.detect.
    rewrite Hr, He. simpl. rewrite Hps, Hfind. split; [done|].
    by intros ->.
Qed.

(** X27: [RainbowWallet.resumeSession].  Without a persisted session it
    returns at once: no provider, SDK or store is touched and the wallet is
    not disconnected.  With a session, an empty answer to [eth_accounts]
    disconnects the wallet and throws "No accounts found!"; otherwise the
    address map is refilled from the persisted accounts and then from the
    live addresses, the accounts derived from the live addresses are handed
    to [setAccounts], and a failure of [setAccounts] disconnects the wallet
    before it is rethrown. *)
Theorem X27_resume_session (this : Env) (eth_accounts : Provider → Outcome (list string))
    (setAccounts : list WalletAccount → M unit) (onDisconnect : M unit) (w : World) :
  let r := Rainbow.resumeSession this eth_accounts setAccounts onDisconnect w in
  (walletState w = None → r = (Returned tt, w))
  ∧ (∀ ws provider evmAddresses target w1,
       walletState w = Some ws →
       initializeProvider this = Returned tt →
       LiquidEvmBase.initializeEvmSdk this w = (Returned tt, w1) →
       getEvmProvider this = Returned provider →
       eth_accounts provider = Returned evmAddresses →
       (∀ evm, evm ∈ evmAddresses → sdk_getAddress this evm = Returned (target evm)) →
       r = match evmAddresses with
           | [] => (onDisconnect ;; throw no_accounts_found) w1
           | _ :: _ =>
               match setAccounts (derived_account this None target <$> evmAddresses)
                       (issued
                          (with_map w1
                             (derived_map (rebuilt (evmAddressMap w) (accounts ws))
                                target evmAddresses))
                          (SdkGetAddress <$> evmAddresses)) with
               | (Returned u, w3) => (Returned u, w3)
               | (Thrown e, w3) => (onDisconnect ;; throw e) w3
               end
           end).
Proof.
  cbv zeta. unfold Rainbow.resumeSession, Rainbow.resumeSession_try, try_catch.
  split.
  - intros Hws. erewrite bind_returned; [|reflexivity]. by rewrite Hws.
  - intros ws provider evmAddresses target w1 Hws Hprov Hinit Hget Hacc Hok.
    pose proof (initializeEvmSdk_sets this _ _ Hinit) as Hready.
    destruct (initializeEvmSdk_frame this _ _ _ Hinit) as (Hmap & Hstore & _).
    erewrite bind_returned; [|reflexivity]. rewrite Hws.
    rewrite (bind_await _ _ _ _ Hprov), (bind_returned _ _ _ _ _ Hinit).
    rewrite (bind_await _ _ _ _ Hget), (bind_await _ _ _ _ Hacc).
    destruct evmAddresses as [|firstEvm others]; [done|].
    set (l := firstEvm :: others) in *.
    erewrite (resumeWithAccounts_eval this l setAccounts None w1 _ ws);
      [| by rewrite Hstore | ].
    2: { apply (deriveAlgorandAccounts_eval this None target l); [|exact Hok].
         by apply initializeEvmSdk_ready. }
    rewrite Hmap. reflexivity.
Qed.

Lemma X27_resume_session_witness :
  Rainbow.resumeSession (Sample.wallet Sample.on_algorand) reply_requestAccounts
    (λ _, throw Sample.malformed)
    (λ w, (Returned tt, {| evmAddressMap := evmAddressMap w; liquidEvmSdk := liquidEvmSdk w;
                           algorandClient := algorandClient w;
                           walletState := None; calls := calls w |}))
    (Sample.reloaded None)
  = (Thrown Sample.malformed,
     {| evmAddressMap := {[ "ALGO:0xA" := "0xA"; "ALGO:0xB" := "0xB" ]};
        liquidEvmSdk := true; algorandClient := true;
        walletState := None;
        calls := [SdkGetAddress "0xA"; SdkGetAddress "0xB"] |}).
Proof.
  pose proof (proj2 (X27_resume_session (Sample.wallet Sample.on_algorand)
    reply_requestAccounts (λ _, throw Sample.malformed)
    (λ w, (Returned tt, {| evmAddressMap := evmAddressMap w; liquidEvmSdk := liquidEvmSdk w;
                           algorandClient := algorandClient w;
                           walletState := None; calls := calls w |}))
    (Sample.reloaded None))
    {| accounts := [Sample.account "0xA" None; Sample.account "0xB" None];
       activeAccount := Some (Sample.account "0xA" None) |}
    Sample.on_algorand ["0xA"; "0xB"] (λ evm, "ALGO:" +:+ evm)
    {| evmAddressMap := ∅; liquidEvmSdk := true; algorandClient := true;
       walletState := Some {| accounts := [Sample.account "0xA" None; Sample.account "0xB" None];
                              activeAccount := Some (Sample.account "0xA" None) |};
       calls := [] |}
    eq_refl eq_refl eq_refl eq_refl eq_refl) as H.
  rewrite H.
  - vm_compute. reflexivity.
  - intros evm _. reflexivity.
Defined.

(** ** RainbowKitWallet *)

Lemma persisted_of_derived (this : Env) (connectorInfo : option ConnectorInfo)
    (target : string → string) (evmAddresses : list string) :
  (∀ evm, evm ∈ evmAddresses → evm ≠ "") →
  RainbowKit.persistedEvmAddresses (derived_account this connectorInfo target <$> evmAddresses)
  = evmAddresses.
Proof.
  unfold RainbowKit.persistedEvmAddresses.
  induction evmAddresses as [|evm l IH]; intros Hne; [done|].
  rewrite !fmap_cons. simpl.
  assert (if_truthy (Some evm) = Some evm) as ->.
  { apply if_truthy_nonempty. apply Hne. left. }
  simpl. f_equal. apply IH. intros e He. apply Hne. by right.
Qed.

Lemma if_truthy_idemp (x : option string) : if_truthy (if_truthy x) = if_truthy x.
Proof.
  unfold if_truthy. destruct (truthy x) eqn:E; [by rewrite E|]. done.
Qed.

Lemma truthy_if_truthy (x : option string) : truthy (if_truthy x) = truthy x.
Proof.
  unfold if_truthy. destruct (truthy x) eqn:E; [by rewrite E|]. done.
Qed.

(** X28: resuming a RainbowKit session while wagmi is not connected.  From
    accounts that were derived with some connector info, [resumeSession]
    reads back exactly the source addresses they were derived from, in
    order, and a connector info that, handed to the derivation, gives again
    the persisted accounts: names, addresses and metadata. *)
Theorem X28_offline_resume (this : Env) (connectorInfo : ConnectorInfo)
    (target : string → string) (firstEvm : string) (others : list string) :
  (∀ evm, evm ∈ firstEvm :: others → evm ≠ "") →
  let persisted := derived_account this (Some connectorInfo) target <$> firstEvm :: others in
  let info := RainbowKit.connectorInfo_or_persisted
                {| info_name := None; info_icon := None |} persisted in
  RainbowKit.persistedEvmAddresses persisted = firstEvm :: others
  ∧ derived_account this (Some info) target <$> RainbowKit.persistedEvmAddresses persisted
    = persisted.
Proof.
  intros Hne persisted info.
  assert (RainbowKit.persistedEvmAddresses persisted = firstEvm :: others) as Hread
    by by apply persisted_of_derived.
  split; [exact Hread|]. rewrite Hread.
  assert (∀ evm, derived_account this (Some info) target evm
                 = derived_account this (Some connectorInfo) target evm) as Heq.
  { intros evm. unfold derived_account. do 2 f_equal.
    unfold LiquidEvmBase.derived_metadata. subst info persisted.
    unfold RainbowKit.connectorInfo_or_persisted. simpl.
    rewrite !truthy_if_truthy.
    destruct connectorInfo as [n i]. simpl.
    f_equal.
    - destruct (truthy n) eqn:En; simpl.
      + by rewrite if_truthy_idemp.
      + unfold if_truthy. by rewrite En.
    - destruct (truthy i) eqn:Ei; simpl.
      + by rewrite if_truthy_idemp.
      + unfold if_truthy. by rewrite Ei. }
  subst persisted. apply list_fmap_ext. intros _ evm _. apply Heq.
Qed.

Lemma X28_offline_resume_witness :
  RainbowKit.persistedEvmAddresses
    (derived_account (Sample.wallet Sample.on_algorand)
       (Some {| info_name := Some "MetaMask"; info_icon := Some "" |})
       (λ evm, "ALGO:" +:+ evm) <$> ["0xA"; "0xB"])
  = ["0xA"; "0xB"]
  ∧ derived_account (Sample.wallet Sample.on_algorand)
      (Some (RainbowKit.connectorInfo_or_persisted {| info_name := None; info_icon := None |}
               (derived_account (Sample.wallet Sample.on_algorand)
                  (Some {| info_name := Some "MetaMask"; info_icon := Some "" |})
                  (λ evm, "ALGO:" +:+ evm) <$> ["0xA"; "0xB"])))
      (λ evm, "ALGO:" +:+ evm)
    <$> RainbowKit.persistedEvmAddresses
          (derived_account (Sample.wallet Sample.on_algorand)
             (Some {| info_name := Some "MetaMask"; info_icon := Some "" |})
             (λ evm, "ALGO:" +:+ evm) <$> ["0xA"; "0xB"])
    = [Sample.account "0xA" (Some "MetaMask"); Sample.account "0xB" (Some "MetaMask")].
Proof.
  refine (X28_offline_resume (Sample.wallet Sample.on_algorand)
            {| info_name := Some "MetaMask"; info_icon := Some "" |}
            (λ evm, "ALGO:" +:+ evm) "0xA" ["0xB"] _).
  intros evm Hevm. rewrite !elem_of_cons, elem_of_nil in Hevm.
  destruct Hevm as [->|[->|[]]]; discriminate.
Defined.

(** X29: [ensureChainRegistered] leaves the configured chains in place and
    adds the Algorand chain at the end only when no chain has its id;
    afterwards a chain with that id is configured, and running it again
    changes nothing. *)
Theorem X29_chain_registered_once (ALGORAND_CHAIN_ID : Z) (algorandChain : Chain)
    (chains : list Chain) :
  chain_id algorandChain = ALGORAND_CHAIN_ID →
  let registered := RainbowKit.ensureChainRegistered ALGORAND_CHAIN_ID algorandChain chains in
  (∃ c, c ∈ registered ∧ chain_id c = ALGORAND_CHAIN_ID)
  ∧ (registered = chains ∨ registered = chains ++ [algorandChain])
  ∧ ((∃ c, c ∈ chains ∧ chain_id c = ALGORAND_CHAIN_ID) → registered = chains)
  ∧ RainbowKit.ensureChainRegistered ALGORAND_CHAIN_ID algorandChain registered = registered.
Proof.
  intros Hid registered. subst registered.
  unfold RainbowKit.ensureChainRegistered.
  destruct (existsb (λ c, Z.eqb (chain_id c) ALGORAND_CHAIN_ID) chains) eqn:E.
  - split; [|split; [by left|split; [done|by rewrite E]]].
    apply existsb_exists in E as (c & Hc & Heq).
    exists c. split; [by apply list_elem_of_In|]. by apply Z.eqb_eq.
  - assert (existsb (λ c, Z.eqb (chain_id c) ALGORAND_CHAIN_ID) (chains ++ [algorandChain])
            = true) as Hnow.
    { rewrite existsb_app. simpl. apply Z.eqb_eq in Hid. rewrite Hid.
      by rewrite orb_true_r. }
    split; [|split; [by right|split; [|by rewrite Hnow]]].
    + exists algorandChain. split; [|done]. rewrite elem_of_app, elem_of_cons.
      right. by left.
    + intros (c & Hc & Heq). exfalso.
      assert (existsb (λ c, Z.eqb (chain_id c) ALGORAND_CHAIN_ID) chains = true) as Ht.
      { apply existsb_exists. exists c. split; [by apply list_elem_of_In|].
        by apply Z.eqb_eq. }
      congruence.
Qed.

Lemma X29_chain_registered_once_witness :
  (∃ c, c ∈ RainbowKit.ensureChainRegistered 4160
               {| chain_id := 4160; chain_name := "Algorand" |}
               [{| chain_id := 1; chain_name := "Ethereum" |}]
        ∧ chain_id c = 4160%Z)
  ∧ (RainbowKit.ensureChainRegistered 4160 {| chain_id := 4160; chain_name := "Algorand" |}
       [{| chain_id := 1; chain_name := "Ethereum" |}]
     = [{| chain_id := 1; chain_name := "Ethereum" |}]
     ∨ RainbowKit.ensureChainRegistered 4160 {| chain_id := 4160; chain_name := "Algorand" |}
         [{| chain_id := 1; chain_name := "Ethereum" |}]
       = [{| chain_id := 1; chain_name := "Ethereum" |}]
         ++ [{| chain_id := 4160; chain_name := "Algorand" |}])
  ∧ ((∃ c, c ∈ [{| chain_id := 1; chain_name := "Ethereum" |}] ∧ chain_id c = 4160%Z) →
     RainbowKit.ensureChainRegistered 4160 {| chain_id := 4160; chain_name := "Algorand" |}
       [{| chain_id := 1; chain_name := "Ethereum" |}]
     = [{| chain_id := 1; chain_name := "Ethereum" |}])
  ∧ RainbowKit.ensureChainRegistered 4160 {| chain_id := 4160; chain_name := "Algorand" |}
      (RainbowKit.ensureChainRegistered 4160 {| chain_id := 4160; chain_name := "Algorand" |}
         [{| chain_id := 1; chain_name := "Ethereum" |}])
    = RainbowKit.ensureChainRegistered 4160 {| chain_id := 4160; chain_name := "Algorand" |}
        [{| chain_id := 1; chain_name := "Ethereum" |}].
Proof.
  exact (X29_chain_registered_once 4160 {| chain_id := 4160; chain_name := "Algorand" |}
           [{| chain_id := 1; chain_name := "Ethereum" |}] eq_refl).
Defined.

(** X30: [MetaMaskWallet.signTransactions] has no chain guard and calls no
    hook: whatever its outcome, the address map and the persisted session
    are as before, and of the calls the wallet itself makes the log has
    grown by nothing or by one call of the SDK's [signTxn], made for a
    non-empty source address that the map holds for some sender. *)
Theorem X30_metamask_sign_frame (this : Env) (input : SignInput) (F : option (list Z))
    (w : World) :
  let r := MetaMask.signTransactions this input F w in
  evmAddressMap r.2 = evmAddressMap w
  ∧ walletState r.2 = walletState w
  ∧ (calls r.2 = calls w
     ∨ ∃ evm flat algorandAddress,
         calls r.2 = calls w ++ [SdkSignTxn evm flat]
         ∧ evmAddressMap w !! algorandAddress = Some evm
         ∧ evm ≠ "").
Proof.
  cbv zeta. unfold MetaMask.signTransactions, LiquidEvmBase.evmAddressMap_get.
  unfold mbind, M_bind, bind, await, ret, throw, log, get.
  destruct (LiquidEvmBase.initializeEvmSdk this w) as [[[]|e] w1] eqn:Hinit;
    destruct (initializeEvmSdk_frame this _ _ _ Hinit) as (Hmap & Hstore & Hcalls);
    [|simpl; split; [done|split; [done|by left]]].
  destruct (LiquidEvmBase.flatten_and_decode this input) as [flat|e];
    [|simpl; split; [done|split; [done|by left]]].
  destruct (LiquidEvmBase.select_txnsToSign this input flat F) as [[|firstTxn rest]|e];
    [simpl; split; [done|split; [done|by left]]|
    |simpl; split; [done|split; [done|by left]]].
  destruct (if_truthy (evmAddressMap w1 !! sender firstTxn)) as [evm|] eqn:Hfound;
    [|simpl; split; [done|split; [done|by left]]].
  apply if_truthy_Some in Hfound as [Hlook Hevm].
  assert (evm ≠ "") as Hne.
  { intros ->. by vm_compute in Hevm. }
  destruct (sdk_signTxn this evm flat) as [blobs|e]; simpl;
    (split; [done|split; [done|]]); right; exists evm, flat, (sender firstTxn);
    by rewrite Hcalls, <- Hmap.
Qed.

(** * The revisions side by side *)

(** ** The chain guard *)

(** C5: when the provider's chain id is the Algorand chain id, written the
    same or in another letter case, the guard returns after the one read and
    issues no switch or add request; otherwise it issues exactly one switch
    request, followed by an add request exactly when the switch failed with
    one of the codes 4902, -32600, -32603, and a switch failure with any
    other code (or none) is rethrown as it is.  The revision that signs
    through [getSigner] does the same with the ids compared as they are
    written and 4902 as the only such code. *)
Theorem C5_chain_guard (this : Env) (provider : Provider) (current : string) (w : World) :
  getEvmProvider this = Returned provider →
  reply_chainId provider = Returned current →
  let target := ALGORAND_CHAIN_ID_HEX this in
  let read := ProviderRequest eth_chainId in
  let switch := ProviderRequest (wallet_switchEthereumChain target) in
  let add := ProviderRequest (wallet_addEthereumChain (ALGORAND_EVM_CHAIN_CONFIG this)) in
  (current = target →
     LiquidEvmBase.ensureAlgorandChain this w = (Returned tt, issued w [read])
     ∧ LiquidEvmBaseSigner.ensureAlgorandChain this w = (Returned tt, issued w [read]))
  ∧ (toLowerCase current = toLowerCase target →
     LiquidEvmBase.ensureAlgorandChain this w = (Returned tt, issued w [read]))
  ∧ (toLowerCase current ≠ toLowerCase target →
     LiquidEvmBase.ensureAlgorandChain this w =
       match reply_switch provider with
       | Returned _ => (Returned tt, issued w [read; switch])
       | Thrown switchError =>
           match err_code switchError with
           | Some code =>
               if bool_decide (code ∈ [4902; -32600; -32603]%Z)
               then (reply_add provider, issued w [read; switch; add])
               else (Thrown switchError, issued w [read; switch])
           | None => (Thrown switchError, issued w [read; switch])
           end
       end)
  ∧ (current ≠ target →
     LiquidEvmBaseSigner.ensureAlgorandChain this w =
       match reply_switch provider with
       | Returned _ => (Returned tt, issued w [read; switch])
       | Thrown switchError =>
           if bool_decide (err_code switchError = Some 4902%Z)
           then (reply_add provider, issued w [read; switch; add])
           else (Thrown switchError, issued w [read; switch])
       end).
Proof.
  intros Hp Hc target read switch add.
  assert (toLowerCase current = toLowerCase target →
          LiquidEvmBase.ensureAlgorandChain this w = (Returned tt, issued w [read])) as Hsame.
  { intros Heq. unfold LiquidEvmBase.ensureAlgorandChain. run.
    rewrite Hp. simpl. rewrite Hc. simpl.
    unfold LiquidEvmBase.sameChainId. fold target. rewrite Heq.
    by rewrite String.eqb_refl. }
  split; [|split; [exact Hsame|split]].
  - intros ->. split; [by apply Hsame|].
    rewrite (Signer_chain_guard this provider target w Hp Hc).
    fold target. by rewrite String.eqb_refl.
  - intros Hne. unfold LiquidEvmBase.ensureAlgorandChain. run.
    rewrite Hp. simpl. rewrite Hc. simpl.
    unfold LiquidEvmBase.sameChainId. fold target.
    destruct (String.eqb_spec (toLowerCase current) (toLowerCase target)) as [Heq|_];
      [done|].
    destruct (reply_switch provider) as [[]|e]; simpl.
    + by rewrite <- app_assoc.
    + unfold LiquidEvmBase.chainUnknown, LiquidEvmBase.unknown_chain_codes.
      destruct (err_code e) as [code|]; [|run; by rewrite <- !app_assoc].
      destruct (bool_decide (code ∈ [4902; -32600; -32603]%Z)); run;
        by rewrite <- !app_assoc.
  - intros Hne.
    rewrite (Signer_chain_guard this provider current w Hp Hc). fold target.
    by destruct (String.eqb_spec current target).
Qed.

Lemma C5_chain_guard_witness :
  LiquidEvmBase.ensureAlgorandChain (Sample.wallet Sample.on_algorand) Sample.fresh
  = (Returned tt, issued Sample.fresh [ProviderRequest eth_chainId])
  ∧ LiquidEvmBase.ensureAlgorandChain (Sample.wallet (Sample.on_mainnet (Some 4902%Z)))
      Sample.fresh
    = (Returned tt,
       issued Sample.fresh
         [ProviderRequest eth_chainId;
          ProviderRequest (wallet_switchEthereumChain "0x1040");
          ProviderRequest (wallet_addEthereumChain Sample.chain_config)])
  ∧ LiquidEvmBaseSigner.ensureAlgorandChain
      (Sample.wallet (Sample.on_mainnet (Some (-32603)%Z))) Sample.fresh
    = (Thrown {| err_code := Some (-32603)%Z; err_message := "Unrecognized chain ID" |},
       issued Sample.fresh
         [ProviderRequest eth_chainId;
          ProviderRequest (wallet_switchEthereumChain "0x1040")]).
Proof.
  split; [|split].
  - exact (proj1 (proj1 (C5_chain_guard (Sample.wallet Sample.on_algorand)
                           Sample.on_algorand "0x1040" Sample.fresh eq_refl eq_refl)
                    eq_refl)).
  - refine (proj1 (proj2 (proj2 (C5_chain_guard
              (Sample.wallet (Sample.on_mainnet (Some 4902%Z)))
              (Sample.on_mainnet (Some 4902%Z)) "0x1" Sample.fresh eq_refl eq_refl))) _).
    vm_compute. discriminate.
  - refine (proj2 (proj2 (proj2 (C5_chain_guard
              (Sample.wallet (Sample.on_mainnet (Some (-32603)%Z)))
              (Sample.on_mainnet (Some (-32603)%Z)) "0x1" Sample.fresh eq_refl eq_refl))) _).
    discriminate.
Defined.

(** ** The failure path *)

(** For a caught value that is an object, the [catch] block on any caught
    value is the [catch] block of the model: the hook is told, the value is
    rethrown. *)
Lemma catch_any_object (this : Env) (error : JsError) (w : World) :
  signTransactions_catch_any this (ThrownObject error) w
  = (ThrownObject error, (LiquidEvmBase.signTransactions_catch this error w).2)
  ∧ (LiquidEvmBase.signTransactions_catch this error w).1 = Thrown error.
Proof.
  rewrite signTransactions_catch_eval.
  unfold signTransactions_catch_any, message_of, try_catch.
  destruct (nullish (options_onAfterSign this) (manager_onAfterSign this)) as [hook|];
    [|done].
  unfold mbind, M_bind, bind, await, log, ret, issued. simpl.
  by destruct (hook false (Some (err_message error))) as [[]|e].
Qed.

(** C9: a call of [signTransactions] whose [try] block is rejected with
    [undefined] or [null] (a before-sign hook that ends in
    [Promise.reject()]) fails differently from what the [catch] block is
    written to do: reading [error.message] throws a TypeError, inside the
    inner [try] before the after-sign hook could be called, and again for
    the logger, so that no hook is told of the failure and the caller
    receives the TypeError in place of the original value.  For every caught
    object the hook is told and the object is rethrown. *)
Theorem C9_rejection_without_object (this : Env) (w : World) :
  signTransactions_catch_any this ThrownUndefined w
    = (ThrownObject (cannot_read "undefined" "message"), w)
  ∧ signTransactions_catch_any this ThrownNull w
    = (ThrownObject (cannot_read "null" "message"), w)
  ∧ ∀ error : JsError,
      signTransactions_catch_any this (ThrownObject error) w
      = (ThrownObject error,
         issued w (after_log this false (Some (err_message error)))).
Proof.
  split; [|split].
  - unfold signTransactions_catch_any, try_catch. simpl.
    destruct (nullish (options_onAfterSign this) (manager_onAfterSign this)); by destruct w.
  - unfold signTransactions_catch_any, try_catch. simpl.
    destruct (nullish (options_onAfterSign this) (manager_onAfterSign this)); by destruct w.
  - intros error. rewrite (proj1 (catch_any_object this error w)).
    rewrite signTransactions_catch_eval. unfold after_log. simpl.
    destruct (nullish (options_onAfterSign this) (manager_onAfterSign this)); [done|].
    by rewrite issued_empty.
Qed.

(** ** The after-sign hook and the store *)

(** X11: what an after-sign hook returns or throws never reaches the caller
    of [signTransactions]: with any after-sign hooks, instance-level or
    manager-level, the call returns the same array or throws the same error
    as with none, and the SDK is asked to sign the same.  (A hook is taken
    here by what it returns or throws; what a hook does to the wallet by
    calls of its own is not part of the statement.) *)
Theorem X11_after_hook_outcome_dropped (this : Env)
    (o m : option (bool → option string → Outcome unit))
    (input : SignInput) (indexFilter : option (list Z)) (w : World) :
  let hooked := LiquidEvmBase.signTransactions (with_onAfterSign this o m) input indexFilter w in
  let plain := LiquidEvmBase.signTransactions (with_onAfterSign this None None)
                 input indexFilter w in
  hooked.1 = plain.1
  ∧ filter is_sign_call (calls hooked.2) = filter is_sign_call (calls plain.2).
Proof.
  simpl.
  destruct (run_without_after_hook this o m input indexFilter w) as (cs & Hcs & ->).
  simpl. by rewrite filter_app, Hcs, app_nil_r.
Qed.

Lemma rebuilt_keeps_keys (persisted : list WalletAccount) :
  ∀ (m : gmap string string) (k : string),
    is_Some (m !! k) → is_Some (rebuilt m persisted !! k).
Proof.
  unfold rebuilt.
  induction persisted as [|a l IH]; intros m k Hk; [done|]. simpl.
  apply IH. destruct (if_truthy (metadata a ≫= evmAddress)) as [evm|]; [|done].
  apply lookup_insert_is_Some'. by right.
Qed.

(** X12: [signTransactions] never writes the persisted session, and the
    only change it makes to the address map is the refill from the persisted
    accounts, which happens only when there is an entry to sign and the map
    has no (non-empty) source address for the sender of the first one; no
    key of the map is ever removed. *)
Theorem X12_sign_leaves_store (this : Env) (input : SignInput)
    (indexFilter : option (list Z)) (w : World) :
  let w' := (LiquidEvmBase.signTransactions this input indexFilter w).2 in
  walletState w' = walletState w
  ∧ (evmAddressMap w' = evmAddressMap w
     ∨ ∃ ws flat first rest,
         walletState w = Some ws
         ∧ LiquidEvmBase.flatten_and_decode this input = Returned flat
         ∧ LiquidEvmBase.select_txnsToSign this input flat indexFilter
           = Returned (first :: rest)
         ∧ if_truthy (evmAddressMap w !! sender first) = None
         ∧ evmAddressMap w' = rebuilt (evmAddressMap w) (accounts ws))
  ∧ (∀ k, is_Some (evmAddressMap w !! k) → is_Some (evmAddressMap w' !! k)).
Proof.
  cbv zeta.
  assert (walletState (LiquidEvmBase.signTransactions this input indexFilter w).2
          = walletState w
          ∧ (evmAddressMap (LiquidEvmBase.signTransactions this input indexFilter w).2
             = evmAddressMap w
             ∨ ∃ ws flat first rest,
                 walletState w = Some ws
                 ∧ LiquidEvmBase.flatten_and_decode this input = Returned flat
                 ∧ LiquidEvmBase.select_txnsToSign this input flat indexFilter
                   = Returned (first :: rest)
                 ∧ if_truthy (evmAddressMap w !! sender first) = None
                 ∧ evmAddressMap (LiquidEvmBase.signTransactions this input indexFilter w).2
                   = rebuilt (evmAddressMap w) (accounts ws))) as [Hstore Hmap'].
  { rewrite signTransactions_cases, signTransactions_try_cases.
    destruct (LiquidEvmBase.initializeEvmSdk this w) as [o1 w1] eqn:Hinit.
    destruct (initializeEvmSdk_frame this _ _ _ Hinit) as (Hmap & Hws & _).
    destruct o1 as [[]|e]; [|simpl; split; [done|by left]].
    destruct (LiquidEvmBase.flatten_and_decode this input) as [flat|e] eqn:Hflat;
      [|simpl; split; [done|by left]].
    destruct (LiquidEvmBase.select_txnsToSign this input flat indexFilter)
      as [[|first rest]|e] eqn:Hsel;
      [simpl; split; [done|by left]| |simpl; split; [done|by left]].
    destruct (resolved_frame w1 (sender first)) as (Hws2 & Hmap2).
    assert (walletState (resolved w1 (sender first)).2 = walletState w
            ∧ (evmAddressMap (resolved w1 (sender first)).2 = evmAddressMap w
               ∨ ∃ ws flat' first' rest',
                   walletState w = Some ws
                   ∧ Returned flat = Returned flat'
                   ∧ LiquidEvmBase.select_txnsToSign this input flat' indexFilter
                     = Returned (first' :: rest')
                   ∧ if_truthy (evmAddressMap w !! sender first') = None
                   ∧ evmAddressMap (resolved w1 (sender first)).2
                     = rebuilt (evmAddressMap w) (accounts ws))) as Hres.
    { split; [congruence|]. destruct Hmap2 as [H|(ws & H1 & Hnone & H2)].
      - left. congruence.
      - right. exists ws, flat, first, rest. split; [congruence|].
        split; [done|]. split; [done|]. unfold reverseLookup in Hnone.
        split; [by rewrite <- Hmap|]. by rewrite H2, Hmap. }
    destruct (resolved w1 (sender first)) as [[evm|] w2]; simpl in Hres; [|by simpl].
    destruct (sign_with_only_logs this input indexFilter flat evm w2) as (cs & Hcs).
    destruct (LiquidEvmBase.sign_with this input indexFilter flat evm w2) as [[r|e] w3];
      simpl in Hcs; subst w3; by simpl. }
  split; [exact Hstore|]. split; [exact Hmap'|].
  intros k Hk. destruct Hmap' as [->|(ws & flat & first & rest & _ & _ & _ & _ & ->)]; [done|].
  by apply rebuilt_keeps_keys.
Qed.

(** ** Connecting *)

(** C7: when the provider reports a non-empty list of source addresses,
    [connect] returns one account per address, in the order of the list.
    Over [deriveAlgorandAccounts] of [LiquidEvmBaseWallet] the metadata of
    each account holds the address it was derived from; the accounts that
    [MetaMaskWallet.deriveAlgorandAccounts] builds carry a name and an
    address and no metadata. *)
Theorem C7_connect_accounts (this : Env) (provider : Provider) (evmAddresses : list string)
    (target : string → string) (w w1 : World) :
  initializeProvider this = Returned tt →
  LiquidEvmBase.initializeEvmSdk this w = (Returned tt, w1) →
  getEvmProvider this = Returned provider →
  reply_requestAccounts provider = Returned evmAddresses →
  evmAddresses ≠ [] →
  (∀ evm, evm ∈ evmAddresses → sdk_getAddress this evm = Returned (target evm)) →
  (∀ onConnect a b,
     nullish (options_onConnect this) (manager_onConnect this) = Some onConnect →
     onConnect a b = Returned tt) →
  (∃ accts w',
     LiquidEvmBase.connect this w = (Returned accts, w')
     ∧ length accts = length evmAddresses
     ∧ address <$> accts = target <$> evmAddresses
     ∧ (λ a, metadata a ≫= evmAddress) <$> accts = Some <$> evmAddresses
     ∧ ∀ i evm, evmAddresses !! i = Some evm →
         ∃ acct, accts !! i = Some acct ∧ metadata acct ≫= evmAddress = Some evm)
  ∧ (∃ accts w',
       MetaMask.connect this w = (Returned accts, w')
       ∧ length accts = length evmAddresses
       ∧ address <$> accts = target <$> evmAddresses
       ∧ ∀ acct, acct ∈ accts → metadata acct = None).
Proof.
  intros Hprov Hinit Hget Hreq Hne Hok Hhook.
  pose proof (initializeEvmSdk_sets this _ _ Hinit) as Hready.
  split.
  - exists (derived_account this None target <$> evmAddresses).
    assert (length (derived_account this None target <$> evmAddresses) = length evmAddresses
            ∧ address <$> (derived_account this None target <$> evmAddresses)
              = target <$> evmAddresses
            ∧ (λ a, metadata a ≫= evmAddress)
                <$> (derived_account this None target <$> evmAddresses)
              = Some <$> evmAddresses
            ∧ ∀ i evm, evmAddresses !! i = Some evm →
                ∃ acct, (derived_account this None target <$> evmAddresses) !! i = Some acct
                        ∧ metadata acct ≫= evmAddress = Some evm) as Hprops.
    { split; [by rewrite length_fmap|].
      split; [by rewrite <- list_fmap_compose|].
      split; [apply derived_sources|].
      intros i evm Hi. exists (derived_account this None target evm).
      split; [|done]. by rewrite list_lookup_fmap, Hi. }
    unfold LiquidEvmBase.connect.
    rewrite (bind_await _ _ _ _ Hprov), (bind_returned _ _ _ _ _ Hinit).
    rewrite (bind_await _ _ _ _ Hget).
    unfold request_accounts.
    erewrite bind_returned.
    2: { erewrite bind_returned; [|reflexivity]. unfold await. by rewrite Hreq. }
    destruct evmAddresses as [|firstEvm others]; [done|].
    set (l := firstEvm :: others) in *.
    erewrite bind_returned.
    2: { apply (deriveAlgorandAccounts_eval this None target l); [|exact Hok].
         by apply initializeEvmSdk_ready. }
    erewrite bind_returned; [|reflexivity].
    set (accts := derived_account this None target <$> l) in *.
    assert (head accts = Some (derived_account this None target firstEvm)) as -> by done.
    unfold LiquidEvmBase.notifyConnect.
    destruct (nullish (options_onConnect this) (manager_onConnect this)) as [hook|] eqn:E.
    + erewrite bind_returned.
      2: { erewrite bind_returned; [|reflexivity]. unfold await.
           by rewrite (Hhook hook _ _ eq_refl). }
      eexists. split; [reflexivity|]. exact Hprops.
    + eexists. split; [reflexivity|]. exact Hprops.
  - exists (imap (MetaMask_account this target) evmAddresses).
    unfold MetaMask.connect.
    rewrite (bind_await _ _ _ _ Hprov), (bind_returned _ _ _ _ _ Hinit).
    rewrite (bind_await _ _ _ _ Hget).
    erewrite bind_returned.
    2: { unfold try_catch, request, mbind, M_bind, bind, log, await. simpl.
         destruct (reply_requestPermissions provider) as [[]|e]; reflexivity. }
    unfold request_accounts.
    erewrite bind_returned.
    2: { erewrite bind_returned; [|reflexivity]. unfold await. by rewrite Hreq. }
    destruct evmAddresses as [|firstEvm others]; [done|].
    set (l := firstEvm :: others) in *.
    unfold MetaMask.deriveAlgorandAccounts.
    erewrite bind_returned.
    2: { erewrite bind_returned; [|by apply initializeEvmSdk_ready].
         by apply (MetaMask_derive_loop_eval this target l 0 []). }
    erewrite bind_returned; [|reflexivity].
    eexists. split; [reflexivity|].
    split; [by rewrite length_imap|]. split.
    + apply list_eq. intros i. rewrite !list_lookup_fmap, list_lookup_imap.
      by destruct (l !! i).
    + intros acct Hin. apply elem_of_lookup_imap in Hin as (i & evm & -> & _). done.
Qed.

Lemma C7_connect_accounts_witness :
  (∃ accts w',
     LiquidEvmBase.connect (Sample.wallet Sample.on_algorand) Sample.fresh = (Returned accts, w')
     ∧ length accts = 2
     ∧ address <$> accts = ["ALGO:0xA"; "ALGO:0xB"]
     ∧ (λ a, metadata a ≫= evmAddress) <$> accts = [Some "0xA"; Some "0xB"]
     ∧ ∀ i evm, ["0xA"; "0xB"] !! i = Some evm →
         ∃ acct, accts !! i = Some acct ∧ metadata acct ≫= evmAddress = Some evm)
  ∧ (∃ accts w',
       MetaMask.connect (Sample.wallet Sample.on_algorand) Sample.fresh = (Returned accts, w')
       ∧ length accts = 2
       ∧ address <$> accts = ["ALGO:0xA"; "ALGO:0xB"]
       ∧ ∀ acct, acct ∈ accts → metadata acct = None).
Proof.
  refine (C7_connect_accounts (Sample.wallet Sample.on_algorand) Sample.on_algorand
            ["0xA"; "0xB"] (λ evm, "ALGO:" +:+ evm) Sample.fresh
            {| evmAddressMap := ∅; liquidEvmSdk := true; algorandClient := true;
               walletState := None; calls := [] |}
            eq_refl eq_refl eq_refl eq_refl _ _ _).
  - discriminate.
  - intros evm _. reflexivity.
  - intros onConnect a b H. simpl in H. discriminate H.
Defined.

(** The accounts of [MetaMaskWallet.connect] for the addresses 0xA and 0xB:
    none records the address it was derived from. *)
Lemma C7_metamask_accounts_without_source :
  ∃ accts w',
    MetaMask.connect (Sample.wallet Sample.on_algorand) Sample.fresh = (Returned accts, w')
    ∧ (λ a, metadata a ≫= evmAddress) <$> accts = [None; None]
    ∧ (λ a, metadata a ≫= evmAddress) <$> accts ≠ Some <$> ["0xA"; "0xB"].
Proof.
  eexists _, _. split; [vm_compute; reflexivity|]. split; [reflexivity|]. discriminate.
Qed.

(** ** Signing: nothing to sign, and the source address *)

Section revisions.
Context (this : Env).






End revisions.







